(** * absmap: the gesture-detection engine of [absmap.py]

    A shallow embedding of the [VelocityTracker] class and of the event loop
    of [main], with the properties of the sample buffer, the motion
    estimator, the gesture classifier and the cooldown-gated dispatch loop.
    A second part embeds the code around the engine: the validation of the
    configuration, the search for the device, the start-up of [main], and the
    sink that emits keys or runs a command.

    Python values are modelled as the program has them:
    - a timestamp ([event.timestamp()]) and every quantity derived from it is
      a binary64 float, here Rocq's primitive [float] with the IEEE 754
      operations Python uses;
    - a sample value ([event.value]) is a Python [int], here [Z]; evdev
      delivers it as a C [int], so its conversion to a float in [int / float]
      is exact (Python raises [OverflowError] only for an [int] beyond the
      binary64 range, where [Z2float] gives infinity);
    - a float division raises [ZeroDivisionError] on a zero divisor, an
      index out of range raises [IndexError], and reading an attribute that
      was never assigned raises [AttributeError];
    - a method of the tracker is a computation in a state and exception
      monad over the tracker's attributes: Python mutates [self] in place and
      a raised exception keeps the mutations made before it. *)

From Stdlib Require Import ZArith List Bool String Lia.
From Stdlib Require Import Floats.
Import ListNotations.

#[local] Set Warnings "-inexact-float".

Local Open Scope Z_scope.

(** ** Python numbers *)

(** [float(z)] for a Python int, as [int / float] and [int * float] convert
    their int operand: the nearest binary64 value, ties to even. *)
Definition Z2float (z : Z) : float :=
  SF2Prim (binary_normalize prec emax z 0 false).

Arguments Z2float : simpl never.

(** ** Exceptions and the state monad of a Python object *)

Inductive exn : Type :=
| IndexError
| ZeroDivisionError
| AttributeError.

Inductive result (A : Type) : Type :=
| Ok (a : A)
| Raise (e : exn).

Arguments Ok {A} a.
Arguments Raise {A} e.

(** A computation over a mutable state [S]: it returns or raises, and in both
    cases leaves the state it has reached. *)
Definition M (S A : Type) : Type := S -> result A * S.

Definition ret {S A : Type} (a : A) : M S A := fun s => (Ok a, s).

Definition bind {S A B : Type} (c : M S A) (k : A -> M S B) : M S B :=
  fun s =>
    match c s with
    | (Ok a, s') => k a s'
    | (Raise e, s') => (Raise e, s')
    end.

Definition raise {S A : Type} (e : exn) : M S A := fun s => (Raise e, s).

Definition gets {S A : Type} (f : S -> A) : M S A := fun s => (Ok (f s), s).

Definition modify {S : Type} (f : S -> S) : M S unit := fun s => (Ok tt, f s).

Declare Scope py_scope.
Delimit Scope py_scope with py.

Notation "x <- c ;; k" := (bind c (fun x => k))
  (at level 100, c at next level, right associativity) : py_scope.
Notation "c ;;; k" := (bind c (fun _ => k))
  (at level 100, right associativity) : py_scope.

Local Open Scope py_scope.

(** The value and the final state of a computation. *)
Definition value_of {S A : Type} (c : M S A) (s : S) : result A := fst (c s).
Definition state_of {S A : Type} (c : M S A) (s : S) : S := snd (c s).

(** ** Python lists *)

Section PyList.
Context {A : Type}.

(** [len(l)] *)
Definition len (l : list A) : Z := Z.of_nat (List.length l).

(** [l[i]]: a negative index counts from the end; out of range raises. *)
Definition getitem (l : list A) (i : Z) : result A :=
  let j := if i <? 0 then i + len l else i in
  if (j <? 0) || (len l <=? j) then Raise IndexError
  else match nth_error l (Z.to_nat j) with
       | Some x => Ok x
       | None => Raise IndexError
       end.

(** [l.pop(0)]: the first element and the list left, or [IndexError]. *)
Definition pop0 (l : list A) : result (A * list A) :=
  match l with
  | [] => Raise IndexError
  | x :: r => Ok (x, r)
  end.
End PyList.

(** ** Python float division *)

(** [x / y] on floats: a zero divisor (of either sign) raises. *)
Definition truediv {S : Type} (x y : float) : M S float :=
  if (y =? 0)%float then raise ZeroDivisionError else ret (x / y)%float.

(** ** The tracker *)

Definition Sample : Type := (float * Z)%type.

Inductive Gesture : Type := Up | Down.

(** The attributes of a [VelocityTracker]. [velocity] and [acceleration] are
    not created by [__init__]: they exist only once [detect_gesture] has
    assigned them ([None] is the missing attribute). *)
Record VelocityTracker : Type := mkTracker {
  velocity_threshold : float;
  acceleration_enabled : bool;
  history : list Sample;
  max_history : Z;
  velocity : option float;
  acceleration : option float
}.

(** [VelocityTracker.__init__] *)
Definition init (velocity_threshold : float) (acceleration_enabled : bool)
  (history_size : Z) : VelocityTracker :=
  mkTracker velocity_threshold acceleration_enabled [] history_size None None.

Definition set_history (h : list Sample) (s : VelocityTracker) : VelocityTracker :=
  mkTracker (velocity_threshold s) (acceleration_enabled s) h (max_history s)
            (velocity s) (acceleration s).

Definition set_velocity (v : float) (s : VelocityTracker) : VelocityTracker :=
  mkTracker (velocity_threshold s) (acceleration_enabled s) (history s)
            (max_history s) (Some v) (acceleration s).

Definition set_acceleration (a : float) (s : VelocityTracker) : VelocityTracker :=
  mkTracker (velocity_threshold s) (acceleration_enabled s) (history s)
            (max_history s) (velocity s) (Some a).

(** Reading an attribute that was never assigned raises [AttributeError]. *)
Definition getattr {S A : Type} (f : S -> option A) : M S A :=
  fun s => match f s with
           | Some a => (Ok a, s)
           | None => (Raise AttributeError, s)
           end.

(** Lifting a list operation that may raise. *)
Definition lift {S A : Type} (r : result A) : M S A := fun s => (r, s).

Definition T : Type -> Type := M VelocityTracker.

(** [VelocityTracker.clear]: [self.history.clear()] *)
Definition clear : T unit := modify (set_history []).

(** [VelocityTracker.add_sample] *)
Definition add_sample (timestamp : float) (value : Z) : T unit :=
  if value =? 0 then clear
  else
    modify (fun s => set_history (history s ++ [(timestamp, value)]) s) ;;;
    h <- gets history ;;
    m <- gets max_history ;;
    if len h >? m then
      p <- lift (pop0 h) ;;
      modify (set_history (snd p))
    else ret tt.

(** [VelocityTracker.get_velocity] *)
Definition get_velocity : T float :=
  h <- gets history ;;
  if len h <? 2 then ret 0%float
  else
    s1 <- lift (getitem h 0) ;;
    s2 <- lift (getitem h (-1)) ;;
    let '(t1, v1) := s1 in
    let '(t2, v2) := s2 in
    let dt := (t2 - t1)%float in
    if (dt =? 0)%float then ret 0%float
    else
      let dv := v2 - v1 in
      truediv (Z2float dv) dt.

(** [VelocityTracker.get_acceleration] *)
Definition get_acceleration : T float :=
  en <- gets acceleration_enabled ;;
  h <- gets history ;;
  if negb en || (len h <? 3) then ret 0%float
  else
    s1 <- lift (getitem h 0) ;;
    s2 <- lift (getitem h (len h / 2)) ;;
    s3 <- lift (getitem h (-1)) ;;
    let '(t1, v1) := s1 in
    let '(t2, v2) := s2 in
    let '(t3, v3) := s3 in
    let dt1 := (t2 - t1)%float in
    let dt2 := (t3 - t2)%float in
    if (dt1 =? 0)%float || (dt2 =? 0)%float then ret 0%float
    else
      vel1 <- truediv (Z2float (v2 - v1)) dt1 ;;
      vel2 <- truediv (Z2float (v3 - v2)) dt2 ;;
      mean <- truediv (dt1 + dt2)%float (Z2float 2) ;;
      truediv (vel2 - vel1)%float mean.

(** [VelocityTracker.detect_gesture] *)
Definition detect_gesture : T (option Gesture) :=
  h <- gets history ;;
  if len h <? 2 then ret None
  else
    v <- get_velocity ;;
    modify (set_velocity v) ;;;
    v <- getattr velocity ;;
    let abs_velocity := abs v in
    thr <- gets velocity_threshold ;;
    if (abs_velocity <? thr)%float then
      modify (set_acceleration 0) ;;;
      ret None
    else
      en <- gets acceleration_enabled ;;
      multiplier <-
        (if en then
           accel <- get_acceleration ;;
           modify (set_acceleration accel) ;;;
           v <- getattr velocity ;;
           a <- getattr acceleration ;;
           if (0 <? v)%float && (a <? 0)%float then ret 1.5%float
           else if (v <? 0)%float && (0 <? a)%float then ret 1.5%float
           else if (0 <? v)%float && (0 <? a)%float then ret 0.7%float
           else if (v <? 0)%float && (a <? 0)%float then ret 0.7%float
           else ret 1%float
         else
           modify (set_acceleration 0) ;;;
           ret 1%float) ;;
      thr <- gets velocity_threshold ;;
      let threshold := (thr * multiplier)%float in
      if (abs_velocity <? threshold)%float then ret None
      else
        v <- getattr velocity ;;
        ret (Some (if (0 <? v)%float then Up else Down)).

(** ** The configuration read by [main] *)

(** The [action] mapping of a gesture: its [keys] and [command] entries, and
    whether it holds entries under other names. *)
Record Action : Type := mkAction {
  keys : option (list string);
  command : option string;
  other_entries : bool
}.

(** Python truth value of the mapping: a dict is true when it is not empty. *)
Definition truthy (a : Action) : bool :=
  match keys a, command a with
  | None, None => other_entries a
  | _, _ => true
  end.

(** An entry of [gestures]: [action] is [None] when the entry has no
    ['action'] key, which is what [gesture_config.get('action')] returns. *)
Record GestureConfig : Type := mkGestureConfig {
  action : option Action
}.

(** The [gestures] mapping, keyed by gesture name. *)
Definition Gestures : Type := list (string * GestureConfig).

Fixpoint lookup (k : string) (d : Gestures) : option GestureConfig :=
  match d with
  | [] => None
  | (k', v) :: r => if String.eqb k k' then Some v else lookup k r
  end.

(** The name [detect_gesture] returns for a gesture. *)
Definition gesture_name (g : Gesture) : string :=
  match g with
  | Up => "up"
  | Down => "down"
  end.

(** The part of [validate_config] that checks [gestures], for one name. *)
Definition validate_gesture (name : string) (gestures : Gestures) : list string :=
  match lookup name gestures with
  | None => []
  | Some gc =>
      match action gc with
      | None => [("Gesture '" ++ name ++ "': missing 'action'")%string]
      | Some a =>
          match keys a, command a with
          | None, None =>
              [("Action for gesture '" ++ name ++ "': missing 'keys/command'")%string]
          | _, _ => []
          end
      end
  end.

(** [validate_config] on a configuration that has its [device], [axis] and
    [gestures] sections: the errors found in [gestures]. *)
Definition validate_config (gestures : Gestures) : list string :=
  validate_gesture "up" gestures ++ validate_gesture "down" gestures.

(** The settings [main] reads, with the axis code it resolves. The threshold
    is a float ([3.0] by default; one given as an int acts as its float), the
    cooldown an int of milliseconds: Python compares a float with it exactly,
    which below 2^53 is the comparison with its float. *)
Module Config.
Record t : Type := mk {
  axis_code : Z;
  velocity_threshold : float;
  acceleration : bool;
  cooldown_ms : Z;
  key_delay_ms : Z;
  history_size : Z;
  gestures : Gestures
}.
End Config.

(** ** The event loop of [main] *)

(** [ecodes.EV_ABS], the type of an absolute-axis event. *)
Definition EV_ABS : Z := 3.

(** An event of [device.read_loop()]; [timestamp] is [event.timestamp()]. *)
Record Event : Type := mkEvent {
  ev_type : Z;
  ev_code : Z;
  ev_value : Z;
  ev_timestamp : float
}.

(** A call of [execute_action], recorded with the gesture that caused it and
    the clock reading [current_time] of its iteration. *)
Record Dispatch : Type := mkDispatch {
  d_time : float;
  d_gesture : Gesture;
  d_action : Action
}.

(** The variables of the loop: the tracker, [last_gesture_time], and the
    calls made to the action sink so far. *)
Record LoopState : Type := mkLoop {
  tracker : VelocityTracker;
  last_gesture_time : float;
  dispatched : list Dispatch
}.

Definition L : Type -> Type := M LoopState.

(** A method call on [tracker]. *)
Definition on_tracker {A : Type} (c : T A) : L A :=
  fun s =>
    let '(r, tr) := c (tracker s) in
    (r, mkLoop tr (last_gesture_time s) (dispatched s)).

Definition set_last_gesture_time (t : float) (s : LoopState) : LoopState :=
  mkLoop (tracker s) t (dispatched s).

(** [execute_action(action, uinput, key_delay_ms)]: the sink catches its own
    errors, so the call returns; the model records it. *)
Definition execute_action (now : float) (g : Gesture) (a : Action) : L unit :=
  modify (fun s => mkLoop (tracker s) (last_gesture_time s)
                          (dispatched s ++ [mkDispatch now g a])).

(** The state [main] enters the loop with. *)
Definition loop_init (cfg : Config.t) : LoopState :=
  mkLoop (init (Config.velocity_threshold cfg) (Config.acceleration cfg)
               (Config.history_size cfg))
         0%float [].

(** One iteration of [for event in device.read_loop()]. [clock] is what
    [time.time()] returns in this iteration. *)
Definition loop_body (cfg : Config.t) (event : Event) (clock : float) : L unit :=
  if (ev_type event =? EV_ABS) && (ev_code event =? Config.axis_code cfg) then
    let value := ev_value event in
    let timestamp := ev_timestamp event in
    on_tracker (add_sample timestamp value) ;;;
    gesture <- on_tracker detect_gesture ;;
    match gesture with
    | None => ret tt
    | Some g =>
        let current_time := (clock * 1000)%float in
        last <- gets last_gesture_time ;;
        if (current_time - last <? Z2float (Config.cooldown_ms cfg))%float then
          ret tt
        else
          match lookup (gesture_name g) (Config.gestures cfg) with
          | None => ret tt
          | Some gesture_config =>
              modify (set_last_gesture_time current_time) ;;;
              match action gesture_config with
              | None => ret tt
              | Some a =>
                  if truthy a then
                    execute_action current_time g a ;;;
                    on_tracker clear
                  else ret tt
              end
          end
    end
  else ret tt.

(** The loop over the events read, each with the clock reading of its
    iteration; an exception ends it. *)
Fixpoint main_loop (cfg : Config.t) (events : list (Event * float)) : L unit :=
  match events with
  | [] => ret tt
  | (event, clock) :: rest =>
      loop_body cfg event clock ;;; main_loop cfg rest
  end.

(** ** Call sequences *)

(** The two calls that write the buffer. *)
Inductive BufferCall : Type :=
| AddSample (timestamp : float) (value : Z)
| Clear.

Definition call (c : BufferCall) : T unit :=
  match c with
  | AddSample timestamp value => add_sample timestamp value
  | Clear => clear
  end.

(** Calls made one after the other on the same tracker. *)
Fixpoint calls (cs : list BufferCall) : T unit :=
  match cs with
  | [] => ret tt
  | c :: rest => call c ;;; calls rest
  end.

(** The methods of the class, as one call each. *)
Inductive Method : Type :=
| CallAddSample (timestamp : float) (value : Z)
| CallClear
| CallGetVelocity
| CallGetAcceleration
| CallDetectGesture.

(** The tracker a method call leaves, whether it returned or raised. *)
Definition invoke (m : Method) (tr : VelocityTracker) : VelocityTracker :=
  match m with
  | CallAddSample timestamp value => state_of (add_sample timestamp value) tr
  | CallClear => state_of clear tr
  | CallGetVelocity => state_of get_velocity tr
  | CallGetAcceleration => state_of get_acceleration tr
  | CallDetectGesture => state_of detect_gesture tr
  end.

(** No stored sample has value 0. *)
Definition no_zero_sample (h : list Sample) : Prop :=
  Forall (fun s : Sample => snd s <> 0) h.

(** The buffer invariant: within capacity, and no sample of value 0. *)
Definition buffer_ok (tr : VelocityTracker) : Prop :=
  len (history tr) <= max_history tr /\ no_zero_sample (history tr).

(** ** The estimator and the classifier as the specification words them *)

(** The velocity between the first and the last sample of the buffer. *)
Definition endpoint_velocity (first last : Sample) : float :=
  let dt := (fst last - fst first)%float in
  if (dt =? 0)%float then 0%float
  else (Z2float (snd last - snd first) / dt)%float.

(** Velocity and acceleration have strictly opposite signs. *)
Definition opposite_signs (v a : float) : bool :=
  ((0 <? v)%float && (a <? 0)%float) || ((v <? 0)%float && (0 <? a)%float).

(** Velocity and acceleration have strictly equal signs. *)
Definition equal_signs (v a : float) : bool :=
  ((0 <? v)%float && (0 <? a)%float) || ((v <? 0)%float && (a <? 0)%float).

(** The multiplier of the threshold. *)
Definition multiplier (enabled : bool) (v a : float) : float :=
  if enabled && opposite_signs v a then 1.5%float
  else if enabled && equal_signs v a then 0.7%float
  else 1%float.


(** The acceleration over the checkpoints [s1], [s2], [s3] (first, middle,
    last), with Python's division: a zero mean duration raises. *)
Definition checkpoint_acceleration (s1 s2 s3 : Sample) : result float :=
  let dt1 := (fst s2 - fst s1)%float in
  let dt2 := (fst s3 - fst s2)%float in
  if (dt1 =? 0)%float || (dt2 =? 0)%float then Ok 0%float
  else
    let vel1 := (Z2float (snd s2 - snd s1) / dt1)%float in
    let vel2 := (Z2float (snd s3 - snd s2) / dt2)%float in
    let mean := ((dt1 + dt2) / 2)%float in
    if (mean =? 0)%float then Raise ZeroDivisionError
    else Ok ((vel2 - vel1) / mean)%float.

(** ** Tracker states used as examples *)

(** Threshold 3.0, acceleration tracking enabled, and three samples whose
    velocity is 2.5 and whose acceleration is positive. *)
Definition speeding_up_below_base : VelocityTracker :=
  mkTracker 3 true [(0%float, 10); (1%float, 11); (2%float, 15)] 5 None None.

(** Acceleration tracking enabled, and three samples whose timestamps go
    back to that of the first one. *)
Definition clock_stepped_back : VelocityTracker :=
  mkTracker 3 true [(0%float, 1); (1%float, 2); (0%float, 3)] 5 None None.

(** A tracker that has classified two samples as a gesture. *)
Definition after_a_gesture : VelocityTracker :=
  state_of (add_sample 0 10 ;;; add_sample 1 20 ;;; detect_gesture)
           (init 3 false 5).

(** ** The dispatch loop as the specification words it *)

(** The action bound to a gesture: the [action] of its entry in [gestures],
    when there is one and it is true as a Python value. *)
Definition bound_action (gestures : Gestures) (g : Gesture) : option Action :=
  match lookup (gesture_name g) gestures with
  | None => None
  | Some gesture_config =>
      match action gesture_config with
      | None => None
      | Some a => if truthy a then Some a else None
      end
  end.

(** The loop handles the event: it is an absolute-axis event of the
    configured axis. *)
Definition handled (cfg : Config.t) (event : Event) : bool :=
  (ev_type event =? EV_ABS) && (ev_code event =? Config.axis_code cfg).

(** The cooldown has not lapsed at [now] (in milliseconds). *)
Definition cooling_down (cfg : Config.t) (last now : float) : bool :=
  (now - last <? Z2float (Config.cooldown_ms cfg))%float.

(** Any two calls of the sink that follow each other are not less than the
    cooldown apart. *)
Definition separated (cfg : Config.t) (l : list Dispatch) : Prop :=
  forall l1 d1 d2 l2,
    l = l1 ++ d1 :: d2 :: l2 ->
    cooling_down cfg (d_time d1) (d_time d2) = false.

(** [last_gesture_time] is the time of the latest call of the sink. *)
Definition gate_tracks_sink (st : LoopState) : Prop :=
  forall l d, dispatched st = l ++ [d] -> d_time d = last_gesture_time st.

(** ** A configuration and event streams used as examples *)

Definition key_up : Action := mkAction (Some ["KEY_UP"%string]) None false.

(** The default settings on axis [ABS_WHEEL], with an action bound to
    ['up'] alone. *)
Definition up_only (acceleration : bool) : Config.t :=
  Config.mk 8 3 acceleration 300 5 5 [("up"%string, mkGestureConfig (Some key_up))].

(** An event of the configured axis, read at the time it carries. *)
Definition axis_event (t : float) (value : Z) : Event * float :=
  (mkEvent EV_ABS 8 value t, t).

(** Five samples 10 ms apart, from [t0] on. *)
Definition five_samples (t0 : float) (v1 v2 v3 v4 v5 : Z) : list (Event * float) :=
  [axis_event t0 v1;
   axis_event (t0 + 0.01)%float v2;
   axis_event (t0 + 0.02)%float v3;
   axis_event (t0 + 0.03)%float v4;
   axis_event (t0 + 0.04)%float v5].

(** A rise that starts at value 0, and a rise that ends at 50 from rest. *)
Definition rise_from_zero (t0 : float) : list (Event * float) :=
  five_samples t0 0 12 25 37 50.

Definition rise_to_fifty (t0 : float) : list (Event * float) :=
  five_samples t0 10 20 30 40 50.

(** The loop state once a gesture was dispatched at 0 ms, holding one
    sample. *)
Definition dispatched_at_zero : LoopState :=
  mkLoop (mkTracker 3 false [(0%float, 10)] 5 None None)
         0%float [mkDispatch 0 Up key_up].

(** ** Binary64 values *)

(** Plus infinity, or a positive finite value whose mantissa is at least [k]. *)
Definition SFpositive_ge (k : Z) (x : spec_float) : Prop :=
  x = S754_infinity false \/
  exists m e, x = S754_finite false m e /\ k <= Zpos m.

(** A duration that is zero or positive, as time-ordered samples give. *)
Definition not_negative (dt : float) : bool :=
  (dt =? 0)%float || (0 <? dt)%float.

(** ** The buffer as a window, and time order *)

(** The last [n] elements of a list. *)
Definition lastn {A : Type} (n : nat) (l : list A) : list A :=
  skipn (List.length l - n) l.

(** The samples a sequence of calls leaves to be stored: those added since
    the last call that emptied the buffer ([clear], or [add_sample] with
    value 0), after the samples [acc] pending before it. *)
Fixpoint pending (acc : list Sample) (cs : list BufferCall) : list Sample :=
  match cs with
  | [] => acc
  | Clear :: rest => pending [] rest
  | AddSample timestamp value :: rest =>
      if value =? 0 then pending [] rest
      else pending (acc ++ [(timestamp, value)]) rest
  end.

(** Instants that are finite and in order: none is earlier than one before
    it in the list. *)
Definition times_ordered (ts : list float) : Prop :=
  Forall (fun t => is_finite t = true) ts /\
  ForallOrdPairs (fun a b => (a <=? b)%float = true) ts.

(** The timestamps of the events the loop handles. *)
Definition handled_times (cfg : Config.t) (events : list (Event * float)) : list float :=
  map (fun e => ev_timestamp (fst e))
      (filter (fun e => handled cfg (fst e)) events).

(** * Start-up and the action sink

    The code around the engine: [validate_config], [find_device],
    [get_axis_code], the part of [main] that leads to the loop, and
    [parse_key], [emit_keys], [execute_action]. What this code takes from the
    operating system, from evdev and from Python's built-ins is a field of a
    record ([Host], [Sink.Env]): the properties hold whatever these give. *)

(** ** Exceptions with a message *)

(** The exceptions this code raises or catches; [message] is [str(e)]. *)
Inductive error : Type :=
| ValueError (message : string)
| OSError (message : string).

Definition message_of (e : error) : string :=
  match e with
  | ValueError m => m
  | OSError m => m
  end.

(** A call that returns a value or raises. *)
Inductive outcome (A : Type) : Type :=
| Return (a : A)
| Throw (e : error).

Arguments Return {A} a.
Arguments Throw {A} e.

(** ** Python strings and mappings *)

(** [sub in s] on strings: [sub] occurs in [s]. *)
Fixpoint contains (sub s : string) : bool :=
  String.prefix sub s ||
  match s with
  | EmptyString => false
  | String _ rest => contains sub rest
  end.

(** [d.get(k)] on a mapping with string keys. *)
Fixpoint dict_get {V : Type} (k : string) (d : list (string * V)) : option V :=
  match d with
  | [] => None
  | (k', v) :: r => if String.eqb k k' then Some v else dict_get k r
  end.

(** ** The configuration file *)

(** The value of [yaml.safe_load] for a configuration whose sections are
    mappings and whose entries have the types the program computes with; a
    key that is absent is [None]. *)
Module Yaml.
Record Device : Type := mkDevice {
  path : option string;
  name : option string
}.

Record Settings : Type := mkSettings {
  velocity_threshold : option float;
  acceleration : option bool;
  cooldown : option Z;
  key_delay : option Z;
  history_size : option Z;
  grab : option bool
}.

Record t : Type := mk {
  device : option Device;
  axis : option string;
  gestures : option Gestures;
  settings : option Settings
}.

(** [{}], the default of [config.get('device', {})] and of
    [config.get('settings', {})]. *)
Definition no_device : Device := mkDevice None None.
Definition no_settings : Settings := mkSettings None None None None None None.
End Yaml.

(** [d.get(key, default)] once the entry is read. *)
Definition get_default {A : Type} (entry : option A) (default : A) : A :=
  match entry with
  | Some a => a
  | None => default
  end.

(** ** The host *)

(** What [os.stat] finds at a path, links followed. *)
Inductive FileType : Type :=
| RegularFile
| Directory
| CharacterDevice
| OtherFile.

(** The calls start-up makes outside the program. [stat] is [None] when the
    path does not resolve; [device_name p] is [InputDevice(p).name], which
    raises when the device cannot be opened; [lower] is [str.lower];
    [create_uinput] and [grab_device] give the exception [UInput()] and
    [device.grab()] raise, if any. *)
Record Host : Type := mkHost {
  stat : string -> option FileType;
  islink : string -> bool;
  readlink : string -> string;
  list_devices : list string;
  device_name : string -> outcome string;
  lower : string -> string;
  create_uinput : option error;
  grab_device : string -> option error
}.

(** [os.path.isfile]: an existing regular file, links followed. *)
Definition isfile (host : Host) (path : string) : bool :=
  match stat host path with
  | Some RegularFile => true
  | _ => false
  end.

(** ** Start-up *)

(** [ecodes.ABS_RX], [ecodes.ABS_RY], [ecodes.ABS_WHEEL]. *)
Definition ABS_RX : Z := 3.
Definition ABS_RY : Z := 4.
Definition ABS_WHEEL : Z := 8.

Definition axis_map : list (string * Z) :=
  [("ABS_RX"%string, ABS_RX); ("ABS_RY"%string, ABS_RY);
   ("ABS_WHEEL"%string, ABS_WHEEL)].

(** An exception no handler of [main] catches: the [KeyError] of
    [config[key]], or one raised outside the program. *)
Inductive Crash : Type :=
| KeyError (key : string)
| Raised (e : error).

(** How [main] ends before the loop, or the loop it enters: the exit status
    with the lines written to stderr, an exception nothing catches, or the
    device and the settings the loop runs with. *)
Inductive Started : Type :=
| Exit (status : Z) (stderr : list string)
| Uncaught (e : Crash)
| Listening (device_path : string) (cfg : Config.t) (grab : bool).

Module Startup.

(** The messages for the sections that are missing. *)
Definition missing_sections (config : Yaml.t) : list string :=
  (match Yaml.device config with
   | None => ["Missing 'device' section"%string]
   | Some _ => []
   end) ++
  (match Yaml.axis config with
   | None => ["Missing 'axis' field"%string]
   | Some _ => []
   end) ++
  (match Yaml.gestures config with
   | None => ["Missing 'gestures' section"%string]
   | Some _ => []
   end).

(** [validate_config(config)]; its second half, on [gestures], is
    [validate_config] above. *)
Definition validate_config (config : Yaml.t) : list string :=
  let errors := missing_sections config in
  match errors with
  | _ :: _ => errors
  | [] =>
      let gestures := get_default (Yaml.gestures config) [] in
      validate_config gestures
  end.

(** [get_axis_code(axis_name)] *)
Definition get_axis_code (axis_name : string) : outcome Z :=
  match dict_get axis_name axis_map with
  | None =>
      Throw (ValueError ("Unknown axis: " ++ axis_name ++ ". " ++
                         "Supported: " ++ String.concat ", " (map fst axis_map)))
  | Some code => Return code
  end.

(** The [for dev_path in list_devices()] loop of [find_device]. *)
Fixpoint search_devices (host : Host) (name_substr : string)
  (dev_paths : list string) : outcome string :=
  match dev_paths with
  | [] => Throw (ValueError ("No device found matching name: " ++ name_substr))
  | dev_path :: rest =>
      match device_name host dev_path with
      | Throw e => Throw e
      | Return dev_name =>
          if contains name_substr (lower host dev_name) then Return dev_path
          else search_devices host name_substr rest
      end
  end.

(** [find_device(config)] *)
Definition find_device (host : Host) (config : Yaml.t) : outcome string :=
  let device_config := get_default (Yaml.device config) Yaml.no_device in
  match Yaml.path device_config with
  | Some path =>
      if negb (isfile host path) then
        Throw (ValueError ("Device path not found: " ++ path))
      else if islink host path then Return (readlink host path)
      else Return path
  | None =>
      match Yaml.name device_config with
      | Some name =>
          let name_substr := lower host name in
          search_devices host name_substr (list_devices host)
      | None =>
          Throw (ValueError
                   "Config must specify either 'device.path' or 'device.name'")
      end
  end.

(** [main] from [validate_config(config)] to the loop. The handlers catch
    [(ValueError, OSError)] around the device, [ValueError] around the axis
    and [OSError] around [device.grab()]; [UInput()] is under no handler. *)
Definition main (host : Host) (config : Yaml.t) : Started :=
  let errors := validate_config config in
  match errors with
  | _ :: _ =>
      Exit 1 ("Error loading config from path: {config_path}"%string
              :: map (fun error => "  - " ++ error)%string errors)
  | [] =>
      match (match find_device host config with
             | Throw e => Throw e
             | Return device_path =>
                 match device_name host device_path with
                 | Throw e => Throw e
                 | Return _ => Return device_path
                 end
             end) with
      | Throw e => Exit 1 [("Device error: " ++ message_of e)%string]
      | Return device_path =>
          match Yaml.axis config with
          | None => Uncaught (KeyError "axis")
          | Some axis =>
              match get_axis_code axis with
              | Throw (ValueError m) => Exit 1 [("Config error: " ++ m)%string]
              | Throw e => Uncaught (Raised e)
              | Return axis_code =>
                  let settings := get_default (Yaml.settings config) Yaml.no_settings in
                  let velocity_threshold :=
                    get_default (Yaml.velocity_threshold settings) 3%float in
                  let acceleration := get_default (Yaml.acceleration settings) false in
                  let cooldown_ms := get_default (Yaml.cooldown settings) 300 in
                  let key_delay_ms := get_default (Yaml.key_delay settings) 5 in
                  let history_size := get_default (Yaml.history_size settings) 5 in
                  let grab := get_default (Yaml.grab settings) true in
                  match Yaml.gestures config with
                  | None => Uncaught (KeyError "gestures")
                  | Some gestures =>
                      match create_uinput host with
                      | Some e => Uncaught (Raised e)
                      | None =>
                          let cfg := Config.mk axis_code velocity_threshold acceleration
                                               cooldown_ms key_delay_ms history_size
                                               gestures in
                          if grab then
                            match grab_device host device_path with
                            | Some (OSError m) =>
                                Exit 1 [("Warning: Could not grab device: " ++ m)%string]
                            | Some e => Uncaught (Raised e)
                            | None => Listening device_path cfg grab
                            end
                          else Listening device_path cfg grab
                      end
                  end
              end
          end
      end
  end.

End Startup.

(** The devices the search passes over: they open, and their name does not
    match. *)
Definition passed_over (host : Host) (name_substr : string) (dev_path : string) : Prop :=
  exists dev_name,
    device_name host dev_path = Return dev_name /\
    contains name_substr (lower host dev_name) = false.

(** ** The action sink *)

Module Sink.

(** A key of an action: an [int] is used as it is; of any other value
    [parse_key] reads [str(key_str)], here [text]. *)
Inductive Key : Type :=
| KeyCode (code : Z)
| KeyText (text : string).

(** The [keys] entry: a list, or a single value. *)
Inductive Keys : Type :=
| Listed (keys : list Key)
| Single (key : Key).

(** The value [execute_action] is given: a mapping, of which it reads the
    entries [keys] and [command], or something else. *)
Inductive ActionValue : Type :=
| Mapping (keys : option Keys) (command : option string)
| NotMapping.

(** What [execute_action] prints to stderr. *)
Inductive Complaint : Type :=
| KeyEmitError (e : error)
| CommandError (e : error)
| InvalidAction
| InvalidActionType.

(** What the sink does to the world: [uinput.write], [uinput.syn],
    [time.sleep(key_delay/1000)], [subprocess.run(command, shell=True, ...)]
    and a line on stderr. *)
Inductive Effect : Type :=
| EvWrite (etype code value : Z)
| EvSyn
| Sleep (key_delay : Z)
| Shell (command : string)
| Complain (c : Complaint).

(** [ecodes.EV_KEY] *)
Definition EV_KEY : Z := 1.

(** The built-ins and the calls outside the program: [strip_upper s] is
    [s.strip().upper()], [int_of s] is [int(s)] ([None] when it raises
    [ValueError]), [ecodes name] is [getattr(ecodes, name, None)], and
    [fails done e] is the exception the call [e] raises, if any, when the
    calls [done] were made before it. *)
Record Env : Type := mkEnv {
  strip_upper : string -> string;
  int_of : string -> option Z;
  ecodes : string -> option Z;
  fails : list Effect -> Effect -> option error
}.

(** A computation of the sink: from the calls made so far, it returns or
    raises, with the calls made by then. *)
Definition IO (A : Type) : Type := list Effect -> outcome A * list Effect.

Definition unit_io {A : Type} (a : A) : IO A := fun done => (Return a, done).

Definition bind_io {A B : Type} (c : IO A) (k : A -> IO B) : IO B :=
  fun done =>
    match c done with
    | (Return a, done') => k a done'
    | (Throw e, done') => (Throw e, done')
    end.

Definition lift_io {A : Type} (r : outcome A) : IO A := fun done => (r, done).

Declare Scope io_scope.

Notation "x <- c ;; k" := (bind_io c (fun x => k))
  (at level 100, c at next level, right associativity) : io_scope.
Notation "c ;;; k" := (bind_io c (fun _ => k))
  (at level 100, right associativity) : io_scope.

Local Open Scope io_scope.

(** [try: c except Exception as e: handler(e)] *)
Definition try_except (c : IO unit) (handler : error -> IO unit) : IO unit :=
  fun done =>
    match c done with
    | (Return a, done') => (Return a, done')
    | (Throw e, done') => handler e done'
    end.

(** A call outside the program: made, unless it raises. [time.sleep] raises
    [ValueError] on a negative length. *)
Definition perform (env : Env) (e : Effect) : IO unit :=
  fun done =>
    match e with
    | Sleep key_delay =>
        if key_delay <? 0 then
          (Throw (ValueError "sleep length must be non-negative"), done)
        else
          match fails env done e with
          | Some err => (Throw err, done)
          | None => (Return tt, done ++ [e])
          end
    | Complain _ => (Return tt, done ++ [e])
    | _ =>
        match fails env done e with
        | Some err => (Throw err, done)
        | None => (Return tt, done ++ [e])
        end
    end.

(** [for x in xs: body(x)] *)
Fixpoint for_each {A : Type} (xs : list A) (body : A -> IO unit) : IO unit :=
  match xs with
  | [] => unit_io tt
  | x :: rest => body x ;;; for_each rest body
  end.

(** [parse_key(key_str)] *)
Definition parse_key (env : Env) (key_str : Key) : outcome Z :=
  match key_str with
  | KeyCode code => Return code
  | KeyText text =>
      let key_str := strip_upper env text in
      match int_of env key_str with
      | Some code => Return code
      | None =>
          let key_str :=
            if String.prefix "KEY_" key_str then key_str
            else ("KEY_" ++ key_str)%string in
          match ecodes env key_str with
          | None => Throw (ValueError ("Unknown key: " ++ key_str))
          | Some keycode => Return keycode
          end
      end
  end.

(** [[parse_key(k) for k in keys]]: the first key that does not parse
    raises. *)
Fixpoint parse_keys (env : Env) (keys : list Key) : outcome (list Z) :=
  match keys with
  | [] => Return []
  | k :: rest =>
      match parse_key env k with
      | Throw e => Throw e
      | Return keycode =>
          match parse_keys env rest with
          | Throw e => Throw e
          | Return keycodes => Return (keycode :: keycodes)
          end
      end
  end.

(** [keys] once [if not isinstance(keys, list): keys = [keys]] has run. *)
Definition key_list (keys : Keys) : list Key :=
  match keys with
  | Listed l => l
  | Single k => [k]
  end.

(** [emit_keys(uinput, keys, key_delay)] *)
Definition emit_keys (env : Env) (keys : Keys) (key_delay : Z) : IO unit :=
  let keys := key_list keys in
  keycodes <- lift_io (parse_keys env keys) ;;
  for_each keycodes (fun keycode => perform env (EvWrite EV_KEY keycode 1)) ;;;
  perform env EvSyn ;;;
  perform env (Sleep key_delay) ;;;
  for_each keycodes (fun keycode => perform env (EvWrite EV_KEY keycode 0)) ;;;
  perform env EvSyn.

(** [execute_action(action, uinput, key_delay)] *)
Definition execute_action (env : Env) (action : ActionValue) (key_delay : Z) : IO unit :=
  match action with
  | Mapping keys command =>
      match keys with
      | Some keys =>
          try_except (emit_keys env keys key_delay)
                     (fun e => perform env (Complain (KeyEmitError e)))
      | None =>
          match command with
          | Some command =>
              try_except (perform env (Shell command))
                         (fun e => perform env (Complain (CommandError e)))
          | None => perform env (Complain InvalidAction)
          end
      end
  | NotMapping => perform env (Complain InvalidActionType)
  end.

(** The calls that press, and those that release, the keys [keycodes]. *)
Definition presses (keycodes : list Z) : list Effect :=
  map (fun keycode => EvWrite EV_KEY keycode 1) keycodes.

Definition releases (keycodes : list Z) : list Effect :=
  map (fun keycode => EvWrite EV_KEY keycode 0) keycodes.

(** No call fails after [done], along the calls [es]. *)
Fixpoint all_succeed (env : Env) (done es : list Effect) : bool :=
  match es with
  | [] => true
  | e :: rest =>
      match fails env done e with
      | Some _ => false
      | None => all_succeed env (done ++ [e]) rest
      end
  end.

(** The call is one to the virtual keyboard or the sleep between them. *)
Definition is_key_effect (e : Effect) : bool :=
  match e with
  | EvWrite _ _ _ | EvSyn | Sleep _ => true
  | _ => false
  end.

Definition is_shell (e : Effect) : bool :=
  match e with
  | Shell _ => true
  | _ => false
  end.

(** The call is not one that runs a command. *)
Definition not_shell (e : Effect) : bool := negb (is_shell e).

(** A computation only adds calls that satisfy [P] to those made before. *)
Definition adds_only {A : Type} (P : Effect -> bool) (c : IO A) : Prop :=
  forall done, exists added, snd (c done) = done ++ added /\ forallb P added = true.

Close Scope io_scope.

End Sink.

(** ** A host, configurations and keys used as examples *)

(** [str.lower] on ASCII text. *)
Definition lower_ascii (c : Ascii.ascii) : Ascii.ascii :=
  let n := Ascii.nat_of_ascii c in
  if ((65 <=? n) && (n <=? 90))%nat then Ascii.ascii_of_nat (n + 32) else c.

Fixpoint ascii_lower (s : string) : string :=
  match s with
  | EmptyString => EmptyString
  | String c rest => String (lower_ascii c) (ascii_lower rest)
  end.

(** A host whose input devices are [devices], each a character device with
    the name it gives, or the exception opening it raises; [uinput] is what
    [UInput()] raises, if anything. *)
Definition host_of (devices : list (string * outcome string))
  (uinput : option error) : Host :=
  mkHost (fun p => match dict_get p devices with
                   | Some _ => Some CharacterDevice
                   | None => None
                   end)
         (fun _ => false)
         (fun p => p)
         (map fst devices)
         (fun p => match dict_get p devices with
                   | Some r => r
                   | None => Throw (OSError "No such file or directory")
                   end)
         ascii_lower
         uinput
         (fun _ => None).

Definition keyboard_and_strip : list (string * outcome string) :=
  [("/dev/input/event3"%string, Return "AT Translated Keyboard"%string);
   ("/dev/input/event5"%string, Return "Wacom Intuos Touch Strip"%string)].

Definition locked_keyboard_and_strip : list (string * outcome string) :=
  [("/dev/input/event3"%string, Throw (OSError "Permission denied"));
   ("/dev/input/event5"%string, Return "Wacom Intuos Touch Strip"%string)].

(** A configuration on axis [ABS_WHEEL] with ['up'] bound, and no settings. *)
Definition config_for (device : Yaml.Device) : Yaml.t :=
  Yaml.mk (Some device) (Some "ABS_WHEEL"%string)
          (Some [("up"%string, mkGestureConfig (Some key_up))]) None.

Definition by_name (name : string) : Yaml.t :=
  config_for (Yaml.mkDevice None (Some name)).

Definition by_path (path : string) : Yaml.t :=
  config_for (Yaml.mkDevice (Some path) None).

(** A configuration with an axis no device has, a device section that names
    no device, and a misspelt gesture that has no action. *)
Definition unchecked_config : Yaml.t :=
  Yaml.mk (Some Yaml.no_device) (Some "ABS_FOO"%string)
          (Some [("up"%string, mkGestureConfig (Some key_up));
                 ("Down"%string, mkGestureConfig None)])
          None.

(** A configuration without [device] and [axis], whose gesture has no
    action. *)
Definition gestures_only : Yaml.t :=
  Yaml.mk None None (Some [("up"%string, mkGestureConfig None)]) None.

(** Texts already stripped and in upper case, three key names, and calls
    that do not fail. *)
Definition three_keys : Sink.Env :=
  Sink.mkEnv (fun s => s) (fun _ => None)
             (fun name => dict_get name [("KEY_LEFTCTRL"%string, 29);
                                         ("KEY_C"%string, 46);
                                         ("KEY_UP"%string, 103)])
             (fun _ _ => None).

Definition ctrl_c : Sink.Keys :=
  Sink.Listed [Sink.KeyText "LEFTCTRL"; Sink.KeyCode 46].

(** ** A rise, for every setting *)





(** * Properties *)

(** ** Tactics *)

(** Unfolds the operations of the monad. *)
Ltac step_monad :=
  unfold value_of, state_of, bind, ret, gets, modify, lift, raise, getattr in *;
  cbn [fst snd] in *.

(** ** Python lists *)

Lemma len_app {A : Type} (l1 l2 : list A) : len (l1 ++ l2) = len l1 + len l2.
Proof. unfold len. rewrite length_app. lia. Qed.

Lemma len_snoc {A : Type} (l : list A) (x : A) : len (l ++ [x]) = len l + 1.
Proof. now rewrite len_app. Qed.

Lemma len_nonneg {A : Type} (l : list A) : 0 <= len l.
Proof. unfold len. lia. Qed.

Lemma len_cons {A : Type} (x : A) (l : list A) : len (x :: l) = len l + 1.
Proof. unfold len. cbn [List.length]. lia. Qed.

Lemma len_tl {A : Type} (l : list A) : l <> [] -> len (tl l) = len l - 1.
Proof. destruct l as [|x l]; [congruence|]. intros _. rewrite len_cons. cbn [tl]. lia. Qed.

(** [l[0]] of a list that is not empty is its first element. *)
Lemma getitem_first {A : Type} (x : A) (l : list A) : getitem (x :: l) 0 = Ok x.
Proof.
  unfold getitem. cbn [Z.ltb Z.compare].
  pose proof (len_nonneg l). rewrite len_cons.
  destruct (len l + 1 <=? 0) eqn:E; [apply Z.leb_le in E; lia|].
  reflexivity.
Qed.

(** [l[-1]] is the last element. *)
Lemma getitem_last {A : Type} (l : list A) (x : A) : getitem (l ++ [x]) (-1) = Ok x.
Proof.
  unfold getitem. cbn [Z.ltb Z.compare].
  rewrite len_app. pose proof (len_nonneg l).
  replace (len [x]) with 1 by reflexivity.
  replace (-1 + (len l + 1)) with (len l) by lia.
  destruct (len l <? 0) eqn:E1; [apply Z.ltb_lt in E1; lia|].
  destruct (len l + 1 <=? len l) eqn:E2; [apply Z.leb_le in E2; lia|].
  cbn [orb]. unfold len. rewrite Nat2Z.id.
  rewrite nth_error_app2 by lia. now rewrite Nat.sub_diag.
Qed.

(** An index within range finds an element. *)
Lemma getitem_in_range {A : Type} (l : list A) (i : Z) :
  0 <= i < len l -> exists x, getitem l i = Ok x /\ nth_error l (Z.to_nat i) = Some x.
Proof.
  intros H. unfold getitem.
  destruct (i <? 0) eqn:E; [apply Z.ltb_lt in E; lia|].
  rewrite E.
  destruct (len l <=? i) eqn:E2; [apply Z.leb_le in E2; lia|].
  cbn [orb].
  destruct (nth_error l (Z.to_nat i)) as [x|] eqn:N; [now exists x|].
  apply nth_error_None in N. unfold len in H. lia.
Qed.

(** ** The sample buffer *)

Lemma clear_spec (tr : VelocityTracker) : clear tr = (Ok tt, set_history [] tr).
Proof. reflexivity. Qed.

Lemma add_sample_zero (t : float) (tr : VelocityTracker) :
  add_sample t 0 tr = (Ok tt, set_history [] tr).
Proof. reflexivity. Qed.

(** What [add_sample] does with a value that is not 0: it appends, and drops
    the first sample when the buffer was already full. It never raises. *)
Lemma add_sample_nonzero (t : float) (v : Z) (tr : VelocityTracker) :
  v <> 0 ->
  add_sample t v tr =
    (Ok tt,
     set_history (if len (history tr) <? max_history tr
                  then history tr ++ [(t, v)]
                  else tl (history tr ++ [(t, v)])) tr).
Proof.
  intros Hv. destruct tr as [thr en h m vel acc]. unfold add_sample.
  destruct (v =? 0) eqn:E; [apply Z.eqb_eq in E; contradiction|].
  step_monad. unfold set_history. cbn [history max_history velocity_threshold
    acceleration_enabled velocity acceleration].
  rewrite !len_snoc.
  pose proof (Zgt_cases (len h + 1) m) as G.
  destruct (len h <? m) eqn:E1;
    [apply Z.ltb_lt in E1 | apply Z.ltb_ge in E1];
    destruct (len h + 1 >? m) eqn:E2; try lia.
  - reflexivity.
  - destruct h; reflexivity.
Qed.

Lemma no_zero_sample_tl (h : list Sample) : no_zero_sample h -> no_zero_sample (tl h).
Proof. destruct h as [|s h]; [auto|]. intros H. now inversion H. Qed.

Lemma call_returns (c : BufferCall) (tr : VelocityTracker) :
  value_of (call c) tr = Ok tt.
Proof.
  destruct c as [t v|]; [|reflexivity]. unfold value_of, call.
  destruct (Z.eq_dec v 0) as [->|Hv].
  - reflexivity.
  - now rewrite add_sample_nonzero.
Qed.

Lemma call_max_history (c : BufferCall) (tr : VelocityTracker) :
  max_history (state_of (call c) tr) = max_history tr.
Proof.
  destruct c as [t v|]; [|reflexivity]. unfold state_of, call.
  destruct (Z.eq_dec v 0) as [->|Hv].
  - reflexivity.
  - now rewrite add_sample_nonzero.
Qed.

(** Each call keeps the invariant, for a capacity that is not negative. *)
Lemma call_buffer_ok (c : BufferCall) (tr : VelocityTracker) :
  0 <= max_history tr -> buffer_ok tr -> buffer_ok (state_of (call c) tr).
Proof.
  intros Hm [Hlen Hnz]. destruct c as [t v|]; unfold state_of, call.
  - destruct (Z.eq_dec v 0) as [->|Hv].
    + rewrite add_sample_zero. split; [exact Hm | constructor].
    + rewrite add_sample_nonzero by assumption.
      cbn [snd]. unfold buffer_ok, set_history. cbn [history max_history].
      assert (Hall : no_zero_sample (history tr ++ [(t, v)])).
      { apply Forall_app. split; [assumption|]. constructor; [assumption|constructor]. }
      destruct (len (history tr) <? max_history tr) eqn:E.
      * apply Z.ltb_lt in E. rewrite len_snoc. split; [lia | assumption].
      * split; [|now apply no_zero_sample_tl].
        rewrite len_tl by (destruct (history tr); discriminate).
        rewrite len_snoc. lia.
  - split; [exact Hm | constructor].
Qed.

Lemma calls_cons (c : BufferCall) (cs : list BufferCall) (tr : VelocityTracker) :
  calls (c :: cs) tr = calls cs (state_of (call c) tr).
Proof.
  cbn [calls]. unfold bind, state_of. pose proof (call_returns c tr) as H.
  unfold value_of in H. destruct (call c tr) as [r tr']. cbn [fst snd] in *.
  now subst r.
Qed.

Lemma calls_buffer_ok (cs : list BufferCall) (tr : VelocityTracker) :
  0 <= max_history tr -> buffer_ok tr ->
  value_of (calls cs) tr = Ok tt /\
  max_history (state_of (calls cs) tr) = max_history tr /\
  buffer_ok (state_of (calls cs) tr).
Proof.
  revert tr. induction cs as [|c cs IH]; intros tr Hm Hok.
  - split; [reflexivity | split; [reflexivity | exact Hok]].
  - unfold value_of, state_of. rewrite calls_cons.
    destruct (IH (state_of (call c) tr)) as (Hv & Hmax & Hinv).
    + now rewrite call_max_history.
    + now apply call_buffer_ok.
    + split; [exact Hv | split; [|exact Hinv]].
      fold (state_of (calls cs) (state_of (call c) tr)).
      now rewrite Hmax, call_max_history.
Qed.

(** C3. For every sequence of [add_sample] and [clear] calls on a fresh
    tracker of capacity [history_size] (not negative), every call returns, the
    buffer never holds more than [history_size] samples and never a sample of
    value 0; from the state reached, [add_sample] with a value that is not 0
    appends the sample and, when the buffer is already full, drops exactly the
    oldest one (the first); [add_sample] with value 0 leaves the buffer empty
    from any tracker state at all; and [clear] empties it. *)
Theorem sample_buffer_bounded_fifo
  (thr : float) (en : bool) (history_size : Z) (cs : list BufferCall) :
  0 <= history_size ->
  let tr := state_of (calls cs) (init thr en history_size) in
  value_of (calls cs) (init thr en history_size) = Ok tt /\
  len (history tr) <= history_size /\
  no_zero_sample (history tr) /\
  (forall t v, v <> 0 ->
     history (state_of (add_sample t v) tr) =
       if len (history tr) <? history_size
       then history tr ++ [(t, v)]
       else tl (history tr ++ [(t, v)])) /\
  (forall t any, history (state_of (add_sample t 0) any) = []) /\
  (forall any, history (state_of clear any) = []).
Proof.
  intros Hs tr.
  destruct (calls_buffer_ok cs (init thr en history_size)) as (Hv & Hmax & Hlen & Hnz).
  - exact Hs.
  - split; [exact Hs | constructor].
  - fold tr in Hmax, Hlen, Hnz. cbn [init max_history] in Hmax.
    repeat split.
    + exact Hv.
    + now rewrite <- Hmax.
    + exact Hnz.
    + intros t v Hne. unfold state_of. rewrite add_sample_nonzero by assumption.
      cbn [snd]. now rewrite Hmax.
Qed.

(** ** Facts about binary64 comparisons *)

Lemma Prim2SF_zero : Prim2SF 0%float = S754_zero false.
Proof. reflexivity. Qed.

Lemma Prim2SF_infinity : Prim2SF infinity = S754_infinity false.
Proof. reflexivity. Qed.


Lemma SFcompare_antisym (x y : spec_float) :
  SFcompare y x = option_map CompOpp (SFcompare x y).
Proof.
  destruct x as [s1|s1| |s1 m1 e1], y as [s2|s2| |s2 m2 e2]; cbn;
    try reflexivity; try (destruct s1; reflexivity);
    try (destruct s2; reflexivity); try (destruct s1, s2; reflexivity).
  destruct s1, s2; cbn; try reflexivity.
  all: change (IntDef.Z.compare e2 e1) with (Z.compare e2 e1);
       change (IntDef.Z.compare e1 e2) with (Z.compare e1 e2);
       rewrite (Z.compare_antisym e1 e2);
       change (PosDef.Pos.compare_cont Eq m2 m1) with (Pos.compare m2 m1);
       change (PosDef.Pos.compare_cont Eq m1 m2) with (Pos.compare m1 m2);
       rewrite (Pos.compare_antisym m1 m2);
       destruct (Z.compare e1 e2), (Pos.compare m1 m2); reflexivity.
Qed.

Lemma SFcompare_none (x y : spec_float) :
  SFcompare x y = None -> SFeqb x x = false \/ SFeqb y y = false.
Proof.
  destruct x as [s1|s1| |s1 m1 e1], y as [s2|s2| |s2 m2 e2]; cbn;
    try discriminate; auto.
Qed.

(** Between two numbers, "not less than" is "greater than or equal to". *)
Lemma ltb_false_leb (x y : float) :
  is_nan x = false -> is_nan y = false ->
  (x <? y)%float = false -> (y <=? x)%float = true.
Proof.
  unfold is_nan. rewrite !FloatAxioms.eqb_spec, ltb_spec, leb_spec.
  intros Hx Hy. apply negb_false_iff in Hx, Hy.
  unfold SFltb, SFleb. rewrite (SFcompare_antisym (Prim2SF x) (Prim2SF y)).
  destruct (SFcompare (Prim2SF x) (Prim2SF y)) as [[| |]|] eqn:E; cbn; try easy.
  destruct (SFcompare_none _ _ E); congruence.
Qed.

(** The difference of a finite float with itself is zero. *)
Lemma sub_diag_zero (x : float) :
  is_finite x = true -> (x - x =? 0)%float = true.
Proof.
  unfold is_finite, is_nan, is_infinity.
  rewrite !FloatAxioms.eqb_spec, sub_spec, abs_spec, Prim2SF_zero, Prim2SF_infinity.
  destruct (Prim2SF x) as [s|s| |s m e]; cbn.
  - destruct s; reflexivity.
  - destruct s; cbn; discriminate.
  - discriminate.
  - intros _. unfold SF64sub, SFsub.
    set (z := cond_Zopp s _).
    replace (IntDef.Z.sub z z) with 0 by (symmetry; apply Z.sub_diag).
    reflexivity.
Qed.

(** ** Rounding of positive binary64 values *)

(** The number of binary digits of a mantissa bounds it from below. *)
Lemma digits2_pos_lower (p : positive) :
  2 ^ (Zpos (digits2_pos p) - 1) <= Zpos p.
Proof.
  induction p as [p IH|p IH|]; cbn [digits2_pos].
  - rewrite Pos2Z.inj_succ. replace (Z.succ (Zpos (digits2_pos p)) - 1) with (Z.succ (Zpos (digits2_pos p) - 1)) by lia.
    rewrite Z.pow_succ_r by lia. lia.
  - rewrite Pos2Z.inj_succ. replace (Z.succ (Zpos (digits2_pos p)) - 1) with (Z.succ (Zpos (digits2_pos p) - 1)) by lia.
    rewrite Z.pow_succ_r by lia. lia.
  - reflexivity.
Qed.

Lemma shr_1_m (mrs : shr_record) :
  0 <= shr_m mrs -> shr_m (shr_1 mrs) = shr_m mrs / 2.
Proof.
  destruct mrs as [m r s]. cbn [shr_m]. intros H.
  destruct m as [|p|p]; [reflexivity| |lia].
  destruct p as [p|p|]; cbn [shr_1 shr_m].
  - rewrite Pos2Z.inj_xI. apply Z.div_unique with (r := 1); lia.
  - rewrite Pos2Z.inj_xO. apply Z.div_unique with (r := 0); lia.
  - reflexivity.
Qed.

Lemma pow2_double (k : Z) : 0 <= k -> 2 ^ k * 2 ^ k = 2 ^ (2 * k).
Proof. intros H. rewrite <- Z.pow_add_r by lia. f_equal. lia. Qed.

Lemma iter_shr_1_m (k : positive) : forall mrs,
  0 <= shr_m mrs ->
  shr_m (iter_pos shr_1 k mrs) = shr_m mrs / 2 ^ Zpos k.
Proof.
  induction k as [k IH|k IH|]; intros mrs H; cbn [iter_pos].
  - assert (H1 : 0 <= shr_m (shr_1 mrs)) by (rewrite shr_1_m by lia; apply Z.div_pos; lia).
    assert (H2 : 0 <= shr_m (iter_pos shr_1 k (shr_1 mrs))) by (rewrite IH by lia; apply Z.div_pos; lia).
    rewrite IH, IH, shr_1_m by lia.
    rewrite !Z.div_div by lia.
    f_equal. change (Z.pos k~1) with (2 * Z.pos k + 1).
    replace (2 * Zpos k + 1) with (1 + 2 * Zpos k) by lia.
    rewrite Z.pow_add_r by lia. rewrite <- pow2_double by lia. change (2 ^ 1) with 2. lia.
  - assert (H2 : 0 <= shr_m (iter_pos shr_1 k mrs)) by (rewrite IH by lia; apply Z.div_pos; lia).
    rewrite IH, IH by lia.
    rewrite !Z.div_div by lia.
    f_equal. change (Z.pos k~0) with (2 * Z.pos k). now rewrite <- pow2_double by lia.
  - rewrite shr_1_m by lia. reflexivity.
Qed.

Lemma shr_record_of_loc_m (m : Z) (l : location) : shr_m (shr_record_of_loc m l) = m.
Proof. destruct l as [|[| |]]; reflexivity. Qed.

Lemma shr_fexp_positive (p : positive) (e : Z) (l : location) :
  -1074 <= e ->
  -1074 <= snd (shr_fexp prec emax (Zpos p) e l) /\
  ((shr_m (fst (shr_fexp prec emax (Zpos p) e l)) = Zpos p) \/
   2 ^ 52 <= shr_m (fst (shr_fexp prec emax (Zpos p) e l))).
Proof.
  intros He. unfold shr_fexp, shr, fexp, emin. cbn [Zdigits2].
  change prec with 53. change emax with 1024.
  pose proof (digits2_pos_lower p) as Hd.
  set (d := Zpos (digits2_pos p)) in *.
  change IntDef.Z.max with Z.max. change IntDef.Z.sub with Z.sub. change IntDef.Z.add with Z.add.
  destruct (Z.max (d + e - 53) (3 - 1024 - 53) - e) as [|k|k] eqn:En; cbn [fst snd].
  - split; [lia|]. left. apply shr_record_of_loc_m.
  - split; [lia|]. right.
    rewrite iter_shr_1_m by (rewrite shr_record_of_loc_m; lia).
    rewrite shr_record_of_loc_m.
    assert (Hk : d - 1 = 52 + Zpos k) by lia.
    rewrite Hk, Z.pow_add_r in Hd by lia.
    apply Z.div_le_lower_bound; lia.
  - split; [lia|]. left. apply shr_record_of_loc_m.
Qed.

Lemma round_nearest_even_ge (m : Z) (l : location) :
  m <= round_nearest_even m l <= m + 1.
Proof.
  unfold round_nearest_even. destruct l as [|[| |]]; try lia.
  destruct (Z.even m); lia.
Qed.

(** Rounding a positive mantissa at an exponent within range gives a
    positive float: its mantissa is at least the one given, or at least 2^52. *)
Lemma binary_round_aux_positive (s : bool) (p : positive) (e : Z) (l : location) :
  -1074 <= e ->
  binary_round_aux prec emax s (Zpos p) e l = S754_infinity s \/
  exists m' e', binary_round_aux prec emax s (Zpos p) e l = S754_finite s m' e' /\
                (Zpos p <= Zpos m' \/ 2 ^ 52 <= Zpos m').
Proof.
  intros He. unfold binary_round_aux.
  destruct (shr_fexp_positive p e l He) as [He' Hm'].
  destruct (shr_fexp prec emax (Zpos p) e l) as [mrs' e']. cbn [fst snd] in *.
  pose proof (round_nearest_even_ge (shr_m mrs') (loc_of_shr_record mrs')) as Hr.
  assert (H52 : 0 < 2 ^ 52) by reflexivity.
  destruct (round_nearest_even (shr_m mrs') (loc_of_shr_record mrs')) as [|p2|p2] eqn:Er;
    try lia.
  destruct (shr_fexp_positive p2 e' loc_Exact He') as [He'' Hm''].
  destruct (shr_fexp prec emax (Zpos p2) e' loc_Exact) as [mrs'' e'']. cbn [fst snd] in *.
  destruct (shr_m mrs'') as [|m|m] eqn:Em; try lia.
  destruct (e'' <=? emax - prec)%Z.
  - right. exists m, e''. split; [reflexivity|]. lia.
  - now left.
Qed.

Lemma Prim2SF_two : Prim2SF 2%float = S754_finite false 4503599627370496 (-51).
Proof. reflexivity. Qed.

(** A float above zero is plus infinity or a positive finite float, whose
    exponent is within range. *)
Lemma positive_float_shape (x : float) :
  (0 <? x)%float = true ->
  Prim2SF x = S754_infinity false \/
  exists m e, Prim2SF x = S754_finite false m e /\ -1074 <= e.
Proof.
  rewrite ltb_spec, Prim2SF_zero. intros H.
  pose proof (Prim2SF_valid x) as V.
  destruct (Prim2SF x) as [s|s| |s m e]; cbn in H; try discriminate.
  - destruct s; [discriminate | now left].
  - destruct s; [discriminate|]. right. exists m, e. split; [reflexivity|].
    cbn [valid_binary] in V. unfold bounded, canonical_mantissa, fexp, emin in V.
    apply andb_prop in V. destruct V as [V _].
    change prec with 53 in V. change emax with 1024 in V.
    change IntDef.Z.max with Z.max in V. change IntDef.Z.sub with Z.sub in V.
    change IntDef.Z.add with Z.add in V. change IntDef.Z.eqb with Z.eqb in V.
    apply Z.eqb_eq in V. lia.
Qed.

Lemma iter_xO_ge (d p : positive) : Zpos p <= Zpos (Pos.iter xO p d).
Proof.
  induction d as [|d IH] using Pos.peano_ind.
  - cbn. lia.
  - rewrite Pos.iter_succ. change (Z.pos (Pos.iter xO p d)~0) with (2 * Z.pos (Pos.iter xO p d)). lia.
Qed.

Lemma binary_round_positive (p : positive) (e : Z) :
  -1074 <= e -> 2 <= Zpos p ->
  SFpositive_ge 2 (binary_round prec emax false p e).
Proof.
  intros He Hp. unfold binary_round, shl_align.
  set (f := fexp prec emax (Z.pos (digits2_pos p) + e)).
  assert (Hf : -1074 <= f).
  { unfold f, fexp, emin. change prec with 53. change emax with 1024.
    change IntDef.Z.max with Z.max. change IntDef.Z.sub with Z.sub. lia. }
  change IntDef.Z.sub with Z.sub.
  destruct (f - e) as [|d|d] eqn:Ed.
  - destruct (binary_round_aux_positive false p e loc_Exact He) as [H | (m' & e' & H & Hm)].
    + now left.
    + right. exists m', e'. split; [exact H|]. assert (0 < 2 ^ 52) by reflexivity.
      assert (2 <= 2 ^ 52) by (vm_compute; discriminate). lia.
  - destruct (binary_round_aux_positive false p e loc_Exact He) as [H | (m' & e' & H & Hm)].
    + now left.
    + right. exists m', e'. split; [exact H|].
      assert (2 <= 2 ^ 52) by (vm_compute; discriminate). lia.
  - pose proof (iter_xO_ge d p) as Hge.
    destruct (binary_round_aux_positive false (Pos.iter xO p d) f loc_Exact Hf)
      as [H | (m' & e' & H & Hm)].
    + now left.
    + right. exists m', e'. split; [exact H|].
      assert (2 <= 2 ^ 52) by (vm_compute; discriminate). lia.
Qed.

(** The sum of two floats above zero is plus infinity or a positive finite
    float whose mantissa is at least 2. *)
Lemma add_positive (x y : float) :
  (0 <? x)%float = true -> (0 <? y)%float = true ->
  SFpositive_ge 2 (Prim2SF (x + y)).
Proof.
  intros Hx Hy. rewrite add_spec.
  destruct (positive_float_shape x Hx) as [-> | (mx & ex & -> & Hex)];
    destruct (positive_float_shape y Hy) as [-> | (my & ey & -> & Hey)];
    try (now left).
  unfold SF64add, SFadd. cbn [cond_Zopp].
  change IntDef.Z.min with Z.min.
  set (ez := Z.min ex ey).
  set (a := fst (shl_align mx ex ez)). set (b := fst (shl_align my ey ez)).
  change (IntDef.Z.add (Zpos a) (Zpos b)) with (Zpos (a + b)).
  cbn [binary_normalize].
  apply binary_round_positive; lia.
Qed.

(** Half of a positive float whose mantissa is at least 2 is positive: the
    division by 2.0 does not round to zero. *)
Lemma half_positive (z : float) :
  SFpositive_ge 2 (Prim2SF z) -> SFpositive_ge 1 (Prim2SF (z / 2)).
Proof.
  intros Hz. rewrite div_spec, Prim2SF_two.
  pose proof (Prim2SF_valid z) as V.
  destruct Hz as [-> | (m1 & e1 & E & Hm)]; [now left|].
  rewrite E in *. cbn [valid_binary] in V.
  unfold bounded, canonical_mantissa, fexp, emin in V.
  apply andb_prop in V. destruct V as [V _].
  change prec with 53 in V. change emax with 1024 in V.
  change IntDef.Z.max with Z.max in V. change IntDef.Z.sub with Z.sub in V.
  change IntDef.Z.add with Z.add in V. change IntDef.Z.eqb with Z.eqb in V.
  apply Z.eqb_eq in V.
  unfold SF64div, SFdiv, SFdiv_core_binary, fexp, emin. cbn [xorb Zdigits2].
  change (Z.pos (digits2_pos 4503599627370496)) with 53.
  change prec with 53. change emax with 1024.
  change IntDef.Z.max with Z.max. change IntDef.Z.min with Z.min.
  change IntDef.Z.sub with Z.sub. change IntDef.Z.add with Z.add.
  change IntDef.Z.shiftl with Z.shiftl. change IntDef.Z.div_eucl with Z.div_eucl.
  set (d1 := Z.pos (digits2_pos m1)) in *.
  set (e' := Z.min (Z.max (d1 + e1 - (53 + -51) - 53) (3 - 1024 - 53)) (e1 - -51)).
  assert (He' : -1074 <= e') by (unfold e'; lia).
  assert (Hs : 51 <= e1 - -51 - e') by (unfold e'; lia).
  destruct (e1 - -51 - e') as [|s|s] eqn:Es; try lia.
  rewrite Z.shiftl_mul_pow2 by lia.
  assert (Hq : 1 <= (Z.pos m1 * 2 ^ Z.pos s) / 4503599627370496).
  { apply Z.div_le_lower_bound; [lia|].
    assert (2 ^ 51 <= 2 ^ Z.pos s) by (apply Z.pow_le_mono_r; lia).
    change (2 ^ 51) with 2251799813685248 in *. nia. }
  unfold Z.div in Hq.
  destruct (Z.div_eucl (Z.pos m1 * 2 ^ Z.pos s) 4503599627370496) as [q r].
  cbn [fst] in Hq. destruct q as [|q|q]; try lia.
  destruct (binary_round_aux_positive false q e' (new_location 4503599627370496 r) He')
    as [H | (m' & e'' & H & _)].
  - now left.
  - right. exists m', e''. split; [exact H | lia].
Qed.

(** The mean of two durations above zero is not zero. *)
Lemma mean_positive_nonzero (x y : float) :
  (0 <? x)%float = true -> (0 <? y)%float = true ->
  ((x + y) / 2 =? 0)%float = false.
Proof.
  intros Hx Hy.
  pose proof (half_positive (x + y) (add_positive x y Hx Hy)) as H.
  rewrite FloatAxioms.eqb_spec, Prim2SF_zero.
  destruct H as [-> | (m & e & -> & _)]; reflexivity.
Qed.


(** ** The velocity estimator *)

(** A list has no element, one, or a first and a last one. *)
Lemma list_ends {A : Type} (l : list A) :
  l = [] \/ (exists x, l = [x]) \/ (exists a mid b, l = a :: mid ++ [b]).
Proof.
  destruct l as [|a l]; [now left|]. right.
  destruct (exists_last (l := a :: l)) as (l' & b & E); [discriminate|].
  destruct l' as [|a' l']; cbn in E; injection E as -> ->.
  - left. now exists b.
  - right. now exists a', l', b.
Qed.

Lemma len_ends {A : Type} (a b : A) (mid : list A) :
  len (a :: mid ++ [b]) = len mid + 2.
Proof. rewrite len_cons, len_snoc. lia. Qed.

(** With two samples or more, [get_velocity] computes the velocity between
    the first and the last one and changes nothing. *)
Lemma get_velocity_ends (tr : VelocityTracker) (first last : Sample) (mid : list Sample) :
  history tr = first :: mid ++ [last] ->
  get_velocity tr = (Ok (endpoint_velocity first last), tr).
Proof.
  intros H. unfold get_velocity. step_monad. rewrite H.
  rewrite len_ends. pose proof (len_nonneg mid).
  destruct (len mid + 2 <? 2) eqn:E; [apply Z.ltb_lt in E; lia|].
  rewrite getitem_first.
  rewrite (app_comm_cons mid [last] first), getitem_last.
  destruct first as [t1 v1], last as [t2 v2].
  unfold endpoint_velocity, truediv. cbn [fst snd].
  destruct (t2 - t1 =? 0)%float; reflexivity.
Qed.

(** With fewer than two samples, [get_velocity] returns 0.0. *)
Lemma get_velocity_short (tr : VelocityTracker) :
  len (history tr) < 2 -> get_velocity tr = (Ok 0%float, tr).
Proof.
  intros H. unfold get_velocity. step_monad.
  destruct (len (history tr) <? 2) eqn:E; [reflexivity|].
  apply Z.ltb_ge in E. lia.
Qed.

(** [get_velocity] always returns, and leaves the tracker as it was. *)
Lemma get_velocity_total (tr : VelocityTracker) :
  exists v, get_velocity tr = (Ok v, tr).
Proof.
  destruct (list_ends (history tr)) as [E | [(x & E) | (a & mid & b & E)]].
  - exists 0%float. apply get_velocity_short. now rewrite E.
  - exists 0%float. apply get_velocity_short. now rewrite E.
  - exists (endpoint_velocity a b). now apply get_velocity_ends with (mid := mid).
Qed.

(** C4. [get_velocity] returns 0.0 on a buffer of fewer than 2 samples; on a
    buffer with first sample [first] and last sample [last], whatever lies in
    between, it returns 0.0 when [dt = t_last - t_first] is zero and
    [(value_last - value_first) / dt] otherwise; it never raises and changes
    nothing. Samples (0,10) and (2,20) give 5.0, also with a sample in
    between, and samples (0,10), (1,10) give 0.0. *)
Theorem get_velocity_first_last (tr : VelocityTracker) :
  (len (history tr) < 2 -> get_velocity tr = (Ok 0%float, tr)) /\
  (forall first mid last,
     history tr = first :: mid ++ [last] ->
     let dt := (fst last - fst first)%float in
     get_velocity tr =
       (Ok (if (dt =? 0)%float then 0%float
            else (Z2float (snd last - snd first) / dt)%float), tr)) /\
  (forall first mid last,
     history tr = first :: mid ++ [last] ->
     fst last = fst first -> is_finite (fst first) = true ->
     get_velocity tr = (Ok 0%float, tr)) /\
  (exists v, get_velocity tr = (Ok v, tr)) /\
  value_of get_velocity (set_history [(0%float, 10); (2%float, 20)] tr) = Ok 5%float /\
  value_of get_velocity
    (set_history [(0%float, 10); (1%float, 1000); (2%float, 20)] tr) = Ok 5%float /\
  value_of get_velocity (set_history [(0%float, 10); (1%float, 10)] tr) = Ok 0%float.
Proof.
  split; [apply get_velocity_short|].
  split; [intros first mid last H; apply (get_velocity_ends tr first last mid H)|].
  split.
  { intros first mid last H Ht Hfin.
    rewrite (get_velocity_ends tr first last mid H). unfold endpoint_velocity.
    now rewrite Ht, sub_diag_zero. }
  split; [apply get_velocity_total|].
  repeat split; vm_compute; reflexivity.
Qed.

(** ** The acceleration estimator *)

(** Case analysis on the innermost scrutinee of the goal. *)
Ltac case_scrutinee :=
  match goal with
  | |- context [match ?x with _ => _ end] =>
      match x with
      | context [match _ with _ => _ end] => fail 1
      | _ => destruct x eqn:?
      end
  end.

(** [get_acceleration] reads [acceleration_enabled] and [history] only, and
    leaves the tracker as it was, also when it raises. *)
Lemma get_acceleration_reads (tr : VelocityTracker) :
  get_acceleration tr =
    (value_of get_acceleration
       (mkTracker 0%float (acceleration_enabled tr) (history tr) 0 None None),
     tr).
Proof.
  destruct tr as [thr en h m vel acc].
  unfold get_acceleration, truediv. step_monad.
  cbn [acceleration_enabled history].
  repeat (case_scrutinee; cbn [fst snd]; try reflexivity).
Qed.

Lemma get_acceleration_frame (tr : VelocityTracker) :
  state_of get_acceleration tr = tr.
Proof. unfold state_of. now rewrite get_acceleration_reads. Qed.

Lemma get_acceleration_same (tr tr' : VelocityTracker) :
  acceleration_enabled tr = acceleration_enabled tr' ->
  history tr = history tr' ->
  value_of get_acceleration tr = value_of get_acceleration tr'.
Proof.
  intros He Hh. unfold value_of at 1 2.
  rewrite (get_acceleration_reads tr), (get_acceleration_reads tr').
  cbn [fst]. now rewrite He, Hh.
Qed.

(** ** The classifier *)

(** The chain of tests of [detect_gesture] selects the multiplier by sign. *)
Lemma multiplier_chain (v a : float) :
  (if (0 <? v)%float && (a <? 0)%float then 1.5%float
   else if (v <? 0)%float && (0 <? a)%float then 1.5%float
   else if (0 <? v)%float && (0 <? a)%float then 0.7%float
   else if (v <? 0)%float && (a <? 0)%float then 0.7%float
   else 1%float) = multiplier true v a.
Proof.
  unfold multiplier, opposite_signs, equal_signs.
  destruct (0 <? v)%float, (a <? 0)%float, (v <? 0)%float, (0 <? a)%float;
    reflexivity.
Qed.

(** What a call of [detect_gesture] returns and the tracker it leaves. *)
Lemma detect_gesture_run (tr : VelocityTracker) :
  detect_gesture tr =
    if len (history tr) <? 2 then (Ok None, tr)
    else
      match value_of get_velocity tr with
      | Raise e => (Raise e, tr)
      | Ok v =>
          let tr1 := set_velocity v tr in
          if (abs v <? velocity_threshold tr)%float
          then (Ok None, set_acceleration 0 tr1)
          else
            match (if acceleration_enabled tr
                   then value_of get_acceleration tr else Ok 0%float) with
            | Raise e => (Raise e, tr1)
            | Ok a =>
                (if (abs v <? velocity_threshold tr
                              * multiplier (acceleration_enabled tr) v a)%float
                 then Ok None
                 else Ok (Some (if (0 <? v)%float then Up else Down)),
                 set_acceleration a tr1)
            end
      end.
Proof.
  destruct (get_velocity_total tr) as [v Hv].
  pose proof (get_acceleration_reads (set_velocity v tr)) as Ha.
  rewrite <- (get_acceleration_same tr (mkTracker _ _ _ _ _ _)) in Ha
    by reflexivity.
  unfold detect_gesture, value_of at 1. unfold bind at 1. unfold gets at 1.
  destruct (len (history tr) <? 2); [reflexivity|].
  unfold bind at 1. rewrite Hv. cbn [fst].
  unfold bind at 1. unfold modify at 1.
  unfold bind at 1. unfold getattr at 1.
  change (velocity (set_velocity v tr)) with (Some v).
  unfold bind at 1. unfold gets at 1.
  change (velocity_threshold (set_velocity v tr)) with (velocity_threshold tr).
  destruct (abs v <? velocity_threshold tr)%float; [reflexivity|].
  unfold bind at 1. unfold gets at 1.
  change (acceleration_enabled (set_velocity v tr)) with (acceleration_enabled tr).
  destruct (acceleration_enabled tr) eqn:En.
  - unfold bind at 1. unfold bind at 1. rewrite Ha.
    destruct (value_of get_acceleration tr) as [a|e]; [|reflexivity].
    rewrite <- multiplier_chain. clear Hv Ha En.
    destruct tr as [thr en h m vel acc]. step_monad.
    cbn [velocity acceleration set_acceleration set_velocity velocity_threshold
         acceleration_enabled history max_history].
    destruct (0 <? v)%float eqn:E1, (a <? 0)%float, (v <? 0)%float, (0 <? a)%float;
      cbn [andb velocity acceleration set_acceleration set_velocity
           velocity_threshold];
      destruct (abs v <? _)%float;
      cbn [velocity acceleration set_acceleration set_velocity];
      rewrite ?E1; reflexivity.
  - clear Hv Ha En. destruct tr as [thr en h m vel acc]. step_monad.
    cbn [velocity acceleration set_acceleration set_velocity velocity_threshold
         acceleration_enabled history max_history].
    unfold multiplier. cbn [andb].
    destruct (abs v <? _)%float;
      cbn [velocity acceleration set_acceleration set_velocity]; reflexivity.
Qed.



(** C2. With threshold 3.0 and acceleration tracking enabled, on a buffer
    whose velocity is 2.5 and whose acceleration is positive, the velocity
    clears 0.7 times the threshold, and yet [detect_gesture] returns no
    gesture: the test against the base threshold comes first and ends the
    call, so the lowered threshold is never consulted. *)
Theorem speeding_up_below_base_not_up :
  value_of get_velocity speeding_up_below_base = Ok 2.5%float /\
  value_of get_acceleration speeding_up_below_base = Ok 3%float /\
  multiplier true 2.5 3 = 0.7%float /\
  (abs 2.5 <? 3 * 0.7)%float = false /\
  value_of detect_gesture speeding_up_below_base = Ok None.
Proof. repeat split; vm_compute; reflexivity. Qed.

(** ** The acceleration estimator, continued *)

(** Disabled, or with fewer than 3 samples, [get_acceleration] returns 0.0. *)
Lemma get_acceleration_off (tr : VelocityTracker) :
  acceleration_enabled tr = false \/ len (history tr) < 3 ->
  get_acceleration tr = (Ok 0%float, tr).
Proof.
  intros H. unfold get_acceleration. step_monad.
  destruct H as [-> | H]; [reflexivity|].
  apply Z.ltb_lt in H. rewrite H. now rewrite orb_true_r.
Qed.

(** The run of [get_acceleration] past its first test. *)
Lemma get_acceleration_run
  (tr : VelocityTracker) (first middle last : Sample) (mid : list Sample) :
  acceleration_enabled tr = true ->
  history tr = first :: mid ++ [last] ->
  3 <= len (history tr) ->
  nth_error (history tr) (Z.to_nat (len (history tr) / 2)) = Some middle ->
  get_acceleration tr = (checkpoint_acceleration first middle last, tr).
Proof.
  intros En H Hlen Hmid. unfold get_acceleration. step_monad.
  rewrite En. cbn [negb orb].
  destruct (len (history tr) <? 3) eqn:E; [apply Z.ltb_lt in E; lia|].
  destruct (getitem_in_range (history tr) (len (history tr) / 2))
    as (x & Hx & Hn).
  { split; [apply Z.div_pos; lia | apply Z.div_lt_upper_bound; lia]. }
  rewrite Hx. rewrite Hmid in Hn. injection Hn as <-.
  rewrite H at 1. rewrite getitem_first.
  rewrite H at 1. rewrite (app_comm_cons mid [last] first), getitem_last.
  destruct first as [t1 v1], middle as [t2 v2], last as [t3 v3].
  unfold checkpoint_acceleration, truediv. cbn [fst snd].
  destruct (t2 - t1 =? 0)%float eqn:E1; [reflexivity|].
  destruct (t3 - t2 =? 0)%float eqn:E2; [reflexivity|].
  cbn [orb]. step_monad.
  change (Z2float 2 =? 0)%float with false.
  change (Z2float 2) with 2%float. cbv beta iota.
  destruct ((t2 - t1 + (t3 - t2)) / 2 =? 0)%float; reflexivity.
Qed.

(** Enabled and with 3 samples or more, [get_acceleration] computes the
    acceleration over the first sample, the one at index [len // 2] and the
    last one; it raises when the mean of the two durations is zero. *)
Lemma get_acceleration_checkpoints
  (tr : VelocityTracker) (first middle last : Sample) (mid : list Sample) :
  acceleration_enabled tr = true ->
  history tr = first :: mid ++ [last] ->
  3 <= len (history tr) ->
  nth_error (history tr) (Z.to_nat (len (history tr) / 2)) = Some middle ->
  get_acceleration tr = (checkpoint_acceleration first middle last, tr).
Proof. apply get_acceleration_run. Qed.

(** On checkpoints in time order, where each of the two durations is zero
    or positive, [get_acceleration] returns: 0.0 when a duration is zero,
    and the change of velocity over the mean duration otherwise. The mean of
    two positive durations is never zero, so the division does not raise. *)
Lemma get_acceleration_time_ordered
  (tr : VelocityTracker) (first middle last : Sample) (mid : list Sample) :
  acceleration_enabled tr = true ->
  history tr = first :: mid ++ [last] ->
  3 <= len (history tr) ->
  nth_error (history tr) (Z.to_nat (len (history tr) / 2)) = Some middle ->
  let dt1 := (fst middle - fst first)%float in
  let dt2 := (fst last - fst middle)%float in
  not_negative dt1 = true -> not_negative dt2 = true ->
  get_acceleration tr =
    (Ok (if (dt1 =? 0)%float || (dt2 =? 0)%float then 0%float
         else
           let vel1 := (Z2float (snd middle - snd first) / dt1)%float in
           let vel2 := (Z2float (snd last - snd middle) / dt2)%float in
           ((vel2 - vel1) / ((dt1 + dt2) / 2))%float),
     tr).
Proof.
  intros En H Hlen Hmid dt1 dt2 H1 H2.
  rewrite (get_acceleration_run tr first middle last mid En H Hlen Hmid).
  unfold checkpoint_acceleration. fold dt1 dt2.
  unfold not_negative in H1, H2.
  destruct (dt1 =? 0)%float eqn:E1; [reflexivity|].
  destruct (dt2 =? 0)%float eqn:E2; [reflexivity|].
  cbn [orb] in *. cbv zeta.
  now rewrite (mean_positive_nonzero dt1 dt2 H1 H2).
Qed.

(** C5. With acceleration tracking enabled, on three samples whose last
    timestamp is the first one again, neither duration is zero and their
    mean is: [get_acceleration] raises [ZeroDivisionError], and so does
    [detect_gesture] when the threshold lets it reach the estimate. *)
Theorem get_acceleration_zero_mean_raises :
  let dt1 := (1 - 0)%float in
  let dt2 := (0 - 1)%float in
  (dt1 =? 0)%float = false /\ (dt2 =? 0)%float = false /\
  ((dt1 + dt2) / 2 =? 0)%float = true /\
  value_of get_acceleration clock_stepped_back = Raise ZeroDivisionError /\
  value_of detect_gesture
    (mkTracker 0 true (history clock_stepped_back) 5 None None)
    = Raise ZeroDivisionError.
Proof. repeat split; vm_compute; reflexivity. Qed.

(** ** The stored estimates *)

(** With fewer than 2 samples, [detect_gesture] writes nothing. *)
Lemma detect_gesture_short (tr : VelocityTracker) :
  len (history tr) < 2 -> detect_gesture tr = (Ok None, tr).
Proof.
  intros H. rewrite detect_gesture_run. apply Z.ltb_lt in H. now rewrite H.
Qed.

(** With 2 samples or more, a call of [detect_gesture] that returns has
    assigned both attributes: the velocity just computed, and the
    acceleration just estimated, or 0.0 below the base threshold and with
    tracking disabled. *)
Lemma detect_gesture_overwrites (tr : VelocityTracker) (r : option Gesture) :
  2 <= len (history tr) ->
  value_of detect_gesture tr = Ok r ->
  exists v a,
    value_of get_velocity tr = Ok v /\
    velocity (state_of detect_gesture tr) = Some v /\
    acceleration (state_of detect_gesture tr) = Some a /\
    (if (abs v <? velocity_threshold tr)%float then a = 0%float
     else if acceleration_enabled tr
          then value_of get_acceleration tr = Ok a
          else a = 0%float).
Proof.
  intros Hlen. unfold value_of at 1, state_of. rewrite detect_gesture_run.
  destruct (len (history tr) <? 2) eqn:E; [apply Z.ltb_lt in E; lia|].
  destruct (value_of get_velocity tr) as [v|e]; [|discriminate].
  cbv zeta. destruct (abs v <? velocity_threshold tr)%float eqn:Eb.
  - intros _. exists v, 0%float. rewrite Eb. repeat split.
  - destruct (acceleration_enabled tr) eqn:En.
    + destruct (value_of get_acceleration tr) as [a|e]; [|discriminate].
      intros _. exists v, a. rewrite Eb. repeat split.
    + intros _. exists v, 0%float. rewrite Eb. repeat split.
Qed.

(** C9. After a gesture was classified, the stored velocity is 10.0. A
    sample of value 0 then empties the buffer, and the next call of
    [detect_gesture] returns no gesture and leaves the tracker as it is: the
    stored velocity is still 10.0, while the velocity of the buffer is now
    0.0. On a fresh tracker the same call creates neither attribute. *)
Theorem detect_gesture_short_keeps_stale :
  velocity after_a_gesture = Some 10%float /\
  acceleration after_a_gesture = Some 0%float /\
  let tr := state_of (add_sample 2 0) after_a_gesture in
  history tr = [] /\
  value_of get_velocity tr = Ok 0%float /\
  detect_gesture tr = (Ok None, tr) /\
  velocity (state_of detect_gesture tr) = Some 10%float /\
  velocity (state_of detect_gesture (init 3 true 5)) = None /\
  acceleration (state_of detect_gesture (init 3 true 5)) = None.
Proof. repeat split; vm_compute; reflexivity. Qed.

(** ** The methods that only read the buffer *)

Lemma get_velocity_frame (tr : VelocityTracker) : state_of get_velocity tr = tr.
Proof. unfold state_of. destruct (get_velocity_total tr) as [v ->]. reflexivity. Qed.

Lemma detect_gesture_history (tr : VelocityTracker) :
  history (state_of detect_gesture tr) = history tr.
Proof.
  unfold state_of. rewrite detect_gesture_run.
  destruct (len (history tr) <? 2); [reflexivity|].
  destruct (value_of get_velocity tr) as [v|e]; [|reflexivity].
  cbv zeta. destruct (abs v <? velocity_threshold tr)%float; [reflexivity|].
  destruct (if acceleration_enabled tr then _ else _); reflexivity.
Qed.

(** C10. [get_velocity] and [get_acceleration] leave the whole tracker as it
    was and [detect_gesture] leaves its history as it was, whether they
    return or raise; so a method call that changes the history is a call of
    [add_sample] or of [clear], and these two do change it. *)
Theorem readers_keep_history (tr : VelocityTracker) :
  state_of get_velocity tr = tr /\
  state_of get_acceleration tr = tr /\
  history (state_of detect_gesture tr) = history tr /\
  (forall m, history (invoke m tr) <> history tr ->
     (exists t v, m = CallAddSample t v) \/ m = CallClear) /\
  history (invoke (CallAddSample 0 1) (init 3 false 5)) = [(0%float, 1)] /\
  (forall s, history (invoke CallClear (set_history [s] tr)) = []).
Proof.
  split; [apply get_velocity_frame|].
  split; [apply get_acceleration_frame|].
  split; [apply detect_gesture_history|].
  split; [|split].
  - intros m Hm. destruct m as [t v| | | |]; cbn [invoke] in Hm.
    + left. now exists t, v.
    + now right.
    + now rewrite get_velocity_frame in Hm.
    + now rewrite get_acceleration_frame in Hm.
    + now rewrite detect_gesture_history in Hm.
  - reflexivity.
  - reflexivity.
Qed.

(** ** The dispatch loop *)

Lemma add_sample_returns (t : float) (v : Z) (tr : VelocityTracker) :
  value_of (add_sample t v) tr = Ok tt.
Proof. exact (call_returns (AddSample t v) tr). Qed.

(** What an iteration of the loop does, case by case. *)
Lemma loop_body_run (cfg : Config.t) (event : Event) (clock : float) (st : LoopState) :
  loop_body cfg event clock st =
    if handled cfg event then
      let tr1 := state_of (add_sample (ev_timestamp event) (ev_value event))
                          (tracker st) in
      let tr2 := state_of detect_gesture tr1 in
      let idle := mkLoop tr2 (last_gesture_time st) (dispatched st) in
      match value_of detect_gesture tr1 with
      | Raise e => (Raise e, idle)
      | Ok None => (Ok tt, idle)
      | Ok (Some g) =>
          let now := (clock * 1000)%float in
          if cooling_down cfg (last_gesture_time st) now then (Ok tt, idle)
          else
            match lookup (gesture_name g) (Config.gestures cfg) with
            | None => (Ok tt, idle)
            | Some gesture_config =>
                match bound_action (Config.gestures cfg) g with
                | Some a =>
                    (Ok tt, mkLoop (set_history [] tr2) now
                                   (dispatched st ++ [mkDispatch now g a]))
                | None => (Ok tt, mkLoop tr2 now (dispatched st))
                end
            end
      end
    else (Ok tt, st).
Proof.
  unfold loop_body, handled, cooling_down, bound_action.
  destruct ((ev_type event =? EV_ABS) && (ev_code event =? Config.axis_code cfg));
    [|reflexivity].
  pose proof (add_sample_returns (ev_timestamp event) (ev_value event) (tracker st)) as Hadd.
  unfold value_of, state_of in *.
  unfold bind at 1. unfold on_tracker at 1.
  destruct (add_sample (ev_timestamp event) (ev_value event) (tracker st)) as [r tr1].
  cbn [fst snd] in *. subst r.
  unfold bind at 1. unfold on_tracker at 1. cbn [tracker last_gesture_time dispatched].
  destruct (detect_gesture tr1) as [[[g|]|e] tr2]; cbn [fst snd]; try reflexivity.
  unfold bind at 1. unfold gets at 1. cbn [last_gesture_time].
  destruct (clock * 1000 - last_gesture_time st <? _)%float; [reflexivity|].
  destruct (lookup (gesture_name g) (Config.gestures cfg)) as [gc|]; [|reflexivity].
  step_monad. unfold set_last_gesture_time. cbn [tracker last_gesture_time dispatched].
  destruct (action gc) as [a|]; [|reflexivity].
  destruct (truthy a); [|reflexivity].
  unfold execute_action, on_tracker, clear. step_monad.
  cbn [tracker last_gesture_time dispatched]. reflexivity.
Qed.

(** In a configuration [validate_config] accepts, a gesture that has an
    entry in [gestures] has an action bound to it. *)
Lemma validated_bound (gestures : Gestures) (g : Gesture) (gc : GestureConfig) :
  validate_config gestures = [] ->
  lookup (gesture_name g) gestures = Some gc ->
  exists a, bound_action gestures g = Some a.
Proof.
  unfold validate_config. intros H Hl.
  apply app_eq_nil in H. destruct H as [Hup Hdown].
  assert (Hg : validate_gesture (gesture_name g) gestures = [])
    by (destruct g; assumption).
  unfold validate_gesture in Hg. unfold bound_action. rewrite Hl in *.
  destruct (action gc) as [a|]; [|discriminate].
  exists a. unfold truthy.
  destruct (keys a), (command a); try reflexivity. discriminate.
Qed.

(** The loop state an iteration leaves. *)
Lemma loop_body_state (cfg : Config.t) (event : Event) (clock : float) (st : LoopState) :
  state_of (loop_body cfg event clock) st =
    if handled cfg event then
      let tr1 := state_of (add_sample (ev_timestamp event) (ev_value event))
                          (tracker st) in
      let tr2 := state_of detect_gesture tr1 in
      let now := (clock * 1000)%float in
      let idle := mkLoop tr2 (last_gesture_time st) (dispatched st) in
      match value_of detect_gesture tr1 with
      | Ok (Some g) =>
          if cooling_down cfg (last_gesture_time st) now then idle
          else
            match lookup (gesture_name g) (Config.gestures cfg) with
            | None => idle
            | Some _ =>
                match bound_action (Config.gestures cfg) g with
                | Some a => mkLoop (set_history [] tr2) now
                                   (dispatched st ++ [mkDispatch now g a])
                | None => mkLoop tr2 now (dispatched st)
                end
            end
      | _ => idle
      end
    else st.
Proof.
  unfold state_of at 1. rewrite loop_body_run.
  destruct (handled cfg event); [|reflexivity]. cbv zeta.
  destruct (value_of detect_gesture _) as [[g|]|e]; try reflexivity.
  destruct (cooling_down cfg (last_gesture_time st) _); [reflexivity|].
  destruct (lookup (gesture_name g) (Config.gestures cfg)); [|reflexivity].
  destruct (bound_action (Config.gestures cfg) g); reflexivity.
Qed.

Lemma bound_action_lookup (gestures : Gestures) (g : Gesture) (a : Action) :
  bound_action gestures g = Some a ->
  exists gc, lookup (gesture_name g) gestures = Some gc.
Proof.
  unfold bound_action.
  destruct (lookup (gesture_name g) gestures) as [gc|];
    [now exists gc | discriminate].
Qed.

(** C7. In an iteration that handles its event, with [tr1] the tracker once
    the sample is added: a gesture suppressed by the cooldown leaves the
    history of [tr1] and calls no action; so does a gesture that has no
    action bound, and so does an iteration that detects no gesture or
    raises; a gesture that passes the cooldown and has an action bound calls
    it once and leaves the buffer empty. Hence the loop changes the history
    that [add_sample] left only in an iteration that calls the action. *)
Theorem loop_clears_only_on_action
  (cfg : Config.t) (event : Event) (clock : float) (st : LoopState) :
  handled cfg event = true ->
  let tr1 := state_of (add_sample (ev_timestamp event) (ev_value event))
                      (tracker st) in
  let st' := state_of (loop_body cfg event clock) st in
  let now := (clock * 1000)%float in
  let unchanged :=
    history (tracker st') = history tr1 /\ dispatched st' = dispatched st in
  (forall g, value_of detect_gesture tr1 = Ok (Some g) ->
             cooling_down cfg (last_gesture_time st) now = true -> unchanged) /\
  (forall g, value_of detect_gesture tr1 = Ok (Some g) ->
             bound_action (Config.gestures cfg) g = None -> unchanged) /\
  (value_of detect_gesture tr1 = Ok None -> unchanged) /\
  (forall e, value_of detect_gesture tr1 = Raise e -> unchanged) /\
  (forall g a, value_of detect_gesture tr1 = Ok (Some g) ->
               cooling_down cfg (last_gesture_time st) now = false ->
               bound_action (Config.gestures cfg) g = Some a ->
               history (tracker st') = [] /\
               dispatched st' = dispatched st ++ [mkDispatch now g a]) /\
  (history (tracker st') <> history tr1 ->
   exists d, dispatched st' = dispatched st ++ [d]).
Proof.
  intros Hh tr1 st' now unchanged.
  assert (Hst : st' = state_of (loop_body cfg event clock) st) by reflexivity.
  rewrite loop_body_state, Hh in Hst. fold tr1 in Hst. cbv zeta in Hst.
  fold now in Hst.
  clearbody st'. subst st' unchanged. cbv zeta.
  pose proof (detect_gesture_history tr1) as Hd.
  split; [|split; [|split; [|split; [|split]]]].
  - intros g Hg Hc. rewrite Hg, Hc. now split.
  - intros g Hg Hb. rewrite Hg, Hb.
    destruct (cooling_down cfg (last_gesture_time st) now); [now split|].
    destruct (lookup (gesture_name g) (Config.gestures cfg)); now split.
  - intros Hg. rewrite Hg. now split.
  - intros e Hg. rewrite Hg. now split.
  - intros g a Hg Hc Hb. rewrite Hg, Hc, Hb.
    destruct (bound_action_lookup _ g a Hb) as [gc ->]. now split.
  - destruct (value_of detect_gesture tr1) as [[g|]|e];
      cbn [tracker]; try congruence.
    destruct (cooling_down cfg (last_gesture_time st) now);
      cbn [tracker]; try congruence.
    destruct (lookup (gesture_name g) (Config.gestures cfg));
      cbn [tracker]; try congruence.
    destruct (bound_action (Config.gestures cfg) g) as [a|];
      cbn [tracker dispatched]; try congruence.
    intros _. now eexists.
Qed.

(** ** The cooldown gate *)

Lemma separated_nil (cfg : Config.t) : separated cfg [].
Proof. intros l1 d1 d2 l2 H. now destruct l1. Qed.

(** A call added at the end keeps the calls apart when it is not less than
    the cooldown after the latest one. *)
Lemma separated_snoc (cfg : Config.t) (l : list Dispatch) (d : Dispatch) :
  separated cfg l ->
  (forall l0 d0, l = l0 ++ [d0] -> cooling_down cfg (d_time d0) (d_time d) = false) ->
  separated cfg (l ++ [d]).
Proof.
  intros Hs Hlast l1 d1 d2 l2 E.
  destruct (list_ends (d2 :: l2)) as [H | [(x & H) | (a & mid & b & H)]].
  - discriminate.
  - injection H as -> ->.
    change (l1 ++ [d1; x]) with (l1 ++ [d1] ++ [x]) in E.
    rewrite app_assoc in E. apply app_inj_tail in E. destruct E as [-> ->].
    now apply (Hlast l1 d1).
  - injection H as -> ->.
    change (l1 ++ d1 :: a :: mid ++ [b]) with (l1 ++ (d1 :: a :: mid) ++ [b]) in E.
    rewrite app_assoc in E. apply app_inj_tail in E. destruct E as [-> ->].
    now apply (Hs l1 d1 a mid).
Qed.

Lemma main_loop_cons (cfg : Config.t) (event : Event) (clock : float)
  (rest : list (Event * float)) (st : LoopState) :
  let st1 := state_of (loop_body cfg event clock) st in
  state_of (main_loop cfg ((event, clock) :: rest)) st = st1 \/
  state_of (main_loop cfg ((event, clock) :: rest)) st =
    state_of (main_loop cfg rest) st1.
Proof.
  cbn [main_loop]. unfold state_of, bind.
  destruct (loop_body cfg event clock st) as [[u|e] st1]; cbn [snd]; auto.
Qed.

Section ValidatedConfig.
Context (cfg : Config.t).
Hypothesis validated : validate_config (Config.gestures cfg) = [].

(** An iteration either leaves the sink and [last_gesture_time] as they are,
    or calls the sink once, at a time not less than the cooldown after
    [last_gesture_time], which it sets to that time. *)
Lemma loop_body_gate (event : Event) (clock : float) (st : LoopState) :
  let st' := state_of (loop_body cfg event clock) st in
  let now := (clock * 1000)%float in
  (dispatched st' = dispatched st /\
   last_gesture_time st' = last_gesture_time st) \/
  (exists g a,
     dispatched st' = dispatched st ++ [mkDispatch now g a] /\
     last_gesture_time st' = now /\
     cooling_down cfg (last_gesture_time st) now = false).
Proof.
  intros st' now. subst st'. rewrite loop_body_state.
  destruct (handled cfg event); [|now left]. cbv zeta. fold now.
  destruct (value_of detect_gesture _) as [[g|]|e]; try (now left).
  destruct (cooling_down cfg (last_gesture_time st) now) eqn:Ec; [now left|].
  destruct (lookup (gesture_name g) (Config.gestures cfg)) as [gc|] eqn:El;
    [|now left].
  destruct (validated_bound _ g gc validated El) as [a ->].
  right. now exists g, a.
Qed.

(** The invariant of the loop: the calls of the sink are apart, and
    [last_gesture_time] is the time of the latest one. *)
Lemma loop_body_keeps_gate (event : Event) (clock : float) (st : LoopState) :
  separated cfg (dispatched st) /\ gate_tracks_sink st ->
  let st' := state_of (loop_body cfg event clock) st in
  separated cfg (dispatched st') /\ gate_tracks_sink st'.
Proof.
  intros [Hs Hg] st'.
  destruct (loop_body_gate event clock st) as [[Hd Hl] | (g & a & Hd & Hl & Hc)];
    fold st' in Hd, Hl.
  - unfold gate_tracks_sink. rewrite Hd, Hl. now split.
  - unfold gate_tracks_sink. rewrite Hd, Hl. split.
    + apply separated_snoc; [exact Hs|].
      intros l0 d0 E. cbn [d_time]. now rewrite (Hg l0 d0 E).
    + intros l d E. apply app_inj_tail in E. destruct E as [_ <-]. reflexivity.
Qed.

Lemma main_loop_keeps_gate (events : list (Event * float)) :
  forall st,
    separated cfg (dispatched st) /\ gate_tracks_sink st ->
    let st' := state_of (main_loop cfg events) st in
    separated cfg (dispatched st') /\ gate_tracks_sink st'.
Proof.
  induction events as [|[event clock] rest IH]; intros st Hinv.
  - exact Hinv.
  - pose proof (loop_body_keeps_gate event clock st Hinv) as H1.
    cbv zeta in *.
    destruct (main_loop_cons cfg event clock rest st) as [-> | ->].
    + exact H1.
    + now apply IH.
Qed.

(** C6. In a configuration [validate_config] accepts: an iteration of the
    loop either calls no action and leaves [last_gesture_time] as it is, or
    calls one action, at a time [now] with [now - last_gesture_time] not
    below the cooldown, and sets [last_gesture_time] to [now]; so, over any
    stream of events from the start of the loop, two calls that follow each
    other are never less than the cooldown apart ([now - last_gesture_time]
    is greater than or equal to the cooldown when both are numbers, that is
    not NaN). With cooldown 300 and a gesture dispatched at 0 ms, a
    qualifying gesture at 250 ms is suppressed and one at 301 ms is
    dispatched. *)
Theorem cooldown_gate :
  (forall event clock st,
     let st' := state_of (loop_body cfg event clock) st in
     let now := (clock * 1000)%float in
     (dispatched st' = dispatched st /\
      last_gesture_time st' = last_gesture_time st) \/
     (exists g a,
        dispatched st' = dispatched st ++ [mkDispatch now g a] /\
        last_gesture_time st' = now /\
        (now - last_gesture_time st <? Z2float (Config.cooldown_ms cfg))%float
          = false /\
        (is_nan (now - last_gesture_time st) = false ->
         is_nan (Z2float (Config.cooldown_ms cfg)) = false ->
         (Z2float (Config.cooldown_ms cfg) <=? now - last_gesture_time st)%float
           = true))) /\
  (forall events,
     separated cfg (dispatched (state_of (main_loop cfg events) (loop_init cfg)))) /\
  (let event := mkEvent EV_ABS 8 20 0.01 in
   value_of detect_gesture
     (state_of (add_sample 0.01 20) (tracker dispatched_at_zero)) = Ok (Some Up) /\
   (let st250 := state_of (loop_body (up_only false) event 0.25) dispatched_at_zero in
    dispatched st250 = [mkDispatch 0 Up key_up] /\
    last_gesture_time st250 = 0%float) /\
   (let st301 := state_of (loop_body (up_only false) event 0.301) dispatched_at_zero in
    dispatched st301 = [mkDispatch 0 Up key_up; mkDispatch 301 Up key_up] /\
    last_gesture_time st301 = 301%float)).
Proof.
  split; [|split].
  - intros event clock st st' now.
    destruct (loop_body_gate event clock st) as [H | (g & a & Hd & Hl & Hc)];
      [now left|].
    right. exists g, a. repeat split; try assumption.
    intros Hn1 Hn2. now apply ltb_false_leb.
  - intros events.
    apply (main_loop_keeps_gate events (loop_init cfg)).
    split; [apply separated_nil|]. intros l d E. now destruct l.
  - repeat split; vm_compute; reflexivity.
Qed.

End ValidatedConfig.

(** ** End to end *)

(** The default settings (threshold 3.0, cooldown 300 ms, 5 samples of
    history) evaluated, with an action bound to ['up'] and acceleration
    tracking on or off: a rise over 5 samples 10 ms apart, be it 0, 12, 25,
    37, 50 or 10, 20, 30, 40, 50, makes the loop call the action exactly
    once, for [Up], and the buffer is empty right after that call; the same
    rise fed again one second later, the cooldown having passed, makes it
    call the action exactly once more. No iteration raises. *)
Theorem rise_dispatches_once (acceleration : bool) :
  let cfg := up_only acceleration in
  let run events := main_loop cfg events (loop_init cfg) in
  let gestures st := map d_gesture (dispatched st) in
  let times st := map d_time (dispatched st) in
  (let st := snd (run (firstn 3 (rise_from_zero 100))) in
   gestures st = [Up] /\ history (tracker st) = []) /\
  (let st := snd (run (rise_from_zero 100)) in
   fst (run (rise_from_zero 100)) = Ok tt /\
   gestures st = [Up] /\ times st = [100020%float]) /\
  (let st := snd (run (rise_from_zero 100 ++ rise_from_zero 101)) in
   fst (run (rise_from_zero 100 ++ rise_from_zero 101)) = Ok tt /\
   gestures st = [Up; Up] /\ times st = [100020%float; 101020%float]) /\
  (let st := snd (run (firstn 2 (rise_to_fifty 100))) in
   gestures st = [Up] /\ history (tracker st) = []) /\
  (let st := snd (run (rise_to_fifty 100)) in
   fst (run (rise_to_fifty 100)) = Ok tt /\
   gestures st = [Up] /\ times st = [100010%float]) /\
  (let st := snd (run (rise_to_fifty 100 ++ rise_to_fifty 101)) in
   fst (run (rise_to_fifty 100 ++ rise_to_fifty 101)) = Ok tt /\
   gestures st = [Up; Up] /\ times st = [100010%float; 101040%float]).
Proof. destruct acceleration; repeat split; vm_compute; reflexivity. Qed.

(** ** The buffer as a sliding window *)

Lemma lastn_all {A : Type} (n : nat) (l : list A) :
  (List.length l <= n)%nat -> lastn n l = l.
Proof. intros H. unfold lastn. now replace (List.length l - n)%nat with 0%nat by lia. Qed.

Lemma lastn_length {A : Type} (n : nat) (l : list A) :
  (List.length (lastn n l) <= n)%nat.
Proof. unfold lastn. rewrite length_skipn. lia. Qed.

Lemma lastn_app_lastn {A : Type} (n : nat) (l r : list A) :
  lastn n (lastn n l ++ r) = lastn n (l ++ r).
Proof.
  unfold lastn. rewrite !length_app, length_skipn.
  destruct (Nat.le_gt_cases (List.length l) n) as [H|H].
  - replace (List.length l - n)%nat with 0%nat by lia.
    now rewrite Nat.sub_0_r.
  - replace (List.length l - (List.length l - n) + List.length r - n)%nat
      with (List.length r + 0)%nat by lia.
    replace (List.length l + List.length r - n)%nat
      with ((List.length l - n) + List.length r)%nat by lia.
    rewrite Nat.add_0_r.
    rewrite !skipn_app. rewrite length_skipn.
    rewrite skipn_skipn.
    replace (List.length r + (List.length l - n))%nat
      with (List.length l - n + List.length r)%nat by lia.
    f_equal. f_equal. lia.
Qed.

Lemma lastn_snoc_full {A : Type} (n : nat) (l : list A) (x : A) :
  List.length l = n -> lastn n (l ++ [x]) = tl (l ++ [x]).
Proof.
  intros H. unfold lastn. rewrite length_app. cbn [List.length].
  replace (List.length l + 1 - n)%nat with 1%nat by lia.
  destruct (l ++ [x]); reflexivity.
Qed.

(** One call, on a buffer that holds the last samples of [acc]. *)
Lemma call_window (c : BufferCall) (tr : VelocityTracker) (acc : list Sample) :
  0 <= max_history tr ->
  history tr = lastn (Z.to_nat (max_history tr)) acc ->
  exists acc',
    history (state_of (call c) tr) = lastn (Z.to_nat (max_history tr)) acc' /\
    forall rest, pending acc (c :: rest) = pending acc' rest.
Proof.
  intros Hm Hh. destruct c as [t v|].
  - cbn [call pending]. destruct (v =? 0) eqn:E.
    + apply Z.eqb_eq in E. subst v. exists []. split; [reflexivity | reflexivity].
    + apply Z.eqb_neq in E. exists (acc ++ [(t, v)]). split; [|reflexivity].
      unfold state_of. rewrite add_sample_nonzero by assumption. cbn [snd].
      unfold set_history. cbn [history].
      pose proof (lastn_length (Z.to_nat (max_history tr)) acc) as Hl.
      rewrite <- Hh in Hl.
      rewrite <- lastn_app_lastn, <- Hh.
      destruct (len (history tr) <? max_history tr) eqn:E1.
      * apply Z.ltb_lt in E1. unfold len in E1.
        symmetry. apply lastn_all. rewrite length_app. cbn [List.length]. lia.
      * apply Z.ltb_ge in E1. unfold len in E1.
        symmetry. apply lastn_snoc_full. lia.
  - exists []. split; reflexivity.
Qed.

Lemma calls_window (cs : list BufferCall) : forall (tr : VelocityTracker) (acc : list Sample),
  0 <= max_history tr ->
  history tr = lastn (Z.to_nat (max_history tr)) acc ->
  history (state_of (calls cs) tr)
  = lastn (Z.to_nat (max_history tr)) (pending acc cs).
Proof.
  induction cs as [|c cs IH]; intros tr acc Hm Hh.
  - exact Hh.
  - unfold state_of. rewrite calls_cons.
    destruct (call_window c tr acc Hm Hh) as (acc' & Hh' & Hp).
    rewrite Hp. rewrite <- (call_max_history c tr) in Hh' |- *.
    apply IH; [rewrite call_max_history; exact Hm | exact Hh'].
Qed.

(** The buffer is a sliding window: after any sequence of [add_sample] and
    [clear] calls on a fresh tracker, it holds, in order, the last
    [history_size] samples added since it was last emptied. *)
Theorem buffer_is_sliding_window
  (thr : float) (en : bool) (history_size : Z) (cs : list BufferCall) :
  0 <= history_size ->
  history (state_of (calls cs) (init thr en history_size))
  = lastn (Z.to_nat history_size) (pending [] cs).
Proof.
  intros H. apply (calls_window cs (init thr en history_size) []); [exact H|].
  reflexivity.
Qed.

(** ** Events the loop does not handle *)

Lemma loop_body_unhandled (cfg : Config.t) (event : Event) (clock : float) (st : LoopState) :
  handled cfg event = false -> loop_body cfg event clock st = (Ok tt, st).
Proof. intros H. rewrite loop_body_run. now rewrite H. Qed.

(** Events of another type or axis have no effect at all: the loop ends in
    the same state, with the same result, as on the stream without them. *)
Theorem main_loop_ignores_other_events
  (cfg : Config.t) (events : list (Event * float)) (st : LoopState) :
  main_loop cfg events st
  = main_loop cfg (filter (fun e => handled cfg (fst e)) events) st.
Proof.
  revert st. induction events as [|[event clock] rest IH]; intros st.
  - reflexivity.
  - cbn [filter fst]. destruct (handled cfg event) eqn:E.
    + cbn [main_loop]. unfold bind.
      destruct (loop_body cfg event clock st) as [[u|e] st1]; [apply IH | reflexivity].
    + cbn [main_loop]. unfold bind. rewrite loop_body_unhandled by assumption.
      apply IH.
Qed.

(** ** Differences of binary64 instants *)

(** A finite float is a zero or a finite value. *)
Lemma finite_float_shape (x : float) :
  is_finite x = true ->
  (exists s, Prim2SF x = S754_zero s) \/
  (exists s m e, Prim2SF x = S754_finite s m e).
Proof.
  unfold is_finite, is_nan, is_infinity.
  rewrite !FloatAxioms.eqb_spec, abs_spec, Prim2SF_infinity.
  destruct (Prim2SF x) as [s|s| |s m e]; cbn.
  - intros _. left. now exists s.
  - destruct s; cbn; discriminate.
  - discriminate.
  - intros _. right. now exists s, m, e.
Qed.

Lemma digits2_pos_upper (p : positive) : Zpos p < 2 ^ Zpos (digits2_pos p).
Proof.
  induction p as [p IH|p IH|]; cbn [digits2_pos].
  - rewrite Pos2Z.inj_succ, Z.pow_succ_r by lia.
    change (Z.pos p~1) with (2 * Z.pos p + 1). lia.
  - rewrite Pos2Z.inj_succ, Z.pow_succ_r by lia.
    change (Z.pos p~0) with (2 * Z.pos p). lia.
  - reflexivity.
Qed.

(** The mantissa and exponent of a valid binary64 value. *)
Lemma valid_finite_bounds (s : bool) (m : positive) (e : Z) :
  valid_binary (S754_finite s m e) = true ->
  -1074 <= e /\ Zpos m < 2 ^ 53 /\ (-1074 < e -> 2 ^ 52 <= Zpos m).
Proof.
  cbn [valid_binary]. unfold bounded, canonical_mantissa, fexp, emin. intros V.
  apply andb_prop in V. destruct V as [V _].
  change prec with 53 in V. change emax with 1024 in V.
  change IntDef.Z.max with Z.max in V. change IntDef.Z.sub with Z.sub in V.
  change IntDef.Z.add with Z.add in V. change IntDef.Z.eqb with Z.eqb in V.
  apply Z.eqb_eq in V.
  pose proof (digits2_pos_lower m) as Hl. pose proof (digits2_pos_upper m) as Hu.
  set (d := Zpos (digits2_pos m)) in *.
  assert (Hd : 0 < d) by (unfold d; lia).
  split; [lia|]. split.
  - assert (d <= 53) by lia.
    assert (2 ^ d <= 2 ^ 53) by (apply Z.pow_le_mono_r; lia). lia.
  - intros He. assert (d = 53) by lia. replace (d - 1) with 52 in Hl by lia. exact Hl.
Qed.

Lemma iter_xO_mul (d p : positive) : Zpos (Pos.iter xO p d) = Zpos p * 2 ^ Zpos d.
Proof.
  induction d as [|d IH] using Pos.peano_ind.
  - cbn. lia.
  - rewrite Pos.iter_succ. change (Z.pos (Pos.iter xO p d)~0) with (2 * Z.pos (Pos.iter xO p d)).
    rewrite IH, Pos2Z.inj_succ, Z.pow_succ_r by lia. lia.
Qed.

(** Aligning a mantissa to a lower exponent keeps the value. *)
Lemma shl_align_value (m : positive) (e ez : Z) :
  ez <= e -> Zpos (fst (shl_align m e ez)) = Zpos m * 2 ^ (e - ez).
Proof.
  intros H. unfold shl_align. change IntDef.Z.sub with Z.sub.
  destruct (ez - e) as [|d|d] eqn:E; cbn [fst].
  - replace (e - ez) with 0 by lia. cbn. lia.
  - lia.
  - rewrite iter_xO_mul. f_equal. f_equal. lia.
Qed.

Lemma binary_round_sign (s : bool) (p : positive) (e : Z) :
  -1074 <= e ->
  binary_round prec emax s p e = S754_infinity s \/
  exists m' e', binary_round prec emax s p e = S754_finite s m' e'.
Proof.
  intros He. unfold binary_round, shl_align.
  set (f := fexp prec emax (Z.pos (digits2_pos p) + e)).
  assert (Hf : -1074 <= f).
  { unfold f, fexp, emin. change prec with 53. change emax with 1024.
    change IntDef.Z.max with Z.max. change IntDef.Z.sub with Z.sub. lia. }
  change IntDef.Z.sub with Z.sub.
  destruct (f - e) as [|d|d] eqn:Ed.
  - destruct (binary_round_aux_positive s p e loc_Exact He) as [H | (m' & e' & H & _)];
      [now left | right; now exists m', e'].
  - destruct (binary_round_aux_positive s p e loc_Exact He) as [H | (m' & e' & H & _)];
      [now left | right; now exists m', e'].
  - destruct (binary_round_aux_positive s (Pos.iter xO p d) f loc_Exact Hf)
      as [H | (m' & e' & H & _)]; [now left | right; now exists m', e'].
Qed.

(** Between valid finite values, [<=] is [<=] of the mantissas aligned to the
    lower exponent and signed. *)
Lemma SFleb_aligned (sa sb : bool) (ma mb : positive) (ea eb : Z) :
  valid_binary (S754_finite sa ma ea) = true ->
  valid_binary (S754_finite sb mb eb) = true ->
  SFleb (S754_finite sa ma ea) (S754_finite sb mb eb) = true ->
  let ez := Z.min eb ea in
  cond_Zopp sa (Zpos (fst (shl_align ma ea ez)))
  <= cond_Zopp sb (Zpos (fst (shl_align mb eb ez))).
Proof.
  intros Va Vb Hle ez.
  destruct (valid_finite_bounds _ _ _ Va) as (Hea & Hma & Hna).
  destruct (valid_finite_bounds _ _ _ Vb) as (Heb & Hmb & Hnb).
  rewrite !shl_align_value by (unfold ez; lia).
  unfold SFleb, SFcompare in Hle.
  change IntDef.Z.compare with Z.compare in Hle.
  change (PosDef.Pos.compare_cont Eq ma mb) with (Pos.compare ma mb) in Hle.
  assert (P52 : 2 ^ 53 = 2 * 2 ^ 52) by reflexivity.
  assert (Hpow : forall k, 0 < k -> 2 <= 2 ^ k).
  { intros k Hk. change 2 with (2 ^ 1) at 1. apply Z.pow_le_mono_r; lia. }
  destruct sa, sb; cbn [cond_Zopp]; try discriminate.
  - (* both negative *)
    destruct (Z.compare_spec ea eb) as [E|E|E]; try discriminate.
    + subst eb. unfold ez. rewrite Z.min_id, Z.sub_diag. cbn [Z.pow].
      destruct (Pos.compare_spec ma mb) as [E'|E'|E']; cbn in Hle; try discriminate; lia.
    + unfold ez. rewrite Z.min_l by lia. rewrite Z.sub_diag. cbn [Z.pow].
      specialize (Hna ltac:(lia)). specialize (Hpow (ea - eb) ltac:(lia)). nia.
  - (* a negative, b positive *)
    assert (0 < 2 ^ (ea - ez)) by (apply Z.pow_pos_nonneg; unfold ez; lia).
    assert (0 < 2 ^ (eb - ez)) by (apply Z.pow_pos_nonneg; unfold ez; lia).
    nia.
  - (* both positive *)
    destruct (Z.compare_spec ea eb) as [E|E|E]; try discriminate.
    + subst eb. unfold ez. rewrite Z.min_id, Z.sub_diag. cbn [Z.pow].
      destruct (Pos.compare_spec ma mb) as [E'|E'|E']; cbn in Hle; try discriminate; lia.
    + unfold ez. rewrite Z.min_r by lia. rewrite Z.sub_diag. cbn [Z.pow].
      specialize (Hnb ltac:(lia)). specialize (Hpow (eb - ea) ltac:(lia)). nia.
Qed.

(** The time from a finite instant to a finite instant that is not earlier
    is zero or positive. *)
Lemma sub_not_negative (a b : float) :
  is_finite a = true -> is_finite b = true ->
  (a <=? b)%float = true -> not_negative (b - a) = true.
Proof.
  intros Fa Fb. unfold not_negative.
  rewrite leb_spec, FloatAxioms.eqb_spec, ltb_spec, sub_spec, Prim2SF_zero.
  pose proof (Prim2SF_valid a) as Va. pose proof (Prim2SF_valid b) as Vb.
  destruct (finite_float_shape a Fa) as [(sa & Ea) | (sa & ma & ea & Ea)];
    destruct (finite_float_shape b Fb) as [(sb & Eb) | (sb & mb & eb & Eb)];
    rewrite Ea, Eb in *.
  - intros _. destruct sa, sb; reflexivity.
  - destruct sb; cbn; [discriminate | reflexivity].
  - destruct sa, sb; cbn; try discriminate; reflexivity.
  - intros Hle. pose proof (SFleb_aligned sa sb ma mb ea eb Va Vb Hle) as Hz.
    cbv zeta in Hz. unfold SF64sub, SFsub.
    change IntDef.Z.min with Z.min. change IntDef.Z.sub with Z.sub.
    destruct (valid_finite_bounds _ _ _ Va) as (Hea & _).
    destruct (valid_finite_bounds _ _ _ Vb) as (Heb & _).
    set (ez := Z.min eb ea) in *.
    destruct (cond_Zopp sb (Z.pos (fst (shl_align mb eb ez)))
              - cond_Zopp sa (Z.pos (fst (shl_align ma ea ez)))) as [|p|p] eqn:Ez;
      try lia.
    + reflexivity.
    + cbn [binary_normalize].
      destruct (binary_round_sign false p ez ltac:(unfold ez; lia))
        as [-> | (m' & e' & ->)]; reflexivity.
Qed.

(** The difference of two finite floats is not NaN. *)
Lemma sub_finite_number (a b : float) :
  is_finite a = true -> is_finite b = true -> Prim2SF (b - a) <> S754_nan.
Proof.
  intros Fa Fb. rewrite sub_spec.
  pose proof (Prim2SF_valid a) as Va. pose proof (Prim2SF_valid b) as Vb.
  destruct (finite_float_shape a Fa) as [(sa & Ea) | (sa & ma & ea & Ea)];
    destruct (finite_float_shape b Fb) as [(sb & Eb) | (sb & mb & eb & Eb)];
    rewrite Ea, Eb in *.
  - destruct sa, sb; discriminate.
  - discriminate.
  - discriminate.
  - unfold SF64sub, SFsub.
    change IntDef.Z.min with Z.min. change IntDef.Z.sub with Z.sub.
    destruct (valid_finite_bounds _ _ _ Va) as (Hea & _).
    destruct (valid_finite_bounds _ _ _ Vb) as (Heb & _).
    set (ez := Z.min eb ea) in *.
    destruct (cond_Zopp sb (Z.pos (fst (shl_align mb eb ez)))
              - cond_Zopp sa (Z.pos (fst (shl_align ma ea ez)))) as [|p|p].
    + discriminate.
    + cbn [binary_normalize].
      destruct (binary_round_sign false p ez ltac:(unfold ez; lia))
        as [-> | (m' & e' & ->)]; discriminate.
    + cbn [binary_normalize].
      destruct (binary_round_sign true p ez ltac:(unfold ez; lia))
        as [-> | (m' & e' & ->)]; discriminate.
Qed.

(** Zero divided by a number that is not zero is a zero. *)
Lemma zero_div_zero (dt : float) :
  (dt =? 0)%float = false -> Prim2SF dt <> S754_nan ->
  exists s, Prim2SF (0 / dt) = S754_zero s.
Proof.
  rewrite FloatAxioms.eqb_spec, div_spec, Prim2SF_zero.
  destruct (Prim2SF dt) as [s|s| |s m e]; intros Hz Hn.
  - destruct s; discriminate.
  - now eexists.
  - congruence.
  - now eexists.
Qed.

(** The magnitude of a zero is below exactly the positive thresholds. *)
Lemma abs_zero_ltb (v thr : float) (s : bool) :
  Prim2SF v = S754_zero s -> (abs v <? thr)%float = (0 <? thr)%float.
Proof.
  intros H. rewrite !ltb_spec, abs_spec, H, Prim2SF_zero. reflexivity.
Qed.

(** ** Buffers in time order *)

Lemma times_ordered_tail (t : float) (ts : list float) :
  times_ordered (t :: ts) -> times_ordered ts.
Proof.
  intros [Hf Ho]. split.
  - now inversion Hf.
  - now inversion Ho.
Qed.

Lemma times_ordered_suffix (l1 l2 : list float) :
  times_ordered (l1 ++ l2) -> times_ordered l2.
Proof.
  induction l1 as [|t l1 IH]; [auto|]. intros H. apply IH.
  now apply times_ordered_tail with (t := t).
Qed.

Lemma times_ordered_prefix (l1 l2 : list float) :
  times_ordered (l1 ++ l2) -> times_ordered l1.
Proof.
  induction l1 as [|t l1 IH]; intros [Hf Ho].
  - split; constructor.
  - cbn in Hf, Ho. inversion Hf as [|? ? Hft Hfr]; subst.
    inversion Ho as [|? ? Hot Hor]; subst.
    destruct (IH (conj Hfr Hor)) as [Hf1 Ho1].
    split; constructor; try assumption.
    apply Forall_app in Hot. apply Hot.
Qed.

(** In an ordered list the element at a lower index is not later. *)
Lemma times_ordered_nth (ts : list float) : forall (i j : nat) (a b : float),
  times_ordered ts -> (i < j)%nat ->
  nth_error ts i = Some a -> nth_error ts j = Some b ->
  is_finite a = true /\ is_finite b = true /\ (a <=? b)%float = true.
Proof.
  induction ts as [|t ts IH]; intros i j a b H Hij Ha Hb.
  - now destruct i.
  - destruct j as [|j]; [lia|]. cbn in Hb.
    destruct H as [Hf Ho]. inversion Hf as [|? ? Hft Hfr]; subst.
    inversion Ho as [|? ? Hot Hor]; subst.
    destruct i as [|i].
    + cbn in Ha. injection Ha as <-.
      apply nth_error_In in Hb.
      rewrite Forall_forall in Hot, Hfr. auto.
    + cbn in Ha. apply (IH i j a b (conj Hfr Hor)); [lia | assumption | assumption].
Qed.

(** Over checkpoints whose durations are not negative the acceleration is a
    value: the division does not raise. *)
Lemma checkpoint_acceleration_returns (s1 s2 s3 : Sample) :
  not_negative (fst s2 - fst s1) = true ->
  not_negative (fst s3 - fst s2) = true ->
  exists a, checkpoint_acceleration s1 s2 s3 = Ok a.
Proof.
  intros H1 H2. unfold checkpoint_acceleration, not_negative in *.
  destruct (fst s2 - fst s1 =? 0)%float; [now eexists|].
  destruct (fst s3 - fst s2 =? 0)%float; [now eexists|].
  cbn [orb] in *. cbv zeta.
  rewrite (mean_positive_nonzero _ _ H1 H2). now eexists.
Qed.

Lemma nth_error_ends_last {A : Type} (a b : A) (mid : list A) :
  nth_error (a :: mid ++ [b]) (S (List.length mid)) = Some b.
Proof.
  cbn. rewrite nth_error_app2 by lia. now rewrite Nat.sub_diag.
Qed.

(** On a buffer whose samples are at finite times in order,
    [get_acceleration] returns and changes nothing. *)
Lemma get_acceleration_ordered_returns (tr : VelocityTracker) :
  times_ordered (map fst (history tr)) ->
  exists a, get_acceleration tr = (Ok a, tr).
Proof.
  intros Hord.
  destruct (acceleration_enabled tr) eqn:En.
  2:{ exists 0%float. unfold get_acceleration. step_monad. now rewrite En. }
  destruct (len (history tr) <? 3) eqn:E3.
  { exists 0%float. unfold get_acceleration. step_monad. rewrite En, E3. reflexivity. }
  apply Z.ltb_ge in E3.
  destruct (list_ends (history tr)) as [E | [(x & E) | (first & mid & last & E)]];
    try (rewrite E in E3; cbn in E3; lia).
  destruct (getitem_in_range (history tr) (len (history tr) / 2))
    as (middle & _ & Hmid).
  { split; [apply Z.div_pos; lia | apply Z.div_lt_upper_bound; lia]. }
  rewrite (get_acceleration_run tr first middle last mid En E E3 Hmid).
  assert (Hlen : len (history tr) = len mid + 2) by (rewrite E; apply len_ends).
  set (k := Z.to_nat (len (history tr) / 2)) in *.
  assert (Hm1 : 1 <= Z.of_nat (List.length mid)) by (fold (len mid); lia).
  assert (Hk : (0 < k < S (List.length mid))%nat).
  { unfold k. rewrite Hlen. unfold len. split.
    - apply Nat2Z.inj_lt. rewrite Z2Nat.id by (apply Z.div_pos; lia).
      apply Z.div_str_pos; lia.
    - apply Nat2Z.inj_lt. rewrite Z2Nat.id by (apply Z.div_pos; lia).
      rewrite Nat2Z.inj_succ. apply Z.div_lt_upper_bound; lia. }
  assert (N0 : nth_error (map fst (history tr)) 0 = Some (fst first))
    by (rewrite E; reflexivity).
  assert (Nk : nth_error (map fst (history tr)) k = Some (fst middle))
    by (rewrite nth_error_map; exact (f_equal (option_map fst) Hmid)).
  assert (Nl : nth_error (map fst (history tr)) (S (List.length mid)) = Some (fst last))
    by (rewrite nth_error_map, E, nth_error_ends_last; reflexivity).
  destruct (times_ordered_nth _ 0%nat k _ _ Hord (proj1 Hk) N0 Nk) as (F1 & F2 & L12).
  destruct (times_ordered_nth _ k _ _ _ Hord (proj2 Hk) Nk Nl) as (_ & F3 & L23).
  destruct (checkpoint_acceleration_returns first middle last) as [a ->].
  - now apply sub_not_negative.
  - now apply sub_not_negative.
  - now exists a.
Qed.

(** [detect_gesture] raises only what [get_acceleration] raises. *)
Lemma detect_gesture_raises (tr : VelocityTracker) (e : exn) :
  value_of detect_gesture tr = Raise e ->
  value_of get_acceleration tr = Raise e.
Proof.
  unfold value_of at 1. rewrite detect_gesture_run.
  destruct (len (history tr) <? 2); [discriminate|].
  destruct (get_velocity_total tr) as [v Hv]. unfold value_of at 1. rewrite Hv.
  cbn [fst]. cbv zeta.
  destruct (abs v <? velocity_threshold tr)%float; [discriminate|].
  destruct (acceleration_enabled tr).
  - destruct (value_of get_acceleration tr) as [a|e']; cbn [fst].
    + destruct (abs v <? _)%float; discriminate.
    + now intros [= ->].
  - cbn [fst]. destruct (abs v <? _)%float; discriminate.
Qed.

Lemma detect_gesture_ordered_returns (tr : VelocityTracker) :
  times_ordered (map fst (history tr)) ->
  exists g, value_of detect_gesture tr = Ok g.
Proof.
  intros Hord. destruct (value_of detect_gesture tr) as [g|e] eqn:E; [now exists g|].
  apply detect_gesture_raises in E.
  destruct (get_acceleration_ordered_returns tr Hord) as [a Ha].
  unfold value_of in E. rewrite Ha in E. discriminate.
Qed.

(** ** The loop does not raise *)

(** The buffer [add_sample] leaves: empty, the old one with the sample at
    its end, or that without its first sample. *)
Lemma add_sample_history (t : float) (v : Z) (tr : VelocityTracker) :
  let h := history (state_of (add_sample t v) tr) in
  h = [] \/ h = history tr ++ [(t, v)] \/ h = tl (history tr ++ [(t, v)]).
Proof.
  cbv zeta. unfold state_of. destruct (Z.eq_dec v 0) as [->|Hv].
  - left. reflexivity.
  - rewrite add_sample_nonzero by assumption. cbn [snd].
    unfold set_history. cbn [history].
    destruct (len (history tr) <? max_history tr); auto.
Qed.

Lemma add_sample_enabled (t : float) (v : Z) (tr : VelocityTracker) :
  acceleration_enabled (state_of (add_sample t v) tr) = acceleration_enabled tr.
Proof.
  unfold state_of. destruct (Z.eq_dec v 0) as [->|Hv].
  - reflexivity.
  - now rewrite add_sample_nonzero.
Qed.

(** The buffer stays in time order when a sample is added whose time is not
    earlier than the buffered ones. *)
Lemma add_sample_ordered (t : float) (v : Z) (tr : VelocityTracker) (later : list float) :
  times_ordered (map fst (history tr) ++ t :: later) ->
  times_ordered (map fst (history (state_of (add_sample t v) tr)) ++ later).
Proof.
  intros H.
  assert (H' : times_ordered (map fst (history tr ++ [(t, v)]) ++ later)).
  { rewrite map_app, <- app_assoc. exact H. }
  destruct (add_sample_history t v tr) as [-> | [-> | ->]].
  - now apply times_ordered_suffix in H'.
  - exact H'.
  - destruct (history tr ++ [(t, v)]) as [|s r] eqn:E.
    + exact H'.
    + cbn [tl]. cbn [map app] in H'. now apply times_ordered_tail in H'.
Qed.

Lemma detect_gesture_enabled (tr : VelocityTracker) :
  acceleration_enabled (state_of detect_gesture tr) = acceleration_enabled tr.
Proof.
  unfold state_of. rewrite detect_gesture_run.
  destruct (len (history tr) <? 2); [reflexivity|].
  destruct (value_of get_velocity tr) as [v|e]; [|reflexivity].
  cbv zeta. destruct (abs v <? velocity_threshold tr)%float; [reflexivity|].
  destruct (if acceleration_enabled tr then _ else _); reflexivity.
Qed.

(** An iteration raises only what [detect_gesture] raises on the buffer with
    the new sample. *)
Lemma loop_body_returns (cfg : Config.t) (event : Event) (clock : float) (st : LoopState) :
  (handled cfg event = true ->
   exists g, value_of detect_gesture
               (state_of (add_sample (ev_timestamp event) (ev_value event))
                         (tracker st)) = Ok g) ->
  value_of (loop_body cfg event clock) st = Ok tt.
Proof.
  intros H. unfold value_of at 1. rewrite loop_body_run.
  destruct (handled cfg event); [|reflexivity].
  cbv zeta. destruct (H eq_refl) as [g ->].
  destruct g as [g|]; [|reflexivity].
  destruct (cooling_down cfg _ _); [reflexivity|].
  destruct (lookup (gesture_name g) (Config.gestures cfg)); [|reflexivity].
  destruct (bound_action (Config.gestures cfg) g); reflexivity.
Qed.

(** The tracker an iteration that handles its event leaves holds the buffer
    [add_sample] left, or an empty one. *)
Lemma loop_body_history (cfg : Config.t) (event : Event) (clock : float) (st : LoopState) :
  handled cfg event = true ->
  let tr1 := state_of (add_sample (ev_timestamp event) (ev_value event)) (tracker st) in
  let st' := state_of (loop_body cfg event clock) st in
  (history (tracker st') = history tr1 \/ history (tracker st') = []) /\
  acceleration_enabled (tracker st') = acceleration_enabled (tracker st).
Proof.
  intros Hh tr1 st'. subst st'. rewrite loop_body_state, Hh. fold tr1. cbv zeta.
  pose proof (detect_gesture_history tr1) as Hd.
  pose proof (detect_gesture_enabled tr1) as He.
  unfold tr1 in He at 2. rewrite add_sample_enabled in He.
  destruct (value_of detect_gesture tr1) as [[g|]|e]; cbn [tracker]; auto.
  destruct (cooling_down cfg _ _); cbn [tracker]; auto.
  destruct (lookup (gesture_name g) (Config.gestures cfg)); cbn [tracker]; auto.
  destruct (bound_action (Config.gestures cfg) g); cbn [tracker]; auto.
Qed.

Lemma main_loop_step (cfg : Config.t) (event : Event) (clock : float)
  (rest : list (Event * float)) (st : LoopState) :
  value_of (loop_body cfg event clock) st = Ok tt ->
  main_loop cfg ((event, clock) :: rest) st =
  main_loop cfg rest (state_of (loop_body cfg event clock) st).
Proof.
  cbn [main_loop]. unfold value_of, state_of, bind.
  destruct (loop_body cfg event clock st) as [r st1]. cbn [fst snd].
  now intros ->.
Qed.

Lemma main_loop_ordered (cfg : Config.t) (events : list (Event * float)) :
  forall st,
    times_ordered (map fst (history (tracker st)) ++ handled_times cfg events) ->
    value_of (main_loop cfg events) st = Ok tt.
Proof.
  induction events as [|[event clock] rest IH]; intros st Hinv.
  - reflexivity.
  - unfold handled_times in Hinv. cbn [filter fst] in Hinv.
    destruct (handled cfg event) eqn:Hh.
    + cbn [map fst] in Hinv. fold (handled_times cfg rest) in Hinv.
      apply add_sample_ordered with (v := ev_value event) in Hinv.
      assert (Hret : value_of (loop_body cfg event clock) st = Ok tt).
      { apply loop_body_returns. intros _.
        apply detect_gesture_ordered_returns.
        now apply times_ordered_prefix in Hinv. }
      unfold value_of. rewrite main_loop_step by assumption.
      apply IH.
      destruct (loop_body_history cfg event clock st Hh) as [[-> | ->] _].
      * exact Hinv.
      * now apply times_ordered_suffix in Hinv.
    + fold (handled_times cfg rest) in Hinv.
      unfold value_of. rewrite main_loop_step
        by (unfold value_of; now rewrite loop_body_unhandled).
      unfold state_of. rewrite loop_body_unhandled by assumption.
      now apply IH.
Qed.

(** Fed events whose handled timestamps are finite and never go back, the
    loop does not raise, whatever the settings and the clock readings. *)
Theorem main_loop_time_ordered_returns (cfg : Config.t) (events : list (Event * float)) :
  times_ordered (handled_times cfg events) ->
  value_of (main_loop cfg events) (loop_init cfg) = Ok tt.
Proof.
  intros H. apply main_loop_ordered. exact H.
Qed.

Lemma get_acceleration_disabled (tr : VelocityTracker) :
  acceleration_enabled tr = false -> get_acceleration tr = (Ok 0%float, tr).
Proof.
  intros En. unfold get_acceleration. step_monad. now rewrite En.
Qed.

Lemma main_loop_disabled (cfg : Config.t) (events : list (Event * float)) :
  forall st,
    acceleration_enabled (tracker st) = false ->
    value_of (main_loop cfg events) st = Ok tt.
Proof.
  induction events as [|[event clock] rest IH]; intros st Hen.
  - reflexivity.
  - assert (Hret : value_of (loop_body cfg event clock) st = Ok tt).
    { apply loop_body_returns. intros _.
      set (tr1 := state_of _ (tracker st)).
      destruct (value_of detect_gesture tr1) as [g|e] eqn:E; [now exists g|].
      apply detect_gesture_raises in E.
      unfold value_of in E. rewrite get_acceleration_disabled in E; [discriminate|].
      unfold tr1. now rewrite add_sample_enabled. }
    unfold value_of. rewrite main_loop_step by assumption.
    apply IH.
    destruct (handled cfg event) eqn:Hh.
    + destruct (loop_body_history cfg event clock st Hh) as [_ ->]. exact Hen.
    + unfold state_of. now rewrite loop_body_unhandled.
Qed.

(** With acceleration tracking disabled the loop never raises, whatever
    the events: timestamps out of order, equal, infinite or NaN included. *)
Theorem main_loop_acceleration_off_returns
  (cfg : Config.t) (events : list (Event * float)) :
  Config.acceleration cfg = false ->
  value_of (main_loop cfg events) (loop_init cfg) = Ok tt.
Proof.
  intros H. apply main_loop_disabled. exact H.
Qed.

(** ** Iterations that cannot call an action *)

Lemma len_ge_2_ends {A : Type} (a b : A) (mid : list A) :
  (len (a :: mid ++ [b]) <? 2) = false.
Proof. rewrite len_ends. pose proof (len_nonneg mid). apply Z.ltb_ge. lia. Qed.

(** A buffer whose first and last sample hold the same value, at finite
    times, is no gesture under any positive threshold. *)
Theorem detect_gesture_no_motion
  (tr : VelocityTracker) (first last : Sample) (mid : list Sample) :
  history tr = first :: mid ++ [last] ->
  snd last = snd first ->
  is_finite (fst first) = true -> is_finite (fst last) = true ->
  (0 <? velocity_threshold tr)%float = true ->
  detect_gesture tr =
    (Ok None, set_acceleration 0 (set_velocity (endpoint_velocity first last) tr)) /\
  (endpoint_velocity first last =? 0)%float = true.
Proof.
  intros H Hv F1 F2 Hthr.
  assert (Hz : exists s, Prim2SF (endpoint_velocity first last) = S754_zero s).
  { unfold endpoint_velocity. rewrite Hv, Z.sub_diag.
    destruct (fst last - fst first =? 0)%float eqn:E.
    - now exists false.
    - change (Z2float 0) with 0%float.
      apply zero_div_zero; [exact E | now apply sub_finite_number]. }
  destruct Hz as [s Hz]. split.
  - rewrite detect_gesture_run, H, len_ge_2_ends.
    unfold value_of. rewrite (get_velocity_ends tr first last mid H).
    cbn [fst]. cbv zeta.
    now rewrite (abs_zero_ltb _ _ s Hz), Hthr.
  - rewrite FloatAxioms.eqb_spec, Hz, Prim2SF_zero. now destruct s.
Qed.

Lemma detect_gesture_empty (tr : VelocityTracker) :
  (len (history tr) <? 2) = true -> detect_gesture tr = (Ok None, tr).
Proof. intros H. now rewrite detect_gesture_run, H. Qed.

(** An iteration that handles an event of value 0, or that finds the
    buffer empty, calls no action: it returns, and leaves the sink and
    [last_gesture_time] as they are. After an event of value 0 the buffer is
    empty; after one that found the buffer empty it holds at most the new
    sample. *)
Theorem loop_body_needs_two_samples
  (cfg : Config.t) (event : Event) (clock : float) (st : LoopState) :
  handled cfg event = true ->
  ev_value event = 0 \/ history (tracker st) = [] ->
  let st' := state_of (loop_body cfg event clock) st in
  value_of (loop_body cfg event clock) st = Ok tt /\
  dispatched st' = dispatched st /\
  last_gesture_time st' = last_gesture_time st /\
  velocity (tracker st') = velocity (tracker st) /\
  history (tracker st') =
    (if ev_value event =? 0 then []
     else if 1 <=? max_history (tracker st)
          then [(ev_timestamp event, ev_value event)] else []).
Proof.
  intros Hh Hcase st'. subst st'. unfold value_of, state_of.
  rewrite loop_body_run, Hh. cbv zeta.
  set (tr1 := state_of (add_sample (ev_timestamp event) (ev_value event)) (tracker st)).
  assert (Hh1 : history tr1 =
    (if ev_value event =? 0 then []
     else if 1 <=? max_history (tracker st)
          then [(ev_timestamp event, ev_value event)] else []) /\
    velocity tr1 = velocity (tracker st)).
  { unfold tr1, state_of. destruct (Z.eq_dec (ev_value event) 0) as [E|E].
    - rewrite E. split; reflexivity.
    - rewrite add_sample_nonzero by assumption.
      destruct (ev_value event =? 0) eqn:E0; [apply Z.eqb_eq in E0; contradiction|].
      destruct Hcase as [Hc|Hc]; [contradiction|]. rewrite Hc.
      cbn [snd app]. unfold set_history. cbn [history velocity].
      change (len []) with 0. split; [|reflexivity].
      destruct (1 <=? max_history (tracker st)) eqn:E1.
      + apply Z.leb_le in E1.
        destruct (0 <? max_history (tracker st)) eqn:E2; [reflexivity|].
        apply Z.ltb_ge in E2. lia.
      + apply Z.leb_gt in E1.
        destruct (0 <? max_history (tracker st)) eqn:E2; [|reflexivity].
        apply Z.ltb_lt in E2. lia. }
  destruct Hh1 as [Hh1 Hv1].
  assert (Hshort : (len (history tr1) <? 2) = true).
  { rewrite Hh1. destruct (ev_value event =? 0); [reflexivity|].
    destruct (1 <=? max_history (tracker st)); reflexivity. }
  unfold value_of, state_of. rewrite (detect_gesture_empty tr1 Hshort).
  cbn [fst snd tracker dispatched last_gesture_time]. auto.
Qed.

(** ** The direction of a gesture *)

(** [float(z)] of an int of 63 bits is the rounding of [z]. *)
Lemma Z2float_spec (z : Z) :
  - 2 ^ 63 < z < 2 ^ 63 ->
  Prim2SF (Z2float z) = binary_normalize prec emax z 0 false.
Proof.
  intros Hz. unfold Z2float.
  assert (Hpos : forall p, Zpos p < 2 ^ 63 ->
            binary_normalize prec emax (Zpos p) 0 false
            = Prim2SF (of_uint63 (Uint63.of_Z (Zpos p)))).
  { intros p Hp. rewrite of_uint63_spec, Uint63.of_Z_spec.
    rewrite Z.mod_small; [reflexivity|]. split; [lia|]. exact Hp. }
  destruct z as [|p|p].
  - reflexivity.
  - rewrite (Hpos p) by lia. now rewrite SF2Prim_Prim2SF.
  - assert (Hopp : binary_normalize prec emax (Zneg p) 0 false
                   = SFopp (binary_normalize prec emax (Zpos p) 0 false)).
    { cbn [binary_normalize]. unfold binary_round.
      destruct (shl_align p 0 _) as [mz ez]. unfold binary_round_aux.
      destruct (shr_fexp prec emax (Zpos mz) ez loc_Exact) as [mrs' e'].
      destruct (shr_fexp prec emax _ e' loc_Exact) as [mrs'' e''].
      destruct (shr_m mrs''); try reflexivity.
      destruct (e'' <=? emax - prec)%Z; reflexivity. }
    rewrite Hopp, (Hpos p) by lia.
    now rewrite <- opp_spec, SF2Prim_Prim2SF.
Qed.

Lemma digits2_pos_le (p : positive) (k : Z) :
  Zpos p < 2 ^ k -> Zpos (digits2_pos p) <= k.
Proof.
  intros H. pose proof (digits2_pos_lower p) as Hl.
  destruct (Z_lt_le_dec k (Zpos (digits2_pos p))) as [Hk|Hk]; [|exact Hk].
  assert (0 <= k).
  { destruct (Z_lt_le_dec k 0) as [Hn|Hn]; [|exact Hn].
    rewrite Z.pow_neg_r in H by exact Hn. lia. }
  assert (2 ^ k <= 2 ^ (Zpos (digits2_pos p) - 1)) by (apply Z.pow_le_mono_r; lia).
  lia.
Qed.

(** Shifting a mantissa that is not negative to its exponent: the mantissa
    stays not negative and does not grow, and the exponent is the greater of
    the one given and the one of the format. *)
Lemma shr_fexp_nonneg (m e : Z) (l : location) :
  0 <= m ->
  0 <= shr_m (fst (shr_fexp prec emax m e l)) <= m /\
  snd (shr_fexp prec emax m e l) = Z.max e (fexp prec emax (Zdigits2 m + e)).
Proof.
  intros Hm. unfold shr_fexp, shr.
  change IntDef.Z.sub with Z.sub. change IntDef.Z.add with Z.add.
  set (f := fexp prec emax (Zdigits2 m + e)).
  destruct (f - e) as [|k|k] eqn:En; cbn [fst snd].
  - rewrite shr_record_of_loc_m. lia.
  - rewrite iter_shr_1_m by (rewrite shr_record_of_loc_m; lia).
    rewrite shr_record_of_loc_m. split; [|lia].
    assert (0 < 2 ^ Zpos k) by (apply Z.pow_pos_nonneg; lia).
    split; [apply Z.div_pos; lia|].
    apply Z.div_le_upper_bound; [lia|]. nia.
  - rewrite shr_record_of_loc_m. lia.
Qed.

(** Rounding a mantissa that is not negative gives a zero, a finite value
    or an infinity of the sign given, at any exponent. *)
Lemma binary_round_aux_nonneg (s : bool) (m e : Z) (l : location) :
  0 <= m ->
  binary_round_aux prec emax s m e l = S754_zero s \/
  binary_round_aux prec emax s m e l = S754_infinity s \/
  exists m' e', binary_round_aux prec emax s m e l = S754_finite s m' e'.
Proof.
  intros Hm. unfold binary_round_aux.
  destruct (shr_fexp_nonneg m e l Hm) as [H1 _].
  destruct (shr_fexp prec emax m e l) as [mrs' e']. cbn [fst] in H1.
  pose proof (round_nearest_even_ge (shr_m mrs') (loc_of_shr_record mrs')) as Hr.
  destruct (shr_fexp_nonneg (round_nearest_even (shr_m mrs') (loc_of_shr_record mrs'))
              e' loc_Exact ltac:(lia)) as [H2 _].
  destruct (shr_fexp prec emax _ e' loc_Exact) as [mrs'' e'']. cbn [fst] in H2.
  destruct (shr_m mrs'') as [|p|p]; [now left | | lia].
  destruct (e'' <=? emax - prec)%Z; [|now right; left].
  right. right. now exists p, e''.
Qed.

Lemma fexp_le (x k : Z) : x <= k -> -1074 <= k - 53 -> fexp prec emax x <= k - 53.
Proof.
  intros H Hk. unfold fexp, emin. change prec with 53. change emax with 1024.
  change IntDef.Z.max with Z.max. change IntDef.Z.sub with Z.sub. lia.
Qed.

(** Rounding a positive mantissa below 2^63 at an exponent that is not
    positive does not overflow. *)
Lemma binary_round_aux_finite (s : bool) (p : positive) (e : Z) (l : location) :
  Zpos p < 2 ^ 63 -> -1074 <= e <= 0 ->
  exists m' e', binary_round_aux prec emax s (Zpos p) e l = S754_finite s m' e'.
Proof.
  intros Hp He.
  destruct (binary_round_aux_positive s p e l ltac:(lia)) as [H | (m' & e' & H & _)];
    [|now exists m', e'].
  exfalso. revert H. unfold binary_round_aux.
  destruct (shr_fexp_nonneg (Zpos p) e l ltac:(lia)) as [H1 E1].
  destruct (shr_fexp prec emax (Zpos p) e l) as [mrs' e']. cbn [fst snd] in H1, E1.
  pose proof (round_nearest_even_ge (shr_m mrs') (loc_of_shr_record mrs')) as Hr.
  set (m2 := round_nearest_even (shr_m mrs') (loc_of_shr_record mrs')) in *.
  destruct (shr_fexp_nonneg m2 e' loc_Exact ltac:(lia)) as [H2 E2].
  destruct (shr_fexp prec emax m2 e' loc_Exact) as [mrs'' e'']. cbn [fst snd] in H2, E2.
  assert (He' : e' <= 10).
  { rewrite E1. cbn [Zdigits2].
    pose proof (digits2_pos_le p 63 Hp).
    pose proof (fexp_le (Zpos (digits2_pos p) + e) 63 ltac:(lia) ltac:(lia)). lia. }
  assert (He'' : e'' <= 21).
  { rewrite E2. destruct m2 as [|p2|p2]; cbn [Zdigits2].
    - pose proof (fexp_le (0 + e') 74 ltac:(lia) ltac:(lia)). lia.
    - assert (Hp2 : Zpos p2 < 2 ^ 64).
      { change (2 ^ 64) with (2 * 2 ^ 63). lia. }
      pose proof (digits2_pos_le p2 64 Hp2).
      pose proof (fexp_le (Zpos (digits2_pos p2) + e') 74 ltac:(lia) ltac:(lia)). lia.
    - lia. }
  destruct (shr_m mrs''); try discriminate.
  change (emax - prec) with 971.
  destruct (e'' <=? 971) eqn:E; [discriminate|]. apply Z.leb_gt in E. lia.
Qed.

Lemma shl_align_snd (m : positive) (e ez : Z) :
  snd (shl_align m e ez) = Z.min e ez.
Proof.
  unfold shl_align. change IntDef.Z.sub with Z.sub.
  destruct (ez - e) as [|d|d] eqn:E; cbn [snd]; lia.
Qed.

(** [float(z)] of an int of 63 bits that is not 0 is a finite float of the
    sign of [z]. *)
Lemma Z2float_shape (z : Z) :
  - 2 ^ 63 < z < 2 ^ 63 -> z <> 0 ->
  exists m e, Prim2SF (Z2float z) = S754_finite (z <? 0) m e.
Proof.
  intros Hz Hnz. rewrite (Z2float_spec z Hz).
  assert (H : forall s p, Zpos p < 2 ^ 63 ->
            exists m e, binary_round prec emax s p 0 = S754_finite s m e).
  { intros s p Hp. unfold binary_round.
    set (f := fexp prec emax (Zpos (digits2_pos p) + 0)).
    pose proof (shl_align_snd p 0 f) as Hs.
    assert (Hf : -1074 <= f).
    { unfold f, fexp, emin. change prec with 53. change emax with 1024.
      change IntDef.Z.max with Z.max. change IntDef.Z.sub with Z.sub. lia. }
    assert (Hv : Zpos (fst (shl_align p 0 f)) < 2 ^ 63).
    { destruct (Z_le_gt_dec f 0) as [Hle|Hgt].
      - rewrite shl_align_value by exact Hle.
        destruct (Z.eq_dec f 0) as [->|Hne]; [cbn; lia|].
        pose proof (digits2_pos_upper p) as Hu.
        pose proof (digits2_pos_le p 63 Hp) as Hd.
        assert (Ef : f = Zpos (digits2_pos p) - 53).
        { unfold f, fexp, emin in *. change prec with 53 in *. change emax with 1024 in *.
          change IntDef.Z.max with Z.max in *. change IntDef.Z.sub with Z.sub in *. lia. }
        replace (0 - f) with (53 - Zpos (digits2_pos p)) by lia.
        assert (Zpos p * 2 ^ (53 - Zpos (digits2_pos p))
                < 2 ^ Zpos (digits2_pos p) * 2 ^ (53 - Zpos (digits2_pos p))).
        { apply Z.mul_lt_mono_pos_r; [apply Z.pow_pos_nonneg; lia | exact Hu]. }
        rewrite <- Z.pow_add_r in H by lia.
        replace (Zpos (digits2_pos p) + (53 - Zpos (digits2_pos p))) with 53 in H by lia.
        assert (2 ^ 53 < 2 ^ 63) by reflexivity. lia.
      - unfold shl_align. change IntDef.Z.sub with Z.sub.
        destruct (f - 0) as [|d|d] eqn:E; cbn [fst]; try lia. }
    destruct (shl_align p 0 f) as [mz ez]. cbn [fst snd] in *.
    apply binary_round_aux_finite; [exact Hv | lia]. }
  destruct z as [|p|p]; [contradiction| |].
  - cbn [binary_normalize]. apply H. lia.
  - cbn [binary_normalize]. apply H. lia.
Qed.

(** A finite float that is not zero, divided by a duration above zero, is a
    zero, a finite float or an infinity of its sign. *)
Lemma div_positive_shape (x dt : float) (s : bool) (m : positive) (e : Z) :
  Prim2SF x = S754_finite s m e -> (0 <? dt)%float = true ->
  (exists s', Prim2SF (x / dt) = S754_zero s') \/
  Prim2SF (x / dt) = S754_infinity s \/
  exists m' e', Prim2SF (x / dt) = S754_finite s m' e'.
Proof.
  intros Hx Hdt. rewrite div_spec, Hx.
  destruct (positive_float_shape dt Hdt) as [-> | (md & ed & -> & _)].
  - left. now eexists.
  - unfold SF64div, SFdiv, SFdiv_core_binary. rewrite xorb_false_r.
    change IntDef.Z.div_eucl with Z.div_eucl. change IntDef.Z.shiftl with Z.shiftl.
    set (e' := IntDef.Z.min _ _). set (sh := (e - ed - e')%Z).
    set (m1 := match sh with 0 => Zpos m | Zpos _ => Z.shiftl (Zpos m) sh | Zneg _ => 0 end).
    assert (Hm1 : 0 <= m1).
    { unfold m1. destruct sh; try lia. apply Z.shiftl_nonneg. lia. }
    pose proof (Z.div_pos m1 (Zpos md) Hm1 ltac:(lia)) as Hq. unfold Z.div in Hq.
    destruct (Z.div_eucl m1 (Zpos md)) as [q r]. cbn [fst] in Hq.
    destruct (binary_round_aux_nonneg s q e' (new_location (Zpos md) r) Hq)
      as [H | [H | (m' & e'' & H)]].
    + left. now exists s.
    + right. now left.
    + right. right. now exists m', e''.
Qed.

(** A float of negative sign, or a zero, is not above zero; one of positive
    sign that is not a zero is. *)
Lemma ltb_zero_sign (v : float) :
  ((exists s, Prim2SF v = S754_zero s) -> (0 <? v)%float = false) /\
  (Prim2SF v = S754_infinity true -> (0 <? v)%float = false) /\
  (forall m e, Prim2SF v = S754_finite true m e -> (0 <? v)%float = false) /\
  (Prim2SF v = S754_infinity false -> (0 <? v)%float = true) /\
  (forall m e, Prim2SF v = S754_finite false m e -> (0 <? v)%float = true).
Proof.
  rewrite ltb_spec, Prim2SF_zero. repeat split.
  - intros [s ->]. now destruct s.
  - now intros ->.
  - now intros m e ->.
  - now intros ->.
  - now intros m e ->.
Qed.

(** What a call of [detect_gesture] that returns a gesture has seen. *)
Lemma detect_gesture_some (tr : VelocityTracker) (g : Gesture) :
  value_of detect_gesture tr = Ok (Some g) ->
  exists v,
    value_of get_velocity tr = Ok v /\
    (abs v <? velocity_threshold tr)%float = false /\
    g = if (0 <? v)%float then Up else Down.
Proof.
  unfold value_of at 1. rewrite detect_gesture_run.
  destruct (len (history tr) <? 2); [discriminate|].
  destruct (value_of get_velocity tr) as [v|e]; [|discriminate].
  cbv zeta. destruct (abs v <? velocity_threshold tr)%float eqn:E; [discriminate|].
  destruct (if acceleration_enabled tr then _ else _) as [a|e]; [|discriminate].
  cbn [fst]. destruct (abs v <? _ * _)%float; [discriminate|].
  intros [= Hg]. exists v. repeat split; [assumption | now symmetry].
Qed.

(** The direction is that of the change: on a buffer whose first and last
    sample are at finite times in order, under a positive threshold, [Up]
    is returned only when the last value is above the first, and [Down] only
    when it is below. *)
Theorem detect_gesture_direction
  (tr : VelocityTracker) (first last : Sample) (mid : list Sample) (g : Gesture) :
  history tr = first :: mid ++ [last] ->
  is_finite (fst first) = true -> is_finite (fst last) = true ->
  (fst first <=? fst last)%float = true ->
  (0 <? velocity_threshold tr)%float = true ->
  - 2 ^ 63 < snd last - snd first < 2 ^ 63 ->
  value_of detect_gesture tr = Ok (Some g) ->
  match g with
  | Up => snd first < snd last
  | Down => snd last < snd first
  end.
Proof.
  intros H F1 F2 Hle Hthr Hdv Hg.
  destruct (detect_gesture_some tr g Hg) as (v & Hv & Habs & ->).
  unfold value_of in Hv. rewrite (get_velocity_ends tr first last mid H) in Hv.
  cbn [fst] in Hv. injection Hv as <-.
  unfold endpoint_velocity in *.
  pose proof (sub_not_negative _ _ F1 F2 Hle) as Hdt. unfold not_negative in Hdt.
  set (dt := (fst last - fst first)%float) in *.
  set (dv := snd last - snd first) in *.
  destruct (dt =? 0)%float eqn:Edt.
  { rewrite (abs_zero_ltb _ _ false Prim2SF_zero), Hthr in Habs. discriminate. }
  cbn [orb] in Hdt.
  destruct (Z.eq_dec dv 0) as [E0|Hnz].
  { rewrite E0 in Habs. change (Z2float 0) with 0%float in Habs.
    destruct (zero_div_zero dt Edt) as [s Hs].
    - destruct (positive_float_shape dt Hdt) as [-> | (m & e & -> & _)]; discriminate.
    - rewrite (abs_zero_ltb _ _ s Hs), Hthr in Habs. discriminate. }
  destruct (Z2float_shape dv Hdv Hnz) as (m & e & Hx).
  destruct (ltb_zero_sign (Z2float dv / dt)) as (Lz & Lni & Lnf & Lpi & Lpf).
  destruct (div_positive_shape _ dt _ m e Hx Hdt) as [[s Hs] | [Hi | (m' & e' & Hf)]].
  - rewrite (abs_zero_ltb _ _ s Hs), Hthr in Habs. discriminate.
  - destruct (dv <? 0) eqn:Es.
    + rewrite (Lni Hi). apply Z.ltb_lt in Es. unfold dv in Es. lia.
    + rewrite (Lpi Hi). apply Z.ltb_ge in Es. unfold dv in Es, Hnz. lia.
  - destruct (dv <? 0) eqn:Es.
    + rewrite (Lnf _ _ Hf). apply Z.ltb_lt in Es. unfold dv in Es. lia.
    + rewrite (Lpf _ _ Hf). apply Z.ltb_ge in Es. unfold dv in Es, Hnz. lia.
Qed.

(** ** Acceleration tracking only holds gestures back *)

Lemma Prim2SF_one : Prim2SF 1%float = S754_finite false 4503599627370496 (-52).
Proof. reflexivity. Qed.

(** The product of a float by 1.0 is the float. *)
Lemma mul_one (x : float) : (x * 1)%float = x.
Proof.
  apply Prim2SF_inj. rewrite mul_spec, Prim2SF_one.
  pose proof (Prim2SF_valid x) as V.
  destruct (Prim2SF x) as [s|s| |s m e]; cbn [SF64mul SFmul];
    try reflexivity; try (now rewrite xorb_false_r).
  rewrite xorb_false_r.
  cbn [valid_binary] in V. unfold bounded, canonical_mantissa in V.
  apply andb_prop in V. destruct V as [Vc Ve].
  change IntDef.Z.eqb with Z.eqb in Vc. apply Z.eqb_eq in Vc.
  rewrite Pos.mul_comm. cbn [Pos.mul].
  unfold binary_round_aux, shr_fexp. cbn [Zdigits2 digits2_pos].
  change IntDef.Z.add with Z.add in *. change IntDef.Z.sub with Z.sub in *.
  match goal with
  | |- context [fexp prec emax (Zpos ?d + (e + -52))] =>
      replace (Zpos d + (e + -52)) with (Zpos (digits2_pos m) + e) by lia
  end.
  rewrite Vc. replace (e - (e + -52)) with 52 by lia.
  unfold shr. cbn [shr_record_of_loc iter_pos shr_1 orb loc_of_shr_record
    round_nearest_even shr_m shr_r shr_s Z.add Pos.add Pos.succ].
  replace (e + -52 + 52) with e by lia.
  cbn [Zdigits2]. rewrite Vc, Z.sub_diag. cbn [shr_record_of_loc shr_m].
  now rewrite Ve.
Qed.

(** Acceleration tracking never adds a gesture: a gesture returned with
    tracking enabled is returned, the same, by a tracker with the same
    threshold and buffer and tracking disabled. *)
Theorem acceleration_only_suppresses
  (tr tr' : VelocityTracker) (g : Gesture) :
  history tr' = history tr ->
  velocity_threshold tr' = velocity_threshold tr ->
  acceleration_enabled tr' = false ->
  value_of detect_gesture tr = Ok (Some g) ->
  value_of detect_gesture tr' = Ok (Some g).
Proof.
  intros Hh Ht He Hg.
  destruct (detect_gesture_some tr g Hg) as (v & Hv & Habs & ->).
  assert (Hlen : (len (history tr) <? 2) = false).
  { revert Hg. unfold value_of. rewrite detect_gesture_run.
    now destruct (len (history tr) <? 2). }
  assert (Hv' : value_of get_velocity tr' = Ok v).
  { destruct (list_ends (history tr)) as [E | [(x & E) | (first & mid & last & E)]];
      try (rewrite E in Hlen; discriminate).
    unfold value_of in *.
    rewrite (get_velocity_ends tr first last mid E) in Hv.
    rewrite (get_velocity_ends tr' first last mid) by (now rewrite Hh).
    exact Hv. }
  unfold value_of at 1. rewrite detect_gesture_run, Hh, Hlen, Hv', Ht, He.
  cbv zeta. rewrite Habs. cbn [fst].
  unfold multiplier. cbn [andb]. now rewrite mul_one, Habs.
Qed.

(** ** Validation of the configuration *)

Lemma validate_gesture_nil (name : string) (gestures : Gestures) :
  validate_gesture name gestures = [] <->
  forall gc, lookup name gestures = Some gc ->
    exists act, action gc = Some act /\ (keys act <> None \/ command act <> None).
Proof.
  unfold validate_gesture. destruct (lookup name gestures) as [gc|].
  - destruct (action gc) as [act|] eqn:Ea.
    + destruct (keys act) as [k|] eqn:Ek; [|destruct (command act) as [c|] eqn:Ec].
      * split; [|reflexivity]. intros _ gc' [= <-]. exists act.
        rewrite Ea, Ek. split; [reflexivity | left; discriminate].
      * split; [|reflexivity]. intros _ gc' [= <-]. exists act.
        rewrite Ea, Ec. split; [reflexivity | right; discriminate].
      * split; [discriminate|]. intros H.
        destruct (H gc eq_refl) as (act' & Ha & Hk).
        rewrite Ea in Ha. injection Ha as <-. rewrite Ek, Ec in Hk.
        destruct Hk as [Hk|Hk]; now contradiction Hk.
    + split; [discriminate|]. intros H.
      destruct (H gc eq_refl) as (act' & Ha & _). now rewrite Ea in Ha.
  - split; [|reflexivity]. intros _ gc H. discriminate.
Qed.

Lemma missing_sections_nil (config : Yaml.t) :
  Startup.missing_sections config = [] <->
  exists d a gestures,
    Yaml.device config = Some d /\ Yaml.axis config = Some a /\
    Yaml.gestures config = Some gestures.
Proof.
  unfold Startup.missing_sections.
  destruct (Yaml.device config) as [d|], (Yaml.axis config) as [a|],
    (Yaml.gestures config) as [g|]; cbn [app]; split;
    try discriminate; try (intros (d' & a' & g' & H1 & H2 & H3); discriminate).
  - intros _. now exists d, a, g.
  - reflexivity.
Qed.

(** With all three sections, [validate_config] gives the errors of the
    gestures. *)
Lemma validate_config_sections (config : Yaml.t) (gestures : Gestures) :
  Startup.missing_sections config = [] ->
  Yaml.gestures config = Some gestures ->
  Startup.validate_config config = validate_config gestures.
Proof.
  intros Hm Hg. unfold Startup.validate_config. rewrite Hm, Hg. reflexivity.
Qed.

Lemma validate_config_missing (config : Yaml.t) :
  Startup.missing_sections config <> [] ->
  Startup.validate_config config = Startup.missing_sections config.
Proof.
  intros Hm. unfold Startup.validate_config.
  destruct (Startup.missing_sections config); [contradiction | reflexivity].
Qed.

Lemma validated_sections (config : Yaml.t) :
  Startup.validate_config config = [] -> Startup.missing_sections config = [].
Proof.
  intros H. destruct (Startup.missing_sections config) as [|m ms] eqn:Hm; [reflexivity|].
  rewrite validate_config_missing in H by (rewrite Hm; discriminate).
  rewrite Hm in H. discriminate.
Qed.

(** What [validate_config] accepts: the three sections are there, and each
    of the gestures [up] and [down] that has an entry has an action with
    [keys] or [command]. *)
Theorem validate_config_accepts (config : Yaml.t) :
  Startup.validate_config config = [] <->
  exists d a gestures,
    Yaml.device config = Some d /\ Yaml.axis config = Some a /\
    Yaml.gestures config = Some gestures /\
    forall g gc, lookup (gesture_name g) gestures = Some gc ->
      exists act, action gc = Some act /\ (keys act <> None \/ command act <> None).
Proof.
  split.
  - intros H.
    destruct (Startup.missing_sections config) as [|m ms] eqn:Hm.
    + destruct (proj1 (missing_sections_nil config) Hm) as (d & a & gs & Hd & Ha & Hg).
      exists d, a, gs. repeat split; try assumption.
      rewrite (validate_config_sections config gs Hm Hg) in H.
      unfold validate_config in H. apply app_eq_nil in H. destruct H as [Hu Hdn].
      intros g gc. destruct g; cbn [gesture_name].
      * now apply validate_gesture_nil.
      * now apply validate_gesture_nil.
    + rewrite validate_config_missing in H by (rewrite Hm; discriminate).
      rewrite Hm in H. discriminate.
  - intros (d & a & gs & Hd & Ha & Hg & H).
    assert (Hm : Startup.missing_sections config = [])
      by (apply missing_sections_nil; now exists d, a, gs).
    rewrite (validate_config_sections config gs Hm Hg). unfold validate_config.
    rewrite (proj2 (validate_gesture_nil "up" gs) (H Up)).
    rewrite (proj2 (validate_gesture_nil "down" gs) (H Down)).
    reflexivity.
Qed.

Lemma validate_gesture_lookup (name : string) (g1 g2 : Gestures) :
  lookup name g1 = lookup name g2 ->
  validate_gesture name g1 = validate_gesture name g2.
Proof. unfold validate_gesture. now intros ->. Qed.

(** [validate_config] reads nothing but which sections are there and the
    entries [up] and [down] of [gestures]: two configurations that agree on
    these have the same errors, whatever their device, axis, settings and
    other gestures. *)
Theorem validate_config_reads_up_and_down (c1 c2 : Yaml.t) (g1 g2 : Gestures) :
  (Yaml.device c1 = None <-> Yaml.device c2 = None) ->
  (Yaml.axis c1 = None <-> Yaml.axis c2 = None) ->
  Yaml.gestures c1 = Some g1 -> Yaml.gestures c2 = Some g2 ->
  lookup "up" g1 = lookup "up" g2 ->
  lookup "down" g1 = lookup "down" g2 ->
  Startup.validate_config c1 = Startup.validate_config c2.
Proof.
  intros Hd Ha H1 H2 Hup Hdown.
  assert (Hm : Startup.missing_sections c1 = Startup.missing_sections c2).
  { unfold Startup.missing_sections. rewrite H1, H2.
    destruct (Yaml.device c1), (Yaml.device c2), (Yaml.axis c1), (Yaml.axis c2);
      try reflexivity;
      try (now (destruct Hd as [Hd1 Hd2]; first [specialize (Hd1 eq_refl) | specialize (Hd2 eq_refl)]));
      try (now (destruct Ha as [Ha1 Ha2]; first [specialize (Ha1 eq_refl) | specialize (Ha2 eq_refl)])). }
  unfold Startup.validate_config. rewrite <- Hm, H1, H2.
  destruct (Startup.missing_sections c1); [|reflexivity].
  cbn [get_default]. unfold validate_config.
  now rewrite (validate_gesture_lookup _ _ _ Hup), (validate_gesture_lookup _ _ _ Hdown).
Qed.

(** When a section is missing, the errors are the missing sections and
    nothing else: the gestures are not looked at. *)
Theorem validate_config_missing_section (config : Yaml.t) :
  Yaml.device config = None \/ Yaml.axis config = None \/ Yaml.gestures config = None ->
  Startup.validate_config config <> [] /\
  forall e, In e (Startup.validate_config config) <->
    (e = "Missing 'device' section"%string /\ Yaml.device config = None) \/
    (e = "Missing 'axis' field"%string /\ Yaml.axis config = None) \/
    (e = "Missing 'gestures' section"%string /\ Yaml.gestures config = None).
Proof.
  intros H.
  assert (Hm : Startup.missing_sections config <> []).
  { intros Hm. apply missing_sections_nil in Hm.
    destruct Hm as (d & a & g & Hd & Ha & Hg).
    destruct H as [H | [H | H]]; congruence. }
  rewrite (validate_config_missing config Hm). split; [exact Hm|].
  intros e. unfold Startup.missing_sections.
  destruct (Yaml.device config), (Yaml.axis config), (Yaml.gestures config);
    cbn [app In]; split; intros H';
    repeat match goal with
           | H0 : _ \/ _ |- _ => destruct H0
           | H0 : _ /\ _ |- _ => destruct H0
           | H0 : False |- _ => contradiction
           | H0 : Some _ = None |- _ => discriminate
           end; subst; auto 6.
Qed.

(** ** The device *)

Lemma search_devices_returns (host : Host) (name_substr : string)
  (dev_paths : list string) (p : string) :
  Startup.search_devices host name_substr dev_paths = Return p <->
  exists before after dev_name,
    dev_paths = before ++ p :: after /\
    Forall (passed_over host name_substr) before /\
    device_name host p = Return dev_name /\
    contains name_substr (lower host dev_name) = true.
Proof.
  induction dev_paths as [|q rest IH]; cbn [Startup.search_devices].
  - split; [discriminate|]. intros (before & after & n & E & _).
    now destruct before.
  - split.
    + destruct (device_name host q) as [n|e] eqn:Eq; [|discriminate].
      destruct (contains name_substr (lower host n)) eqn:Ec.
      * intros [= <-]. exists [], rest, n. repeat split; auto.
      * intros H. apply IH in H. destruct H as (before & after & n' & E & Hb & Hn & Hc).
        exists (q :: before), after, n'. subst rest. repeat split; auto.
        constructor; [now exists n | assumption].
    + intros (before & after & n & E & Hb & Hn & Hc).
      destruct before as [|q' before]; cbn [app] in E; injection E as -> ->.
      * now rewrite Hn, Hc.
      * inversion Hb as [|? ? (n' & Hn' & Hc') Hb']; subst.
        rewrite Hn', Hc'. apply IH. now exists before, after, n.
Qed.

Lemma search_devices_throws (host : Host) (name_substr : string)
  (dev_paths : list string) (e : error) :
  Startup.search_devices host name_substr dev_paths = Throw e <->
  (Forall (passed_over host name_substr) dev_paths /\
   e = ValueError ("No device found matching name: " ++ name_substr)) \/
  (exists before q after,
     dev_paths = before ++ q :: after /\
     Forall (passed_over host name_substr) before /\
     device_name host q = Throw e).
Proof.
  induction dev_paths as [|q rest IH]; cbn [Startup.search_devices].
  - split.
    + intros [= <-]. left. now split.
    + intros [[_ ->] | (before & q & after & E & _)]; [reflexivity|].
      now destruct before.
  - split.
    + destruct (device_name host q) as [n|e'] eqn:Eq.
      * destruct (contains name_substr (lower host n)) eqn:Ec; [discriminate|].
        intros H. apply IH in H.
        destruct H as [[Hall ->] | (before & q' & after & E & Hb & Hq)].
        -- left. split; [|reflexivity]. constructor; [now exists n | assumption].
        -- right. exists (q :: before), q', after. subst rest. repeat split; auto.
           constructor; [now exists n | assumption].
      * intros [= <-]. right. exists [], q, rest. repeat split; auto.
    + intros [[Hall ->] | (before & q' & after & E & Hb & Hq)].
      * inversion Hall as [|? ? (n & Hn & Hc) Hall']; subst.
        rewrite Hn, Hc. apply IH. left. now split.
      * destruct before as [|q0 before]; cbn [app] in E; injection E as -> ->.
        -- now rewrite Hq.
        -- inversion Hb as [|? ? (n & Hn & Hc) Hb']; subst.
           rewrite Hn, Hc. apply IH. right. now exists before, q', after.
Qed.

Lemma find_device_by_name (host : Host) (config : Yaml.t) (d : Yaml.Device) (name : string) :
  Yaml.device config = Some d -> Yaml.path d = None -> Yaml.name d = Some name ->
  Startup.find_device host config =
  Startup.search_devices host (lower host name) (list_devices host).
Proof.
  intros Hd Hp Hn. unfold Startup.find_device. rewrite Hd. cbn [get_default].
  now rewrite Hp, Hn.
Qed.

(** With [device.path] set, [find_device] returns only for a regular file,
    and then the path itself, or the target of the link when the path is a
    link; for anything else, a character device included, it raises
    [ValueError]. It reads nothing else: not [device.name], and no device
    is listed or opened. *)
Theorem find_device_path_is_regular_file
  (host : Host) (config : Yaml.t) (d : Yaml.Device) (path : string) :
  Yaml.device config = Some d -> Yaml.path d = Some path ->
  (forall p, Startup.find_device host config = Return p ->
     stat host path = Some RegularFile /\
     p = if islink host path then readlink host path else path) /\
  (stat host path <> Some RegularFile ->
   Startup.find_device host config
   = Throw (ValueError ("Device path not found: " ++ path))) /\
  (forall host' d' a g s,
     Yaml.path d' = Some path ->
     stat host' path = stat host path ->
     islink host' path = islink host path ->
     readlink host' path = readlink host path ->
     Startup.find_device host' (Yaml.mk (Some d') a g s)
     = Startup.find_device host config).
Proof.
  intros Hd Hp.
  assert (E : forall h c dd, Yaml.device c = Some dd -> Yaml.path dd = Some path ->
            Startup.find_device h c =
            match stat h path with
            | Some RegularFile =>
                Return (if islink h path then readlink h path else path)
            | _ => Throw (ValueError ("Device path not found: " ++ path))
            end).
  { intros h c dd Hc Hdd. unfold Startup.find_device, isfile.
    rewrite Hc. cbn [get_default]. rewrite Hdd.
    destruct (stat h path) as [[| | |]|]; cbn [negb]; try reflexivity.
    destruct (islink h path); reflexivity. }
  split; [|split].
  - intros p. rewrite (E host config d Hd Hp).
    destruct (stat host path) as [[| | |]|]; try discriminate.
    intros [= <-]. now split.
  - intros Hs. rewrite (E host config d Hd Hp).
    destruct (stat host path) as [[| | |]|]; try reflexivity. congruence.
  - intros host' d' a g s Hp' Hs Hl Hr.
    rewrite (E host config d Hd Hp), (E host' (Yaml.mk (Some d') a g s) d' eq_refl Hp').
    now rewrite Hs, Hl, Hr.
Qed.

(** By name, [find_device] returns the first listed device whose lowered
    name contains the lowered [device.name]: it returns [p] exactly when [p]
    is listed, opens and matches, and every device listed before it opens
    and does not match. *)
Theorem find_device_first_match
  (host : Host) (config : Yaml.t) (d : Yaml.Device) (name p : string) :
  Yaml.device config = Some d -> Yaml.path d = None -> Yaml.name d = Some name ->
  (Startup.find_device host config = Return p <->
   exists before after dev_name,
     list_devices host = before ++ p :: after /\
     Forall (passed_over host (lower host name)) before /\
     device_name host p = Return dev_name /\
     contains (lower host name) (lower host dev_name) = true).
Proof.
  intros Hd Hp Hn. rewrite (find_device_by_name host config d name Hd Hp Hn).
  apply search_devices_returns.
Qed.

(** By name, [find_device] raises in two cases: every listed device opens
    and none matches, and it is [ValueError]; or a device that cannot be
    opened is listed before any match, and it is that device's exception,
    even when a device listed after it matches. *)
Theorem find_device_by_name_raises
  (host : Host) (config : Yaml.t) (d : Yaml.Device) (name : string) (e : error) :
  Yaml.device config = Some d -> Yaml.path d = None -> Yaml.name d = Some name ->
  (Startup.find_device host config = Throw e <->
   (Forall (passed_over host (lower host name)) (list_devices host) /\
    e = ValueError ("No device found matching name: " ++ lower host name)) \/
   (exists before q after,
      list_devices host = before ++ q :: after /\
      Forall (passed_over host (lower host name)) before /\
      device_name host q = Throw e)).
Proof.
  intros Hd Hp Hn. rewrite (find_device_by_name host config d name Hd Hp Hn).
  apply search_devices_throws.
Qed.

(** ** From the configuration to the loop *)

Lemma dict_get_axis_map (axis : string) (code : Z) :
  dict_get axis axis_map = Some code ->
  (axis = "ABS_RX"%string /\ code = ABS_RX) \/
  (axis = "ABS_RY"%string /\ code = ABS_RY) \/
  (axis = "ABS_WHEEL"%string /\ code = ABS_WHEEL).
Proof.
  unfold axis_map. cbn [dict_get].
  destruct (String.eqb_spec axis "ABS_RX") as [->|_]; [intros [= <-]; auto|].
  destruct (String.eqb_spec axis "ABS_RY") as [->|_]; [intros [= <-]; auto|].
  destruct (String.eqb_spec axis "ABS_WHEEL") as [->|_]; [intros [= <-]; auto|].
  discriminate.
Qed.

(** What holds when [main] reaches the loop. *)
Lemma main_listening (host : Host) (config : Yaml.t)
  (device_path : string) (cfg : Config.t) (grab : bool) :
  Startup.main host config = Listening device_path cfg grab ->
  Startup.validate_config config = [] /\
  Yaml.gestures config = Some (Config.gestures cfg) /\
  (exists axis, Yaml.axis config = Some axis /\
                dict_get axis axis_map = Some (Config.axis_code cfg)) /\
  Startup.find_device host config = Return device_path /\
  (exists dev_name, device_name host device_path = Return dev_name) /\
  create_uinput host = None /\
  (grab = true -> grab_device host device_path = None) /\
  let settings := get_default (Yaml.settings config) Yaml.no_settings in
  Config.velocity_threshold cfg = get_default (Yaml.velocity_threshold settings) 3%float /\
  Config.acceleration cfg = get_default (Yaml.acceleration settings) false /\
  Config.cooldown_ms cfg = get_default (Yaml.cooldown settings) 300 /\
  Config.key_delay_ms cfg = get_default (Yaml.key_delay settings) 5 /\
  Config.history_size cfg = get_default (Yaml.history_size settings) 5 /\
  grab = get_default (Yaml.grab settings) true.
Proof.
  unfold Startup.main. cbv zeta.
  destruct (Startup.validate_config config) as [|e0 es] eqn:Hv; [|discriminate].
  destruct (Startup.find_device host config) as [p|e] eqn:Hf; [|discriminate].
  destruct (device_name host p) as [n|e] eqn:Hn; [|discriminate].
  destruct (Yaml.axis config) as [axis|] eqn:Ha; [|discriminate].
  unfold Startup.get_axis_code.
  destruct (dict_get axis axis_map) as [code|] eqn:Hc; [|discriminate].
  destruct (Yaml.gestures config) as [gs|] eqn:Hg; [|discriminate].
  destruct (create_uinput host) as [e|] eqn:Hu; [discriminate|].
  destruct (get_default (Yaml.grab _) true) eqn:Hgrab.
  - destruct (grab_device host p) as [[m|m]|] eqn:Hgd; try discriminate.
    intros [= <- <- <-]. cbn [Config.gestures Config.axis_code Config.velocity_threshold
      Config.acceleration Config.cooldown_ms Config.key_delay_ms Config.history_size].
    repeat split; auto. + now exists axis. + now exists n.
  - intros [= <- <- <-]. cbn [Config.gestures Config.axis_code Config.velocity_threshold
      Config.acceleration Config.cooldown_ms Config.key_delay_ms Config.history_size].
    repeat split; auto. + now exists axis. + now exists n. + discriminate.
Qed.

(** [main] enters the loop only past every check: the configuration is
    accepted by [validate_config], the axis is one of the three supported
    and the loop filters on its code, the device was found and opens, the
    virtual keyboard was created, and the device was grabbed if asked. *)
Theorem main_listens_after_checks (host : Host) (config : Yaml.t)
  (device_path : string) (cfg : Config.t) (grab : bool) :
  Startup.main host config = Listening device_path cfg grab ->
  Startup.validate_config config = [] /\
  Yaml.gestures config = Some (Config.gestures cfg) /\
  (exists axis, Yaml.axis config = Some axis /\
                Startup.get_axis_code axis = Return (Config.axis_code cfg)) /\
  In (Config.axis_code cfg) [ABS_RX; ABS_RY; ABS_WHEEL] /\
  Startup.find_device host config = Return device_path /\
  (exists dev_name, device_name host device_path = Return dev_name) /\
  create_uinput host = None /\
  (grab = true -> grab_device host device_path = None).
Proof.
  intros H. apply main_listening in H.
  destruct H as (Hv & Hg & (axis & Ha & Hc) & Hf & Hn & Hu & Hgr & _).
  repeat split; auto.
  - exists axis. split; [assumption|]. unfold Startup.get_axis_code. now rewrite Hc.
  - apply dict_get_axis_map in Hc. cbn [In].
    destruct Hc as [[_ ->] | [[_ ->] | [_ ->]]]; auto.
Qed.

(** Whatever configuration file leads [main] to the loop, over any stream of
    events two actions that follow each other are never called less than
    the cooldown apart. *)
Theorem main_dispatches_apart (host : Host) (config : Yaml.t)
  (device_path : string) (cfg : Config.t) (grab : bool)
  (events : list (Event * float)) :
  Startup.main host config = Listening device_path cfg grab ->
  separated cfg (dispatched (state_of (main_loop cfg events) (loop_init cfg))).
Proof.
  intros H. apply main_listening in H. destruct H as (Hv & Hg & _).
  assert (Hval : validate_config (Config.gestures cfg) = []).
  { pose proof (validated_sections config Hv) as Hm.
    now rewrite <- (validate_config_sections config _ Hm Hg). }
  apply (main_loop_keeps_gate cfg Hval events (loop_init cfg)).
  split; [apply separated_nil|]. intros l d E. now destruct l.
Qed.

(** A configuration with errors ends [main] with status 1 before anything
    outside the program is touched: whatever the host, stderr gets the line
    that names no path (the text [{config_path}] is printed as it is) and
    one line for each error. *)
Theorem main_reports_config_errors_first (host : Host) (config : Yaml.t) :
  Startup.validate_config config <> [] ->
  Startup.main host config
  = Exit 1 ("Error loading config from path: {config_path}"%string
            :: map (fun e => "  - " ++ e)%string (Startup.validate_config config)).
Proof.
  intros H. unfold Startup.main. cbv zeta.
  destruct (Startup.validate_config config); [contradiction | reflexivity].
Qed.

(** For a configuration of the types of [Yaml.t], where every section and
    gesture entry that is there is a mapping (a [settings] or [up] entry
    left empty is [None] in Python, and [main] then raises [AttributeError]
    or [TypeError] under no handler): [config['axis']] and
    [config['gestures']] never raise [KeyError], the check of
    [validate_config] coming first, and an exception that escapes the
    start-up was raised outside the program, by [UInput()] or, when it is no
    [OSError], by [device.grab()]. *)
Theorem main_uncaught_is_raised_outside (host : Host) (config : Yaml.t) (crash : Crash) :
  Startup.main host config = Uncaught crash ->
  exists e, crash = Raised e /\
    (create_uinput host = Some e \/
     exists device_path, grab_device host device_path = Some e).
Proof.
  unfold Startup.main. cbv zeta.
  destruct (Startup.validate_config config) as [|e0 es] eqn:Hv; [|discriminate].
  destruct (proj1 (missing_sections_nil config) (validated_sections config Hv))
    as (d & a & gs & Hd & Ha & Hg).
  rewrite Ha, Hg.
  destruct (Startup.find_device host config) as [p|e]; [|discriminate].
  destruct (device_name host p) as [n|e]; [|discriminate].
  unfold Startup.get_axis_code.
  destruct (dict_get a axis_map) as [code|]; [|discriminate].
  destruct (create_uinput host) as [e|] eqn:Hu.
  - intros [= <-]. exists e. split; [reflexivity | now left].
  - destruct (get_default _ true); [|discriminate].
    destruct (grab_device host p) as [[m|m]|] eqn:Hgd; try discriminate.
    intros [= <-]. exists (ValueError m). split; [reflexivity|]. right. now exists p.
Qed.

(** ** The action sink *)

Lemma prefix_KEY (s : string) : String.prefix "KEY_" ("KEY_" ++ s) = true.
Proof. cbn. now destruct s. Qed.

(** [parse_key] takes an int as the keycode, whatever its value; a text
    that is no number resolves through [ecodes] alone, under a name that
    starts with [KEY_]: the text stripped and in upper case, with [KEY_]
    put before it when it does not start with it. So a name may be given
    with or without [KEY_]: both spellings parse alike. *)
Theorem parse_key_names (env : Sink.Env) :
  (forall code, Sink.parse_key env (Sink.KeyCode code) = Return code) /\
  (forall text code,
     Sink.parse_key env (Sink.KeyText text) = Return code <->
     let s := Sink.strip_upper env text in
     Sink.int_of env s = Some code \/
     (Sink.int_of env s = None /\
      exists name,
        String.prefix "KEY_" name = true /\
        Sink.ecodes env name = Some code /\
        name = if String.prefix "KEY_" s then s else ("KEY_" ++ s)%string)) /\
  (forall text text',
     Sink.int_of env (Sink.strip_upper env text) = None ->
     Sink.int_of env (Sink.strip_upper env text') = None ->
     String.prefix "KEY_" (Sink.strip_upper env text) = false ->
     Sink.strip_upper env text' = ("KEY_" ++ Sink.strip_upper env text)%string ->
     Sink.parse_key env (Sink.KeyText text') = Sink.parse_key env (Sink.KeyText text)).
Proof.
  split; [reflexivity|]. split.
  2:{ intros text text' Hi Hi' Hp Hs. cbn [Sink.parse_key].
      now rewrite Hi, Hi', Hp, Hs, prefix_KEY. }
  intros text code. cbv zeta. cbn [Sink.parse_key].
  destruct (Sink.int_of env (Sink.strip_upper env text)) as [n|].
  - split.
    + intros [= ->]. now left.
    + intros [[= ->] | [H _]]; [reflexivity | discriminate].
  - set (s := Sink.strip_upper env text).
    destruct (String.prefix "KEY_" s) eqn:Ep.
    + destruct (Sink.ecodes env s) as [c|] eqn:Ee; split.
      * intros [= ->]. right. split; [reflexivity|]. now exists s.
      * intros [H | [_ (name & _ & Hn & ->)]]; [discriminate|].
        rewrite Ee in Hn. now injection Hn as ->.
      * discriminate.
      * intros [H | [_ (name & _ & Hn & ->)]]; [discriminate|]. congruence.
    + destruct (Sink.ecodes env ("KEY_" ++ s)) as [c|] eqn:Ee; split.
      * intros [= ->]. right. split; [reflexivity|].
        exists ("KEY_" ++ s)%string. now rewrite prefix_KEY.
      * intros [H | [_ (name & _ & Hn & ->)]]; [discriminate|].
        rewrite Ee in Hn. now injection Hn as ->.
      * discriminate.
      * intros [H | [_ (name & _ & Hn & ->)]]; [discriminate|]. congruence.
Qed.

Lemma parse_keys_returns (env : Sink.Env) (keys : list Sink.Key) (keycodes : list Z) :
  Forall2 (fun k c => Sink.parse_key env k = Return c) keys keycodes ->
  Sink.parse_keys env keys = Return keycodes.
Proof.
  induction 1 as [|k c keys keycodes Hk _ IH]; [reflexivity|].
  cbn [Sink.parse_keys]. now rewrite Hk, IH.
Qed.

Lemma parse_keys_throws (env : Sink.Env) (keys : list Sink.Key) (k : Sink.Key) (e' : error) :
  In k keys -> Sink.parse_key env k = Throw e' ->
  exists e, Sink.parse_keys env keys = Throw e.
Proof.
  induction keys as [|k0 keys IH]; [contradiction|].
  intros [-> | Hin] Hk; cbn [Sink.parse_keys].
  - rewrite Hk. now exists e'.
  - destruct (Sink.parse_key env k0) as [c|e]; [|now exists e].
    destruct (IH Hin Hk) as [e ->]. now exists e.
Qed.

Lemma all_succeed_app (env : Sink.Env) (es1 es2 : list Sink.Effect) :
  forall done,
    Sink.all_succeed env done (es1 ++ es2) =
    Sink.all_succeed env done es1 && Sink.all_succeed env (done ++ es1) es2.
Proof.
  induction es1 as [|e es1 IH]; intros done; cbn [app Sink.all_succeed].
  - now rewrite app_nil_r.
  - destruct (Sink.fails env done e); [reflexivity|].
    rewrite IH, <- app_assoc. reflexivity.
Qed.

(** Writing the keys one after the other, when no write fails. *)
Lemma for_each_writes (env : Sink.Env) (value : Z) (keycodes : list Z) :
  forall done,
    Sink.all_succeed env done
      (map (fun keycode => Sink.EvWrite Sink.EV_KEY keycode value) keycodes) = true ->
    Sink.for_each keycodes
      (fun keycode => Sink.perform env (Sink.EvWrite Sink.EV_KEY keycode value)) done
    = (Return tt,
       done ++ map (fun keycode => Sink.EvWrite Sink.EV_KEY keycode value) keycodes).
Proof.
  induction keycodes as [|k keycodes IH]; intros done H;
    cbn [map Sink.for_each Sink.all_succeed] in *.
  - unfold Sink.unit_io. now rewrite app_nil_r.
  - unfold Sink.bind_io. cbn [Sink.perform].
    destruct (Sink.fails env done (Sink.EvWrite Sink.EV_KEY k value)); [discriminate|].
    rewrite (IH _ H), <- app_assoc. reflexivity.
Qed.

(** The run of [emit_keys] up to the sleep, when the keys parse and no write
    fails. *)
Lemma emit_keys_pressed (env : Sink.Env) (keys : Sink.Keys) (key_delay : Z)
  (done : list Sink.Effect) (keycodes : list Z) :
  Sink.parse_keys env (Sink.key_list keys) = Return keycodes ->
  Sink.all_succeed env done (Sink.presses keycodes ++ [Sink.EvSyn]) = true ->
  Sink.emit_keys env keys key_delay done =
  let pressed := done ++ Sink.presses keycodes ++ [Sink.EvSyn] in
  if key_delay <? 0 then
    (Throw (ValueError "sleep length must be non-negative"), pressed)
  else
    match Sink.fails env pressed (Sink.Sleep key_delay) with
    | Some err => (Throw err, pressed)
    | None =>
        Sink.bind_io
          (Sink.for_each keycodes
             (fun keycode => Sink.perform env (Sink.EvWrite Sink.EV_KEY keycode 0)))
          (fun _ => Sink.perform env Sink.EvSyn)
          (pressed ++ [Sink.Sleep key_delay])
    end.
Proof.
  intros Hp Hs. rewrite all_succeed_app in Hs. apply andb_prop in Hs.
  destruct Hs as [Hw Hsyn]. cbn [Sink.all_succeed] in Hsyn.
  unfold Sink.emit_keys. unfold Sink.bind_io at 1. unfold Sink.lift_io. rewrite Hp.
  unfold Sink.bind_io at 1. unfold Sink.presses in *.
  rewrite (for_each_writes env 1 keycodes done Hw).
  unfold Sink.bind_io at 1. cbn [Sink.perform].
  destruct (Sink.fails env _ Sink.EvSyn); [discriminate|].
  cbv zeta. rewrite <- !app_assoc.
  unfold Sink.bind_io at 1. cbn [Sink.perform].
  destruct (key_delay <? 0); [reflexivity|].
  destruct (Sink.fails env _ (Sink.Sleep key_delay)); [reflexivity|].
  now rewrite <- !app_assoc.
Qed.

(** When every key parses, the delay is not negative and no call fails,
    [emit_keys] presses the keys in the order given, synchronises, sleeps,
    releases the same keys in the same order, and synchronises. *)
Theorem emit_keys_presses_then_releases
  (env : Sink.Env) (keys : Sink.Keys) (key_delay : Z)
  (done : list Sink.Effect) (keycodes : list Z) :
  Forall2 (fun k c => Sink.parse_key env k = Return c) (Sink.key_list keys) keycodes ->
  0 <= key_delay ->
  Sink.all_succeed env done
    (Sink.presses keycodes ++ [Sink.EvSyn; Sink.Sleep key_delay]
     ++ Sink.releases keycodes ++ [Sink.EvSyn]) = true ->
  Sink.emit_keys env keys key_delay done =
  (Return tt,
   done ++ Sink.presses keycodes ++ [Sink.EvSyn; Sink.Sleep key_delay]
        ++ Sink.releases keycodes ++ [Sink.EvSyn]).
Proof.
  intros Hp Hd Hs. apply parse_keys_returns in Hp.
  change [Sink.EvSyn; Sink.Sleep key_delay]
    with ([Sink.EvSyn] ++ [Sink.Sleep key_delay]) in *.
  rewrite !app_assoc in Hs. rewrite !all_succeed_app in Hs.
  apply andb_prop in Hs. destruct Hs as [Hs Hsyn2].
  apply andb_prop in Hs. destruct Hs as [Hs Hrel].
  apply andb_prop in Hs. destruct Hs as [Hs Hsleep].
  rewrite <- all_succeed_app in Hs.
  rewrite (emit_keys_pressed env keys key_delay done keycodes Hp Hs). cbv zeta.
  destruct (key_delay <? 0) eqn:E; [apply Z.ltb_lt in E; lia|].
  cbn [Sink.all_succeed] in Hsleep, Hsyn2.
  destruct (Sink.fails env _ (Sink.Sleep key_delay)); [discriminate|].
  unfold Sink.bind_io. unfold Sink.releases in *.
  repeat rewrite <- app_assoc in Hrel. repeat rewrite <- app_assoc in Hsyn2.
  cbn [app] in Hrel, Hsyn2.
  rewrite for_each_writes by (repeat rewrite <- app_assoc; exact Hrel).
  cbn [Sink.perform]. repeat rewrite <- app_assoc. cbn [app].
  destruct (Sink.fails env _ Sink.EvSyn); [discriminate|].
  repeat rewrite <- app_assoc. reflexivity.
Qed.

Lemma execute_action_keys (env : Sink.Env) (keys : Sink.Keys) (command : option string)
  (key_delay : Z) (done done' : list Sink.Effect) (e : error) :
  Sink.emit_keys env keys key_delay done = (Throw e, done') ->
  Sink.execute_action env (Sink.Mapping (Some keys) command) key_delay done
  = (Return tt, done' ++ [Sink.Complain (Sink.KeyEmitError e)]).
Proof.
  intros H. cbn [Sink.execute_action]. unfold Sink.try_except. now rewrite H.
Qed.

(** A negative [key_delay] leaves the keys pressed: [emit_keys] presses them
    and synchronises, [time.sleep] raises, and no key is released;
    [execute_action] reports the error and returns. *)
Theorem emit_keys_negative_delay_keeps_keys_down
  (env : Sink.Env) (keys : Sink.Keys) (command : option string) (key_delay : Z)
  (done : list Sink.Effect) (keycodes : list Z) :
  Forall2 (fun k c => Sink.parse_key env k = Return c) (Sink.key_list keys) keycodes ->
  key_delay < 0 ->
  Sink.all_succeed env done (Sink.presses keycodes ++ [Sink.EvSyn]) = true ->
  let e := ValueError "sleep length must be non-negative" in
  Sink.emit_keys env keys key_delay done
  = (Throw e, done ++ Sink.presses keycodes ++ [Sink.EvSyn]) /\
  Sink.execute_action env (Sink.Mapping (Some keys) command) key_delay done
  = (Return tt, done ++ Sink.presses keycodes
                  ++ [Sink.EvSyn; Sink.Complain (Sink.KeyEmitError e)]).
Proof.
  intros Hp Hd Hs e. apply parse_keys_returns in Hp.
  assert (H : Sink.emit_keys env keys key_delay done
              = (Throw e, done ++ Sink.presses keycodes ++ [Sink.EvSyn])).
  { rewrite (emit_keys_pressed env keys key_delay done keycodes Hp Hs). cbv zeta.
    apply Z.ltb_lt in Hd. now rewrite Hd. }
  split; [exact H|].
  rewrite (execute_action_keys env keys command key_delay done _ e H).
  now rewrite <- !app_assoc.
Qed.

(** A key that does not parse keeps every key from being pressed:
    [emit_keys] raises before its first call, and [execute_action] only
    reports the error. *)
Theorem emit_keys_all_or_nothing
  (env : Sink.Env) (keys : Sink.Keys) (command : option string) (key_delay : Z)
  (done : list Sink.Effect) (k : Sink.Key) (e' : error) :
  In k (Sink.key_list keys) -> Sink.parse_key env k = Throw e' ->
  exists e,
    Sink.emit_keys env keys key_delay done = (Throw e, done) /\
    Sink.execute_action env (Sink.Mapping (Some keys) command) key_delay done
    = (Return tt, done ++ [Sink.Complain (Sink.KeyEmitError e)]).
Proof.
  intros Hin Hk. destruct (parse_keys_throws env _ k e' Hin Hk) as [e He].
  exists e.
  assert (H : Sink.emit_keys env keys key_delay done = (Throw e, done)).
  { unfold Sink.emit_keys. unfold Sink.bind_io at 1. unfold Sink.lift_io.
    now rewrite He. }
  split; [exact H|]. exact (execute_action_keys env keys command key_delay done done e H).
Qed.

(** *** What a computation adds to the calls made *)

Lemma adds_only_unit {A : Type} (P : Sink.Effect -> bool) (a : A) :
  Sink.adds_only P (Sink.unit_io a).
Proof. intros done. exists []. now rewrite app_nil_r. Qed.

Lemma adds_only_lift {A : Type} (P : Sink.Effect -> bool) (r : outcome A) :
  Sink.adds_only P (Sink.lift_io r).
Proof. intros done. exists []. now rewrite app_nil_r. Qed.

Lemma adds_only_bind {A B : Type} (P : Sink.Effect -> bool)
  (c : Sink.IO A) (k : A -> Sink.IO B) :
  Sink.adds_only P c -> (forall a, Sink.adds_only P (k a)) ->
  Sink.adds_only P (Sink.bind_io c k).
Proof.
  intros Hc Hk done. unfold Sink.bind_io.
  destruct (Hc done) as (added & E & HP).
  destruct (c done) as [[a|e] done']; cbn [snd] in E; subst done'.
  - destruct (Hk a (done ++ added)) as (added' & E' & HP').
    exists (added ++ added'). rewrite E', app_assoc. split; [reflexivity|].
    rewrite forallb_app. now rewrite HP, HP'.
  - now exists added.
Qed.

Lemma adds_only_try (P : Sink.Effect -> bool)
  (c : Sink.IO unit) (handler : error -> Sink.IO unit) :
  Sink.adds_only P c -> (forall e, Sink.adds_only P (handler e)) ->
  Sink.adds_only P (Sink.try_except c handler).
Proof.
  intros Hc Hh done. unfold Sink.try_except.
  destruct (Hc done) as (added & E & HP).
  destruct (c done) as [[a|e] done']; cbn [snd] in E; subst done'.
  - now exists added.
  - destruct (Hh e (done ++ added)) as (added' & E' & HP').
    exists (added ++ added'). rewrite E', app_assoc. split; [reflexivity|].
    rewrite forallb_app. now rewrite HP, HP'.
Qed.

Lemma adds_only_perform (P : Sink.Effect -> bool) (env : Sink.Env) (e : Sink.Effect) :
  P e = true -> Sink.adds_only P (Sink.perform env e).
Proof.
  intros HP done.
  assert (H : snd (Sink.perform env e done) = done \/
              snd (Sink.perform env e done) = done ++ [e]).
  { destruct e as [t c v| |d|c|c]; cbn [Sink.perform].
    - destruct (Sink.fails env done (Sink.EvWrite t c v)); cbn [snd]; auto.
    - destruct (Sink.fails env done Sink.EvSyn); cbn [snd]; auto.
    - destruct (d <? 0); [now left|].
      destruct (Sink.fails env done (Sink.Sleep d)); cbn [snd]; auto.
    - destruct (Sink.fails env done (Sink.Shell c)); cbn [snd]; auto.
    - now right. }
  destruct H as [-> | ->].
  - exists []. now rewrite app_nil_r.
  - exists [e]. cbn [forallb]. now rewrite HP.
Qed.

Lemma adds_only_for_each {A : Type} (P : Sink.Effect -> bool)
  (xs : list A) (body : A -> Sink.IO unit) :
  (forall x, Sink.adds_only P (body x)) -> Sink.adds_only P (Sink.for_each xs body).
Proof.
  intros Hb. induction xs as [|x xs IH]; cbn [Sink.for_each].
  - apply adds_only_unit.
  - apply adds_only_bind; [apply Hb | intros _; exact IH].
Qed.

Lemma emit_keys_adds (env : Sink.Env) (keys : Sink.Keys) (key_delay : Z) :
  Sink.adds_only Sink.is_key_effect (Sink.emit_keys env keys key_delay).
Proof.
  unfold Sink.emit_keys.
  apply adds_only_bind; [apply adds_only_lift | intros keycodes].
  apply adds_only_bind;
    [apply adds_only_for_each; intros k; now apply adds_only_perform | intros _].
  apply adds_only_bind; [now apply adds_only_perform | intros _].
  apply adds_only_bind; [now apply adds_only_perform | intros _].
  apply adds_only_bind;
    [apply adds_only_for_each; intros k; now apply adds_only_perform | intros _].
  now apply adds_only_perform.
Qed.

Lemma perform_complain (env : Sink.Env) (c : Sink.Complaint) (done : list Sink.Effect) :
  Sink.perform env (Sink.Complain c) done = (Return tt, done ++ [Sink.Complain c]).
Proof. reflexivity. Qed.

(** [execute_action] never raises, whatever fails inside it, and [keys]
    comes before [command]: for an action with [keys] no command is run,
    even when the keys cannot be emitted; with [command] alone the command
    is run once and nothing is written to the keyboard; every other action
    is only reported. *)
Theorem execute_action_never_raises
  (env : Sink.Env) (action : Sink.ActionValue) (key_delay : Z)
  (done : list Sink.Effect) :
  exists added,
    Sink.execute_action env action key_delay done = (Return tt, done ++ added) /\
    match action with
    | Sink.Mapping (Some _) _ => forallb Sink.not_shell added = true
    | Sink.Mapping None (Some command) =>
        match Sink.fails env done (Sink.Shell command) with
        | None => added = [Sink.Shell command]
        | Some e => added = [Sink.Complain (Sink.CommandError e)]
        end
    | Sink.Mapping None None => added = [Sink.Complain Sink.InvalidAction]
    | Sink.NotMapping => added = [Sink.Complain Sink.InvalidActionType]
    end.
Proof.
  destruct action as [[keys|] [command|]|]; cbn [Sink.execute_action].
  1, 2: unfold Sink.try_except;
    destruct (emit_keys_adds env keys key_delay done) as (added & E & HP);
    assert (Hns : forallb Sink.not_shell added = true)
      by (rewrite forallb_forall in HP |- *; intros x Hx;
          specialize (HP x Hx); now destruct x);
    destruct (Sink.emit_keys env keys key_delay done) as [[[]|e] done'];
    cbn [snd] in E; subst done';
    [ now exists added
    | exists (added ++ [Sink.Complain (Sink.KeyEmitError e)]);
      rewrite perform_complain, app_assoc; split; [reflexivity|];
      rewrite forallb_app, Hns; reflexivity ].
  - unfold Sink.try_except. cbn [Sink.perform].
    destruct (Sink.fails env done (Sink.Shell command)) as [e|].
    + now exists [Sink.Complain (Sink.CommandError e)].
    + now exists [Sink.Shell command].
  - now exists [Sink.Complain Sink.InvalidAction].
  - now exists [Sink.Complain Sink.InvalidActionType].
Qed.

(** ** A rise, for every setting *)
















(** ** Instances *)

(** Three samples into a buffer of capacity 2. *)
Lemma sample_buffer_bounded_fifo_witness :
  0 <= 2 /\
  len (history (state_of (calls [AddSample 0 10; AddSample 1 20; AddSample 2 30])
                         (init 3 false 2))) <= 2.
Proof.
  split; [lia|].
  exact (proj1 (proj2 (sample_buffer_bounded_fifo 3 false 2
           [AddSample 0 10; AddSample 1 20; AddSample 2 30] ltac:(lia)))).
Defined.

(** The two rises, under the configuration that binds ['up'] alone. *)
Lemma cooldown_gate_witness :
  validate_config (Config.gestures (up_only false)) = [] /\
  separated (up_only false)
    (dispatched (state_of (main_loop (up_only false)
                             (rise_from_zero 100 ++ rise_from_zero 101))
                          (loop_init (up_only false)))).
Proof.
  split; [reflexivity|].
  exact (proj1 (proj2 (cooldown_gate (up_only false) eq_refl)) _).
Defined.

(** The gesture at 301 ms, 301 ms after the last one. *)
Lemma loop_clears_only_on_action_witness :
  handled (up_only false) (mkEvent EV_ABS 8 20 0.01) = true /\
  history (tracker (state_of (loop_body (up_only false) (mkEvent EV_ABS 8 20 0.01) 0.301)
                             dispatched_at_zero)) = [].
Proof.
  split; [reflexivity|].
  refine (proj1 (proj1 (proj2 (proj2 (proj2 (proj2
    (loop_clears_only_on_action (up_only false) (mkEvent EV_ABS 8 20 0.01)
       0.301 dispatched_at_zero eq_refl))))) Up key_up _ _ _));
    vm_compute; reflexivity.
Defined.

(** A buffer of three samples 1 s apart, speeding up. *)
Lemma get_acceleration_checkpoints_witness :
  get_acceleration speeding_up_below_base = (Ok 3%float, speeding_up_below_base).
Proof.
  exact (get_acceleration_checkpoints speeding_up_below_base
           (0%float, 10) (1%float, 11) (2%float, 15) [(1%float, 11)]
           eq_refl eq_refl ltac:(vm_compute; discriminate) eq_refl).
Defined.

(** Two samples, classified [Up]. *)
Lemma detect_gesture_overwrites_witness :
  let tr := set_history [(0%float, 10); (1%float, 20)] (init 3 false 5) in
  exists v a,
    value_of get_velocity tr = Ok v /\
    velocity (state_of detect_gesture tr) = Some v /\
    acceleration (state_of detect_gesture tr) = Some a /\
    (if (abs v <? velocity_threshold tr)%float then a = 0%float
     else if acceleration_enabled tr
          then value_of get_acceleration tr = Ok a
          else a = 0%float).
Proof.
  exact (detect_gesture_overwrites
           (set_history [(0%float, 10); (1%float, 20)] (init 3 false 5)) (Some Up)
           ltac:(vm_compute; discriminate) ltac:(vm_compute; reflexivity)).
Defined.

(** Tracking enabled, on an empty buffer. *)
Lemma get_acceleration_off_witness :
  get_acceleration (init 3 true 5) = (Ok 0%float, init 3 true 5).
Proof.
  apply (get_acceleration_off (init 3 true 5)). right. reflexivity.
Defined.

(** A buffer of one sample. *)
Lemma detect_gesture_short_witness :
  detect_gesture (set_history [(0%float, 10)] (init 3 true 5))
  = (Ok None, set_history [(0%float, 10)] (init 3 true 5)).
Proof.
  apply (detect_gesture_short (set_history [(0%float, 10)] (init 3 true 5))).
  reflexivity.
Defined.

(** Three samples 1 s apart. *)
Lemma get_acceleration_time_ordered_witness :
  get_acceleration speeding_up_below_base = (Ok 3%float, speeding_up_below_base).
Proof.
  exact (get_acceleration_time_ordered speeding_up_below_base
           (0%float, 10) (1%float, 11) (2%float, 15) [(1%float, 11)]
           eq_refl eq_refl ltac:(vm_compute; discriminate) eq_refl
           eq_refl eq_refl).
Defined.

(** Five calls on a buffer of capacity 2, the second with value 0. *)
Lemma buffer_is_sliding_window_witness :
  history (state_of (calls [AddSample 0 10; AddSample 1 0; AddSample 2 20;
                            AddSample 3 30; AddSample 4 40])
                    (init 3 false 2))
  = [(3%float, 30); (4%float, 40)].
Proof.
  exact (buffer_is_sliding_window 3 false 2
           [AddSample 0 10; AddSample 1 0; AddSample 2 20;
            AddSample 3 30; AddSample 4 40] ltac:(lia)).
Defined.

(** A buffer that comes back to the value it started from. *)
Lemma detect_gesture_no_motion_witness :
  detect_gesture (mkTracker 3 true [(0%float, 10); (1%float, 40); (2%float, 10)] 5 None None) =
    (Ok None, mkTracker 3 true [(0%float, 10); (1%float, 40); (2%float, 10)] 5
                (Some 0%float) (Some 0%float)).
Proof.
  exact (proj1 (detect_gesture_no_motion
           (mkTracker 3 true [(0%float, 10); (1%float, 40); (2%float, 10)] 5 None None)
           (0%float, 10) (2%float, 10) [(1%float, 40)]
           eq_refl eq_refl eq_refl eq_refl eq_refl)).
Defined.

(** An event of value 0 after a gesture. *)
Lemma loop_body_needs_two_samples_witness :
  dispatched (state_of (loop_body (up_only false) (mkEvent EV_ABS 8 0 0.5) 0.5)
                       dispatched_at_zero) = dispatched dispatched_at_zero.
Proof.
  exact (proj1 (proj2 (loop_body_needs_two_samples (up_only false)
           (mkEvent EV_ABS 8 0 0.5) 0.5 dispatched_at_zero eq_refl
           (or_introl eq_refl)))).
Defined.

(** A rise with acceleration tracking enabled, at times that go forward. *)
Lemma main_loop_time_ordered_returns_witness :
  value_of (main_loop (up_only true) (rise_from_zero 100)) (loop_init (up_only true))
  = Ok tt.
Proof.
  apply (main_loop_time_ordered_returns (up_only true) (rise_from_zero 100)).
  vm_compute. split; repeat constructor.
Defined.

(** The clock stepping back, with acceleration tracking disabled. *)
Lemma main_loop_acceleration_off_returns_witness :
  value_of (main_loop (up_only false)
              [axis_event 0 1; axis_event 1 2; axis_event 0 3])
           (loop_init (up_only false))
  = Ok tt.
Proof.
  apply (main_loop_acceleration_off_returns (up_only false)
           [axis_event 0 1; axis_event 1 2; axis_event 0 3]).
  reflexivity.
Defined.

(** Two samples one second apart, the value rising from 10 to 20. *)
Lemma detect_gesture_direction_witness :
  value_of detect_gesture (set_history [(0%float, 10); (1%float, 20)] (init 3 false 5))
  = Ok (Some Up) /\
  10 < 20.
Proof.
  split; [reflexivity|].
  exact (detect_gesture_direction
           (set_history [(0%float, 10); (1%float, 20)] (init 3 false 5))
           (0%float, 10) (1%float, 20) [] Up
           eq_refl eq_refl eq_refl eq_refl eq_refl
           (conj eq_refl eq_refl) eq_refl).
Defined.

(** A rise that speeds up, classified [Up] with acceleration tracking. *)
Lemma acceleration_only_suppresses_witness :
  value_of detect_gesture
    (mkTracker 3 false [(0%float, 10); (1%float, 20); (2%float, 40)] 5 None None)
  = Ok (Some Up).
Proof.
  exact (acceleration_only_suppresses
           (mkTracker 3 true [(0%float, 10); (1%float, 20); (2%float, 40)] 5 None None)
           (mkTracker 3 false [(0%float, 10); (1%float, 20); (2%float, 40)] 5 None None)
           Up eq_refl eq_refl eq_refl eq_refl).
Defined.

(** A configuration that passes, and one that differs from it only in
    what [validate_config] does not read. *)
Lemma validate_config_reads_up_and_down_witness :
  Startup.validate_config unchecked_config
  = Startup.validate_config (by_name "touch strip").
Proof.
  apply (validate_config_reads_up_and_down unchecked_config (by_name "touch strip")
           [("up"%string, mkGestureConfig (Some key_up));
            ("Down"%string, mkGestureConfig None)]
           [("up"%string, mkGestureConfig (Some key_up))]);
    try reflexivity; split; discriminate.
Defined.

(** Two sections missing, and a gesture without action that is not
    reported. *)
Lemma validate_config_missing_section_witness :
  Startup.validate_config gestures_only
  = ["Missing 'device' section"%string; "Missing 'axis' field"%string] /\
  In "Missing 'axis' field"%string (Startup.validate_config gestures_only).
Proof.
  split; [reflexivity|].
  apply (proj2 (validate_config_missing_section gestures_only (or_introl eq_refl))).
  right. left. split; reflexivity.
Defined.

(** The path of an input device: a character device, not a regular file. *)
Lemma find_device_path_is_regular_file_witness :
  Startup.find_device (host_of keyboard_and_strip None) (by_path "/dev/input/event5")
  = Throw (ValueError "Device path not found: /dev/input/event5").
Proof.
  apply (proj1 (proj2 (find_device_path_is_regular_file
           (host_of keyboard_and_strip None) (by_path "/dev/input/event5")
           (Yaml.mkDevice (Some "/dev/input/event5"%string) None)
           "/dev/input/event5" eq_refl eq_refl))).
  vm_compute. discriminate.
Defined.

(** The strip, listed after the keyboard. *)
Lemma find_device_first_match_witness :
  Startup.find_device (host_of keyboard_and_strip None) (by_name "Touch Strip")
  = Return "/dev/input/event5"%string.
Proof.
  apply (proj2 (find_device_first_match
           (host_of keyboard_and_strip None) (by_name "Touch Strip")
           (Yaml.mkDevice None (Some "Touch Strip"%string)) "Touch Strip"
           "/dev/input/event5" eq_refl eq_refl eq_refl)).
  exists ["/dev/input/event3"%string], [], "Wacom Intuos Touch Strip"%string.
  split; [reflexivity|]. split; [|split; reflexivity].
  constructor; [|constructor].
  exists "AT Translated Keyboard"%string. split; reflexivity.
Defined.

(** The strip, listed after a keyboard that cannot be opened. *)
Lemma find_device_by_name_raises_witness :
  Startup.find_device (host_of locked_keyboard_and_strip None) (by_name "Touch Strip")
  = Throw (OSError "Permission denied").
Proof.
  apply (proj2 (find_device_by_name_raises
           (host_of locked_keyboard_and_strip None) (by_name "Touch Strip")
           (Yaml.mkDevice None (Some "Touch Strip"%string)) "Touch Strip"
           (OSError "Permission denied") eq_refl eq_refl eq_refl)).
  right. exists [], "/dev/input/event3"%string, ["/dev/input/event5"%string].
  split; [reflexivity|]. split; [constructor | reflexivity].
Defined.

(** The strip found by name, with the default settings. *)
Lemma main_listens_after_checks_witness :
  Startup.main (host_of keyboard_and_strip None) (by_name "Touch Strip")
  = Listening "/dev/input/event5" (up_only false) true /\
  Startup.find_device (host_of keyboard_and_strip None) (by_name "Touch Strip")
  = Return "/dev/input/event5"%string.
Proof.
  split; [reflexivity|].
  exact (proj1 (proj2 (proj2 (proj2 (proj2
    (main_listens_after_checks (host_of keyboard_and_strip None)
       (by_name "Touch Strip") "/dev/input/event5" (up_only false) true
       eq_refl)))))).
Defined.

(** Two rises, from the configuration that finds the strip by name. *)
Lemma main_dispatches_apart_witness :
  Startup.main (host_of keyboard_and_strip None) (by_name "Touch Strip")
  = Listening "/dev/input/event5" (up_only false) true /\
  separated (up_only false)
    (dispatched (state_of (main_loop (up_only false)
                             (rise_from_zero 100 ++ rise_from_zero 101))
                          (loop_init (up_only false)))).
Proof.
  split; [reflexivity|].
  exact (main_dispatches_apart (host_of keyboard_and_strip None)
           (by_name "Touch Strip") "/dev/input/event5" (up_only false) true
           (rise_from_zero 100 ++ rise_from_zero 101) eq_refl).
Defined.

(** Two sections missing. *)
Lemma main_reports_config_errors_first_witness :
  Startup.main (host_of keyboard_and_strip None) gestures_only
  = Exit 1 ["Error loading config from path: {config_path}"%string;
            "  - Missing 'device' section"%string;
            "  - Missing 'axis' field"%string].
Proof.
  apply (main_reports_config_errors_first (host_of keyboard_and_strip None)
           gestures_only).
  vm_compute. discriminate.
Defined.

(** No access to [/dev/uinput]. *)
Lemma main_uncaught_is_raised_outside_witness :
  exists e,
    Raised (OSError "Permission denied") = Raised e /\
    (create_uinput (host_of keyboard_and_strip (Some (OSError "Permission denied")))
     = Some e \/
     exists device_path,
       grab_device (host_of keyboard_and_strip (Some (OSError "Permission denied")))
                   device_path = Some e).
Proof.
  exact (main_uncaught_is_raised_outside
           (host_of keyboard_and_strip (Some (OSError "Permission denied")))
           (by_name "Touch Strip") (Raised (OSError "Permission denied")) eq_refl).
Defined.

(** Control and C, with the default delay. *)
Lemma emit_keys_presses_then_releases_witness :
  Sink.emit_keys three_keys ctrl_c 5 []
  = (Return tt,
     [Sink.EvWrite 1 29 1; Sink.EvWrite 1 46 1; Sink.EvSyn; Sink.Sleep 5;
      Sink.EvWrite 1 29 0; Sink.EvWrite 1 46 0; Sink.EvSyn]).
Proof.
  apply (emit_keys_presses_then_releases three_keys ctrl_c 5 [] [29; 46]).
  - repeat constructor.
  - lia.
  - reflexivity.
Defined.

(** Control and C, with a delay of -5 ms. *)
Lemma emit_keys_negative_delay_keeps_keys_down_witness :
  Sink.execute_action three_keys (Sink.Mapping (Some ctrl_c) None) (-5) []
  = (Return tt,
     [Sink.EvWrite 1 29 1; Sink.EvWrite 1 46 1; Sink.EvSyn;
      Sink.Complain (Sink.KeyEmitError
                       (ValueError "sleep length must be non-negative"))]).
Proof.
  apply (proj2 (emit_keys_negative_delay_keeps_keys_down three_keys ctrl_c None (-5)
                  [] [29; 46] ltac:(repeat constructor) ltac:(lia) eq_refl)).
Defined.

(** A key that has no name in [ecodes], after one that has. *)
Lemma emit_keys_all_or_nothing_witness :
  exists e,
    Sink.emit_keys three_keys
      (Sink.Listed [Sink.KeyText "UP"; Sink.KeyText "BTN_LEFT"]) 5 [] = (Throw e, []) /\
    Sink.execute_action three_keys
      (Sink.Mapping (Some (Sink.Listed [Sink.KeyText "UP"; Sink.KeyText "BTN_LEFT"]))
                    (Some "true"%string)) 5 []
    = (Return tt, [] ++ [Sink.Complain (Sink.KeyEmitError e)]).
Proof.
  apply (emit_keys_all_or_nothing three_keys
           (Sink.Listed [Sink.KeyText "UP"; Sink.KeyText "BTN_LEFT"])
           (Some "true"%string) 5 [] (Sink.KeyText "BTN_LEFT")
           (ValueError "Unknown key: KEY_BTN_LEFT")).
  - right. left. reflexivity.
  - reflexivity.
Defined.

